(** * ZoneGuard: the analytics pipeline, embedded and verified

    A shallow embedding of the forecasting, anomaly, reasoning, action and
    orchestration code of ZoneGuard together with its evaluation metrics,
    its replay harness, its data simulator and the API endpoints that only
    read the stored records.

    Conventions of the embedding.
    - A Python [float] is an exact rational ([Q]); [round], [min], [max] and
      [np.clip] act on the exact value.  Equalities between computed numbers
      are therefore stated with [==] ([Qeq]).  The square root of
      [evaluation/metrics.py] lives in [R].  Where the code rounds a quotient
      it has computed, the binary quotient can lie on the other side of a
      rounding tie than the exact one; what is stated of such a rounding is
      that it returns a nearest multiple, whichever way a tie falls.
    - A Python [int] is a [Z]; a [str] is a [string]; a [dict] used as a keyed
      store is a [gmap]; a raised exception is the left injection of a sum.
    - A pandas [Timestamp] is the number of seconds since the epoch (a [Z]).
    - Third-party estimators and services (the gradient-boosted regressor,
      the isolation forest, the HTTP explanation service, the vector store's
      similarity search, [json]'s and [float]'s text rendering, the process
      clock, numpy's random generator and its sine and cosine) are
      interfaces: type classes whose operations are arbitrary. *)

From Stdlib Require Import ZArith QArith Qround Qabs Qminmax Qreals Reals Lia Lra Lqa.
From Stdlib Require Import Sorting.Sorted Sorting.Permutation.
From stdpp Require Import base option list strings pretty gmap sorting.

Local Open Scope Z_scope.

(** ** Python values and exceptions *)

Module Py.

(** An exception: its class name and its message. *)
Record exn : Type := Exn { exn_class : string; exn_msg : string }.

Definition ValueError (msg : string) : exn := Exn "ValueError" msg.

(** The outcome of a call: it raises or it returns. *)
Definition result (A : Type) : Type := (exn + A)%type.

Definition ret {A} (a : A) : result A := inr a.
Definition raise {A} (e : exn) : result A := inl e.

Definition bind {A B} (m : result A) (k : A -> result B) : result B :=
  match m with
  | inl e => inl e
  | inr a => k a
  end.

(** [try: body except Exception: handler]. *)
Definition try_except {A} (body : result A) (handler : exn -> result A) : result A :=
  match body with
  | inl e => handler e
  | inr a => inr a
  end.

Definition raises {A} (m : result A) : Prop := exists e, m = inl e.

(** [round(x)] to the nearest integer, ties to the even neighbour. *)
Definition round_half_even (q : Q) : Z :=
  let f := Qfloor q in
  match (q - inject_Z f ?= 1 # 2)%Q with
  | Lt => f
  | Gt => f + 1
  | Eq => if Z.even f then f else f + 1
  end.

(** [round(x, ndigits)]. *)
Definition round (q : Q) (ndigits : nat) : Q :=
  let scale := Pos.pow 10 (Pos.of_nat ndigits) in
  match ndigits with
  | O => inject_Z (round_half_even q)
  | S _ => Qmake (round_half_even (q * inject_Z (Zpos scale))) scale
  end.

(** [np.clip(x, lo, hi)], that is [minimum(maximum(x, lo), hi)]. *)
Definition clip (x lo hi : Q) : Q := Qmin (Qmax x lo) hi.

(** Python's [min(a, b)] and [max(a, b)] on two arguments keep the first
    one on a tie, as [Qmin] and [Qmax] do. *)
Definition min (a b : Q) : Q := Qmin a b.
Definition max (a b : Q) : Q := Qmax a b.

End Py.

Notation "'letM' x ':=' m 'in' k" := (Py.bind m (fun x => k))
  (at level 10, x name, m at level 100, k at level 200).

(** ** evaluation/business_metrics.py *)

Module BusinessMetrics.

Record BusinessImpact : Type := {
  incident_prevention_rate : Q;
  estimated_mttr_reduction_minutes : Q;
  action_acceptance_rate : Q;
  estimated_ops_hours_saved : Q
}.

(** The quotients are exact here and the nearest binary numbers in the
    code, so at a tie of a rounding the two can fall on different sides. *)
Definition estimate_impact
    (anomalies_detected corrective_actions acknowledged_actions baseline_incidents : Z)
    : BusinessImpact :=
  let baseline_incidents := if baseline_incidents <=? 0 then 1 else baseline_incidents in
  let incident_prevention_rate :=
    Py.min 1 (inject_Z anomalies_detected / inject_Z baseline_incidents) in
  let action_acceptance_rate :=
    if corrective_actions =? 0 then 0%Q
    else Py.min 1 (inject_Z acknowledged_actions / inject_Z corrective_actions) in
  let estimated_mttr_reduction_minutes :=
    Py.round (12 + 38 * action_acceptance_rate) 2 in
  let estimated_ops_hours_saved :=
    Py.round (inject_Z anomalies_detected * (35 # 100)
              + inject_Z acknowledged_actions * (22 # 100)) 2 in
  {| incident_prevention_rate := Py.round incident_prevention_rate 4;
     estimated_mttr_reduction_minutes := estimated_mttr_reduction_minutes;
     action_acceptance_rate := Py.round action_acceptance_rate 4;
     estimated_ops_hours_saved := estimated_ops_hours_saved |}.

(** Two summaries agree when their four numbers do. *)
Definition impact_eq (a b : BusinessImpact) : Prop :=
  (incident_prevention_rate a == incident_prevention_rate b
   /\ estimated_mttr_reduction_minutes a == estimated_mttr_reduction_minutes b
   /\ action_acceptance_rate a == action_acceptance_rate b
   /\ estimated_ops_hours_saved a == estimated_ops_hours_saved b)%Q.

(** The estimator as the specification words it: unclamped acceptance
    rate, no rounding, the baseline used as given. *)
Definition spec_estimate_impact
    (anomalies_detected corrective_actions acknowledged_actions baseline_incidents : Z)
    : BusinessImpact :=
  let acceptance :=
    if corrective_actions =? 0 then 0%Q
    else (inject_Z acknowledged_actions / inject_Z corrective_actions)%Q in
  {| incident_prevention_rate :=
       Qmin 1 (inject_Z anomalies_detected / inject_Z baseline_incidents);
     estimated_mttr_reduction_minutes := 12 + 38 * acceptance;
     action_acceptance_rate := acceptance;
     estimated_ops_hours_saved :=
       inject_Z anomalies_detected * (35 # 100)
       + inject_Z acknowledged_actions * (22 # 100) |}.

End BusinessMetrics.

(** ** evaluation/metrics.py *)

Module Metrics.

(** A numpy scalar: a number, or [nan] (the mean of an empty array). *)
Inductive npfloat : Type :=
| nan
| fin (q : Q).

(** The same over the reals, for the result of [np.sqrt]. *)
Inductive npreal : Type :=
| rnan
| rfin (r : R).

(** An elementwise operation on two one-dimensional arrays: equal lengths
    pair up, a one-element array is stretched, anything else is numpy's
    [ValueError]. *)
Definition broadcast (f : Q -> Q -> Q) (xs ys : list Q) : Py.result (list Q) :=
  if decide (length xs = length ys) then Py.ret (zip_with f xs ys)
  else match xs, ys with
       | [x], _ => Py.ret (map (f x) ys)
       | _, [y] => Py.ret (map (fun x => f x y) xs)
       | _, _ => Py.raise (Py.ValueError "operands could not be broadcast together")
       end.

Definition Qsum (xs : list Q) : Q := foldr Qplus 0%Q xs.

Definition np_mean (xs : list Q) : npfloat :=
  match xs with
  | [] => nan
  | _ => fin (Qsum xs / inject_Z (Z.of_nat (length xs)))
  end.

Definition np_sqrt (x : npfloat) : npreal :=
  match x with
  | nan => rnan
  | fin q => rfin (sqrt (Q2R q))
  end.

Definition mape (y_true y_pred : list Q) : Py.result npfloat :=
  let yt := y_true in
  let yp := y_pred in
  let denom := map (fun t => Qmax (Qabs t) (1 # 1000000)) yt in
  letM diff := broadcast Qminus yt yp in
  letM ratio := broadcast Qdiv diff denom in
  Py.ret (np_mean (map Qabs ratio)).

(** [np.mean((yt - yp) ** 2)], the quantity under the root of [rmse]. *)
Definition mean_squared_error (y_true y_pred : list Q) : Py.result npfloat :=
  letM diff := broadcast Qminus y_true y_pred in
  Py.ret (np_mean (map (fun d => d * d)%Q diff)).

Definition rmse (y_true y_pred : list Q) : Py.result npreal :=
  letM m := mean_squared_error y_true y_pred in
  Py.ret (np_sqrt m).

(** The series of the documented example. *)
Definition documented_true : list Q := [8 # 10; 7 # 10; 9 # 10].
Definition documented_pred : list Q := [78 # 100; 72 # 100; 86 # 100].

End Metrics.

(** ** The observation table (pandas) *)

Module Frame.

(** One row of the operational table ([OperationalRecord] in
    [backend/db.py]); every column is non-null there. *)
Record Observation : Type := {
  zone_id : string;
  timestamp : Z;
  demand : Q;
  drivers : Q;
  inventory : Q;
  weather : string;
  availability : Q
}.

Definition DataFrame : Type := list Observation.

(** [df[df["zone_id"] == zone]]. *)
Definition zone_rows (zone : string) (df : DataFrame) : DataFrame :=
  filter (fun r => zone_id r = zone) df.

(** A stable sort by insertion; [leb x y] reads "x may stand before y". *)
Fixpoint insert_by {A} (leb : A -> A -> bool) (x : A) (l : list A) : list A :=
  match l with
  | [] => [x]
  | y :: l' => if leb x y then x :: l else y :: insert_by leb x l'
  end.

Definition sort_by {A} (leb : A -> A -> bool) (l : list A) : list A :=
  foldr (insert_by leb) [] l.

(** The order a comparison function sorts into. *)
Definition in_order {A} (leb : A -> A -> bool) (x y : A) : Prop := leb x y = true.

(** [df.sort_values("timestamp")].  pandas leaves the order of rows with
    equal timestamps open; here they keep their original order. *)
Definition sort_values_timestamp (df : DataFrame) : DataFrame :=
  sort_by (fun a b => timestamp a <=? timestamp b) df.

(** [df.tail(n)]: the last [n] rows; for a negative [n], all rows but the
    first [-n]. *)
Definition tail {A} (n : Z) (l : list A) : list A :=
  if n <? 0 then drop (Z.to_nat (- n)) l
  else drop (length l - Z.to_nat n)%nat l.

(** [series.shift(1)]: every value moves one row down, the first row
    becomes missing and the last value falls off. *)
Definition shift1 {A} (xs : list A) : list (option A) :=
  take (length xs) (None :: map Some xs).

Definition mean (xs : list Q) : Q :=
  (Metrics.Qsum xs / inject_Z (Z.of_nat (length xs)))%Q.

(** The rows a trailing window of width [window] ending at row [i] sees. *)
Definition window_at {A} (window i : nat) (xs : list A) : list A :=
  drop (S i - window)%nat (take (S i) xs).

(** [series.rolling(window, min_periods=1).mean()]. *)
Definition rolling_mean (window : nat) (xs : list Q) : list Q :=
  imap (fun i _ => mean (window_at window i xs)) xs.

(** [ts.hour] and [ts.dayofweek] (Monday is 0; the epoch was a Thursday). *)
Definition hour_of (ts : Z) : Z := (ts / 3600) mod 24.
Definition dayofweek_of (ts : Z) : Z := (ts / 86400 + 3) mod 7.

End Frame.

(** ** backend/agents/forecast_agent.py *)

(** The regression estimator ([XGBRegressor], or [RandomForestRegressor]
    when xgboost is absent): fitted on a feature matrix and a target column,
    it predicts a number for a feature vector. *)
Class Regressor : Type := {
  Model : Type;
  regressor_fit : list (list Q) -> list Q -> Model;
  regressor_predict : Model -> list Q -> Q
}.

(** [Timestamp.isoformat()]. *)
Class Isoformat : Type := { isoformat : Z -> string }.

Module ForecastAgent.
Import Frame.

Record Prediction : Type := {
  p_timestamp : string;
  predicted_availability : Q
}.

Record ForecastResult : Type := {
  fr_zone_id : string;
  fr_horizon_hours : Z;
  predictions : list Prediction
}.

(** A row of the feature table: the observation and the derived columns. *)
Record FeatureRow : Type := {
  obs : Observation;
  hour : Q;
  dayofweek : Q;
  weather_idx : Q;
  availability_lag_1 : Q;
  availability_roll_3 : Q
}.

(** [self._feature_cols], read off a row in that order. *)
Definition feature_vector (r : FeatureRow) : list Q :=
  [hour r; dayofweek r; demand (obs r); drivers (obs r); inventory (obs r);
   weather_idx r; availability_lag_1 r; availability_roll_3 r].

Definition _encode_weather (w : string) : Q :=
  if String.eqb w "clear" then 0
  else if String.eqb w "rain" then 1
  else if String.eqb w "storm" then 2
  else if String.eqb w "snow" then 3
  else 0.

Definition feature_row (o : Observation) (lag roll : Q) : FeatureRow :=
  {| obs := o;
     hour := inject_Z (hour_of (timestamp o));
     dayofweek := inject_Z (dayofweek_of (timestamp o));
     weather_idx := _encode_weather (weather o);
     availability_lag_1 := lag;
     availability_roll_3 := roll |}.

(** [dropna] on one row: the observation's own columns are never null, so
    the row survives exactly when both shifted columns hold a value. *)
Definition assemble (o : Observation) (shifted : option Q * option Q) : option FeatureRow :=
  match shifted with
  | (Some lag, Some roll) => Some (feature_row o lag roll)
  | _ => None
  end.

(** Feature rows assembled from observations and complete shifted columns. *)
Definition rows_of (os : list Observation) (lags rolls : list Q) : list FeatureRow :=
  zip_with (fun o lr => feature_row o (fst lr) (snd lr)) os (zip lags rolls).

Definition _build_features (df : DataFrame) : list FeatureRow :=
  let ordered := sort_values_timestamp df in
  let av := map availability ordered in
  let lag_1 := shift1 av in
  let roll_3 := shift1 (rolling_mean 3 av) in
  (* dropna().reset_index(drop=True) *)
  omap (fun '(o, s) => assemble o s) (zip ordered (zip lag_1 roll_3)).

(** [df.groupby("zone_id")]: one group per zone present in the table. *)
Definition groupby_zone (df : DataFrame) : list (string * DataFrame) :=
  map (fun z => (z, zone_rows z df)) (remove_dups (map zone_id df)).

Section WithRegressor.
Context `{Regressor} `{Isoformat}.

(** [model.fit(X, y)] on a feature table. *)
Definition fit_features (feats : list FeatureRow) : Model :=
  let X := map feature_vector feats in
  let y := map (fun r => availability (obs r)) feats in
  regressor_fit X y.

(** The agent's state is [self._models]. *)
Definition train_zone (models : gmap string Model) (g : string * DataFrame)
    : gmap string Model :=
  let '(zone, zone_df) := g in
  let feats := _build_features zone_df in
  if (length feats <? 30)%nat then models
  else <[zone := fit_features feats]> models.

Definition train (models : gmap string Model) (df : DataFrame) : gmap string Model :=
  foldl train_zone models (groupby_zone df).

(** The model [train] fits for a zone of a table. *)
Definition fitted (df : DataFrame) (zone : string) : Model :=
  fit_features (_build_features (zone_rows zone df)).

(** A zone whose feature table reaches the minimum of thirty rows. *)
Definition viable (df : DataFrame) (zone : string) : Prop :=
  (30 <= length (_build_features (zone_rows zone df)))%nat.

#[export] Instance viable_dec (df : DataFrame) (zone : string) : Decision (viable df zone).
Proof. unfold viable. apply _. Defined.

(** The variables the [for] loop of [predict] updates. *)
Record LoopState : Type := {
  current_row : FeatureRow;
  current_ts : Z
}.

Definition with_clock (r : FeatureRow) (ts : Z) : FeatureRow :=
  {| obs := obs r;
     hour := inject_Z (hour_of ts);
     dayofweek := inject_Z (dayofweek_of ts);
     weather_idx := weather_idx r;
     availability_lag_1 := availability_lag_1 r;
     availability_roll_3 := availability_roll_3 r |}.

Definition with_feedback (r : FeatureRow) (yhat : Q) : FeatureRow :=
  {| obs := obs r;
     hour := hour r;
     dayofweek := dayofweek r;
     weather_idx := weather_idx r;
     availability_lag_1 := yhat;
     availability_roll_3 := (availability_roll_3 r * 2 + yhat) / 3 |}.

(** The feature vector the model sees in an iteration entered in [st]. *)
Definition model_input (st : LoopState) : list Q :=
  feature_vector (with_clock (current_row st) (current_ts st + 3600)).

(** The clamped prediction of that iteration. *)
Definition yhat_of (model : Model) (st : LoopState) : Q :=
  Py.clip (regressor_predict model (model_input st)) 0 1.

(** One pass through the loop body. *)
Definition loop_body (model : Model) (st : LoopState) : LoopState * Prediction :=
  let ts := current_ts st + 3600 in
  let row := with_clock (current_row st) ts in
  let x := feature_vector row in
  let yhat := Py.clip (regressor_predict model x) 0 1 in
  let row := with_feedback row yhat in
  ({| current_row := row; current_ts := ts |},
   {| p_timestamp := isoformat ts;
      predicted_availability := Py.round yhat 4 |}).

(** [for _ in range(n)], returning the final state and [preds]. *)
Fixpoint predict_loop (model : Model) (n : nat) (st : LoopState)
    : LoopState * list Prediction :=
  match n with
  | O => (st, [])
  | S n' =>
      let '(st', p) := loop_body model st in
      let '(st'', ps) := predict_loop model n' st' in
      (st'', p :: ps)
  end.

(** The loop variables after [k] iterations. *)
Definition state_after (model : Model) (k : nat) (st : LoopState) : LoopState :=
  fst (predict_loop model k st).

Definition predict (models : gmap string Model) (df : DataFrame)
    (zone_id : string) (horizon_hours : Z) : Py.result ForecastResult :=
  match models !! zone_id with
  | None => Py.raise (Py.ValueError ("No model trained for " +:+ zone_id))
  | Some model =>
      let zone_df := sort_values_timestamp (zone_rows zone_id df) in
      let feats_df := _build_features zone_df in
      match last feats_df with
      | None =>
          Py.raise (Py.ValueError ("Insufficient feature history for " +:+ zone_id))
      | Some row =>
          let st := {| current_row := row; current_ts := timestamp (obs row) |} in
          let preds := snd (predict_loop model (Z.to_nat horizon_hours) st) in
          Py.ret {| fr_zone_id := zone_id;
                    fr_horizon_hours := horizon_hours;
                    predictions := preds |}
      end
  end.

End WithRegressor.

End ForecastAgent.

(** ** JSON values and their text *)

#[warnings="-register-all"]
Inductive Json : Type :=
| JNull
| JBool (b : bool)
| JInt (z : Z)
| JFloat (q : Q)
| JStr (s : string)
| JList (l : list Json)
| JDict (kvs : list (string * Json)).

(** What the standard library renders: [repr] of a float and the quoted,
    escaped form of a string. *)
Class JsonText : Type := {
  float_repr : Q -> string;
  json_quote : string -> string
}.

(** What the interpreter does with a string: [repr] of it, and the number
    [float] reads from it when it spells one ([None] when [float] raises
    [ValueError]).  A text that spells an infinity or a nan has no rational
    value and lies outside the embedding, as those floats do everywhere. *)
Class PyText : Type := {
  str_repr : string -> string;
  float_of_str : string -> option Q
}.

Module JsonDump.

Fixpoint join (sep : string) (parts : list string) : string :=
  match parts with
  | [] => ""
  | [p] => p
  | p :: rest => p +:+ sep +:+ join sep rest
  end.

Section WithText.
Context `{JsonText}.

(** [json.dumps] with its default separators. *)
Fixpoint dumps (j : Json) : string :=
  match j with
  | JNull => "null"
  | JBool b => if b then "true" else "false"
  | JInt z => pretty z
  | JFloat q => float_repr q
  | JStr s => json_quote s
  | JList l => "[" +:+ join ", " (map dumps l) +:+ "]"
  | JDict kvs =>
      "{" +:+ join ", " (map (fun kv => json_quote (fst kv) +:+ ": " +:+ dumps (snd kv)) kvs)
          +:+ "}"
  end.

End WithText.

Definition two_digits (d : Z) : string :=
  if d <? 10 then "0" +:+ pretty d else pretty d.

(** [f"{x:.2f}"]. *)
Definition format_2f (q : Q) : string :=
  let n := Py.round_half_even (Qabs q * 100) in
  let sign := if Qlt_le_dec q 0 then "-" else "" in
  sign +:+ pretty (n / 100) +:+ "." +:+ two_digits (n mod 100).

End JsonDump.

(** ** Anomaly events *)

Module Events.

(** The [snapshot] dictionary of an event; a key may be absent. *)
Record Snapshot : Type := {
  s_demand : option Q;
  s_drivers : option Q;
  s_inventory : option Q;
  s_availability : option Q;
  s_weather : option string
}.

(** An event dictionary; a key may be absent. *)
Record Event : Type := {
  event_id : option string;
  e_timestamp : option string;
  e_zone_id : option string;
  score : option Q;
  snapshot : option Snapshot
}.

(** [{}], the default of [event.get("snapshot", {})]. *)
Definition empty_snapshot : Snapshot :=
  {| s_demand := None; s_drivers := None; s_inventory := None;
     s_availability := None; s_weather := None |}.

(** [x["score"]], the sort key of [detect]. *)
Definition score_key (e : Event) : Q := default 0%Q (score e).

Definition present {A} (key : string) (f : A -> Json) (v : option A)
    : list (string * Json) :=
  match v with
  | Some a => [(key, f a)]
  | None => []
  end.

Definition snapshot_to_json (s : Snapshot) : Json :=
  JDict (present "demand" JFloat (s_demand s)
         ++ present "drivers" JFloat (s_drivers s)
         ++ present "inventory" JFloat (s_inventory s)
         ++ present "availability" JFloat (s_availability s)
         ++ present "weather" JStr (s_weather s)).

Definition event_to_json (e : Event) : Json :=
  JDict (present "event_id" JStr (event_id e)
         ++ present "timestamp" JStr (e_timestamp e)
         ++ present "zone_id" JStr (e_zone_id e)
         ++ present "score" JFloat (score e)
         ++ present "snapshot" snapshot_to_json (snapshot e)).

End Events.

(** ** backend/agents/anomaly_agent.py *)

(** The isolation forest with its fixed seed: fitting is a function of the
    contamination and the sample matrix; a fitted forest labels a sample
    [1] or [-1] and scores it. *)
Class OutlierModel : Type := {
  Forest : Type;
  forest_fit : Q -> list (list Q) -> Forest;
  forest_predict : Forest -> list Q -> Z;
  forest_score_samples : Forest -> list Q -> Q
}.

Module AnomalyAgent.
Import Frame Events.

Record AnomalyResult : Type := {
  ar_zone_id : string;
  events : list Event
}.

(** A row of the window with its [is_anomaly] and [score] columns. *)
Record ScoredRow : Type := {
  row : Observation;
  is_anomaly : bool;
  row_score : Q
}.

Definition metrics_of (r : Observation) : list Q :=
  [demand r; drivers r; inventory r; availability r].

Section WithModel.
Context `{OutlierModel} `{Isoformat}.

Definition to_event (sr : ScoredRow) : Event :=
  let r := row sr in
  {| event_id := Some (zone_id r +:+ ":" +:+ isoformat (timestamp r));
     e_timestamp := Some (isoformat (timestamp r));
     e_zone_id := Some (zone_id r);
     score := Some (Py.round (row_score sr) 4);
     snapshot := Some {| s_demand := Some (demand r);
                         s_drivers := Some (drivers r);
                         s_inventory := Some (inventory r);
                         s_availability := Some (availability r);
                         s_weather := Some (weather r) |} |}.

(** A row with the verdict of a fitted forest. *)
Definition classify (forest : Forest) (r : Observation) : ScoredRow :=
  {| row := r;
     is_anomaly := forest_predict forest (metrics_of r) =? -1;
     row_score := (- forest_score_samples forest (metrics_of r))%Q |}.

(** The forest [detect] fits on a window. *)
Definition fitted_forest (contamination : Q) (zone_df : DataFrame) : Forest :=
  forest_fit contamination (map metrics_of zone_df).

(** The event a row gives rise to once it is flagged. *)
Definition event_of (forest : Forest) (r : Observation) : Event :=
  to_event (classify forest r).

(** [key=lambda x: x["score"], reverse=True]. *)
Definition descending (a b : Event) : bool := Qle_bool (score_key b) (score_key a).

(** The window [detect] works on. *)
Definition window (df : DataFrame) (zone : string) (lookback : Z) : DataFrame :=
  tail lookback (sort_values_timestamp (zone_rows zone df)).

(** The window with the forest's verdict on each of its rows. *)
Definition score_window (contamination : Q) (zone_df : DataFrame) : list ScoredRow :=
  let features := map metrics_of zone_df in
  let model := forest_fit contamination features in
  let labels := map (forest_predict model) features in
  let scores := map (fun x => - forest_score_samples model x)%Q features in
  zip_with (fun r ls => {| row := r;
                           is_anomaly := fst ls =? -1;
                           row_score := snd ls |})
           zone_df (zip labels scores).

Definition detect (contamination : Q) (df : DataFrame) (zone : string) (lookback : Z)
    : Py.result AnomalyResult :=
  let zone_df := window df zone lookback in
  if (length zone_df <? 20)%nat then
    Py.raise (Py.ValueError ("Insufficient records for anomaly detection in " +:+ zone))
  else
    let scored := score_window contamination zone_df in
    let events := map to_event (filter (fun sr => is_anomaly sr = true) scored) in
    let events := sort_by descending events in
    Py.ret {| ar_zone_id := zone; events := events |}.

End WithModel.

End AnomalyAgent.

(** ** backend/agents/reasoning_agent.py *)

(** The generative service behind [_call_ollama]: given the model name and a
    prompt, the HTTP call either raises (timeout, refused connection,
    non-success status, unreadable body) or yields the response text. *)
Class ExplanationService : Type := {
  ollama_generate : string -> string -> Py.result string
}.

(** A stored document of the vector collection. *)
Record Doc : Type := {
  document : string;
  metadata : list (string * Json)
}.

(** The collection's similarity search: the texts of up to [n_results]
    documents nearest to the query. *)
Class VectorStore : Type := {
  collection_query : gmap string Doc -> string -> nat -> list string
}.

Module ReasoningAgent.
Import Events.

(** The agent: [self.model], [self._memory_store] and [self.collection]
    ([None] when chromadb is not installed).  A collection is keyed by
    document id and [upsert] replaces the document stored under an id. *)
Record Agent : Type := {
  model : string;
  _memory_store : gmap string string;
  collection : option (gmap string Doc)
}.

Record Payload : Type := {
  r_event_id : string;
  prompt : string;
  explanation : string
}.

Definition upsert (id : string) (d : Doc) (c : gmap string Doc) : gmap string Doc :=
  <[id := d]> c.

(** Write [text] under [key], into the collection when there is one and
    into the in-process dictionary otherwise. *)
Definition remember (a : Agent) (key text : string) (meta : list (string * Json))
    : Agent :=
  match collection a with
  | None =>
      {| model := model a;
         _memory_store := <[key := text]> (_memory_store a);
         collection := None |}
  | Some c =>
      {| model := model a;
         _memory_store := _memory_store a;
         collection := Some (upsert key {| document := text; metadata := meta |} c) |}
  end.

(** The text kept under [key], wherever the agent keeps its memory. *)
Definition recall (a : Agent) (key : string) : option string :=
  match collection a with
  | None => _memory_store a !! key
  | Some c => document <$> c !! key
  end.

Definition newline : string := String (Ascii.ascii_of_nat 10) EmptyString.

Section WithServices.
Context `{JsonText} `{ExplanationService} `{VectorStore}.

Definition _build_prompt (event : Event) (context : list string) : string :=
  let context_text :=
    match context with
    | [] => "No prior context available."
    | _ => JsonDump.join newline context
    end in
  "You are ZoneGuard root-cause analyst. Provide concise operational explanation and confidence (0-1)."
  +:+ " Focus on demand-supply, weather, and inventory dynamics." +:+ newline
  +:+ "Event: " +:+ JsonDump.dumps (event_to_json event) +:+ newline
  +:+ "Context: " +:+ context_text +:+ newline
  +:+ "Output JSON with keys: root_cause, evidence, confidence, risks.".

Definition _query_context (a : Agent) (event_id : string) (top_k : nat) : list string :=
  match collection a with
  | None =>
      match _memory_store a !! event_id with
      | Some text => [text]
      | None => []
      end
  | Some c => collection_query c event_id top_k
  end.

Definition _call_ollama (a : Agent) (prompt : string) : Py.result string :=
  ollama_generate (model a) prompt.

(** The demand/driver pressure of the [except] branch. *)
Definition pressure_of (event : Event) : Q :=
  let snapshot := default empty_snapshot (snapshot event) in
  let demand := default 0%Q (s_demand snapshot) in
  let drivers := default 1%Q (s_drivers snapshot) in
  (demand / Py.max drivers 1)%Q.

(** The confidence of the [except] branch.  The pressure is the exact
    quotient here and the nearest binary number in the code, so at a tie of
    the rounding the two can fall on different sides. *)
Definition confidence_of (pressure : Q) : Q :=
  Py.round (Py.min (9 # 10) ((45 # 100) + pressure / 5)) 2.

(** The dictionary the [except] branch serialises. *)
Definition fallback_document (event : Event) : Json :=
  let snapshot := default empty_snapshot (snapshot event) in
  let inventory := default 1%Q (s_inventory snapshot) in
  let weather := default "clear" (s_weather snapshot) in
  let pressure := pressure_of event in
  JDict [("root_cause", JStr "Demand-driver imbalance with environmental disruption");
         ("evidence",
          JList [JStr ("Demand/driver pressure=" +:+ JsonDump.format_2f pressure);
                 JStr ("Inventory level=" +:+ JsonDump.format_2f inventory);
                 JStr ("Weather=" +:+ weather)]);
         ("confidence", JFloat (confidence_of pressure));
         ("risks", JList [JStr "Service-level breach"; JStr "Order delays"])].

Definition reason (a : Agent) (event : Event) : Py.result (Payload * Agent) :=
  let event_id := default "unknown-event" (event_id event) in
  let context := _query_context a event_id 3 in
  let prompt := _build_prompt event context in
  letM explanation :=
    Py.try_except (_call_ollama a prompt)
                  (fun _ => Py.ret (JsonDump.dumps (fallback_document event))) in
  let a' := remember a event_id
              ("event_id=" +:+ event_id +:+ "; explanation=" +:+ explanation)
              [("event_id", JStr event_id)] in
  Py.ret ({| r_event_id := event_id; prompt := prompt; explanation := explanation |}, a').

End WithServices.

(** *** The event as any caller may pass it

    [reason] above reads an event whose values have the types [detect]
    gives them.  The method takes any dictionary, and the [/reason] route
    passes one it has not validated: [Untyped.reason] is the method on the
    items of an arbitrary dictionary, whose values may be null, text, lists
    or dictionaries. *)
Module Untyped.

(** [type(v).__name__]. *)
Definition type_name (v : Json) : string :=
  match v with
  | JNull => "NoneType"
  | JBool _ => "bool"
  | JInt _ => "int"
  | JFloat _ => "float"
  | JStr _ => "str"
  | JList _ => "list"
  | JDict _ => "dict"
  end.

(** The value under [key] among the items of a dictionary (its keys are
    distinct). *)
Fixpoint lookup_item (key : string) (items : list (string * Json)) : option Json :=
  match items with
  | [] => None
  | (k, v) :: rest => if String.eqb k key then Some v else lookup_item key rest
  end.

(** [d.get(key, dflt)]: only a dictionary has the method. *)
Definition get (d : Json) (key : string) (dflt : Json) : Py.result Json :=
  match d with
  | JDict items => Py.ret (default dflt (lookup_item key items))
  | _ =>
      Py.raise (Py.Exn "AttributeError"
                  ("'" +:+ type_name d +:+ "' object has no attribute 'get'"))
  end.

Section WithServices.
Context `{JsonText} `{PyText} `{ExplanationService} `{VectorStore}.

(** [repr(v)]. *)
Fixpoint py_repr (v : Json) : string :=
  match v with
  | JNull => "None"
  | JBool b => if b then "True" else "False"
  | JInt z => pretty z
  | JFloat q => float_repr q
  | JStr s => str_repr s
  | JList l => "[" +:+ JsonDump.join ", " (map py_repr l) +:+ "]"
  | JDict kvs =>
      "{" +:+ JsonDump.join ", "
                (map (fun kv => str_repr (fst kv) +:+ ": " +:+ py_repr (snd kv)) kvs)
          +:+ "}"
  end.

(** [str(v)]. *)
Definition py_str (v : Json) : string :=
  match v with
  | JStr s => s
  | _ => py_repr v
  end.

(** [float(v)]: a number converts, a text converts when it spells a
    number, anything else is a [TypeError]. *)
Definition py_float (v : Json) : Py.result Q :=
  match v with
  | JBool b => Py.ret (if b then 1 else 0)%Q
  | JInt z => Py.ret (inject_Z z)
  | JFloat q => Py.ret q
  | JStr s =>
      match float_of_str s with
      | Some q => Py.ret q
      | None =>
          Py.raise (Py.ValueError ("could not convert string to float: " +:+ str_repr s))
      end
  | _ =>
      Py.raise (Py.Exn "TypeError"
                  ("float() argument must be a string or a real number, not '"
                   +:+ type_name v +:+ "'"))
  end.

Definition _build_prompt (event : list (string * Json)) (context : list string) : string :=
  let context_text :=
    match context with
    | [] => "No prior context available."
    | _ => JsonDump.join newline context
    end in
  "You are ZoneGuard root-cause analyst. Provide concise operational explanation and confidence (0-1)."
  +:+ " Focus on demand-supply, weather, and inventory dynamics." +:+ newline
  +:+ "Event: " +:+ JsonDump.dumps (JDict event) +:+ newline
  +:+ "Context: " +:+ context_text +:+ newline
  +:+ "Output JSON with keys: root_cause, evidence, confidence, risks.".

(** [str(event.get("event_id", "unknown-event"))]. *)
Definition event_key (event : list (string * Json)) : string :=
  py_str (default (JStr "unknown-event") (lookup_item "event_id" event)).

(** The dictionary the [except] branch serialises. *)
Definition document (pressure inventory : Q) (weather : string) : Json :=
  JDict [("root_cause", JStr "Demand-driver imbalance with environmental disruption");
         ("evidence",
          JList [JStr ("Demand/driver pressure=" +:+ JsonDump.format_2f pressure);
                 JStr ("Inventory level=" +:+ JsonDump.format_2f inventory);
                 JStr ("Weather=" +:+ weather)]);
         ("confidence", JFloat (confidence_of pressure));
         ("risks", JList [JStr "Service-level breach"; JStr "Order delays"])].

(** The [except] branch: it reads the snapshot and converts its values, and
    raises where a read or a conversion does. *)
Definition fallback (event : list (string * Json)) : Py.result string :=
  let snapshot := default (JDict []) (lookup_item "snapshot" event) in
  letM demand_value := get snapshot "demand" (JFloat 0) in
  letM demand := py_float demand_value in
  letM drivers_value := get snapshot "drivers" (JFloat 1) in
  letM drivers := py_float drivers_value in
  letM inventory_value := get snapshot "inventory" (JFloat 1) in
  letM inventory := py_float inventory_value in
  letM weather_value := get snapshot "weather" (JStr "clear") in
  let weather := py_str weather_value in
  let pressure := (demand / Py.max drivers 1)%Q in
  Py.ret (JsonDump.dumps (document pressure inventory weather)).

Definition reason (a : Agent) (event : list (string * Json))
    : Py.result (Payload * Agent) :=
  let event_id := event_key event in
  let context := _query_context a event_id 3 in
  let prompt := _build_prompt event context in
  letM explanation :=
    Py.try_except (_call_ollama a prompt) (fun _ => fallback event) in
  let a' := remember a event_id
              ("event_id=" +:+ event_id +:+ "; explanation=" +:+ explanation)
              [("event_id", JStr event_id)] in
  Py.ret ({| r_event_id := event_id; prompt := prompt; explanation := explanation |}, a').

End WithServices.

End Untyped.

(** The key feedback is filed under. *)
Definition fb_id (event_id : string) (rating : Z) : string :=
  "feedback:" +:+ event_id +:+ ":" +:+ pretty rating.

Definition ingest_feedback (a : Agent) (event_id correction : string) (rating : Z) : Agent :=
  remember a (fb_id event_id rating)
    ("feedback for " +:+ event_id +:+ ": rating=" +:+ pretty rating
     +:+ "; correction=" +:+ correction)
    [("event_id", JStr event_id); ("rating", JInt rating)].

End ReasoningAgent.

(** ** backend/agents/action_agent.py *)

Module ActionAgent.
Import Events.

Record Action : Type := {
  action : string;
  detail : string;
  priority : string
}.

Record Plan : Type := {
  a_event_id : string;
  recommended_actions : list Action;
  reasoning_reference : string
}.

Definition plan (event : Event) (explanation : string) : Plan :=
  let snapshot := default empty_snapshot (snapshot event) in
  let demand := default 0%Q (s_demand snapshot) in
  let drivers := default 0%Q (s_drivers snapshot) in
  let inventory := default 0%Q (s_inventory snapshot) in
  let actions := [] in
  let actions :=
    if Qlt_le_dec drivers (demand * (9 # 10)) then
      actions ++ [{| action := "Rebalance drivers";
                     detail := "Shift drivers from neighboring zones within next 30 minutes.";
                     priority := "high" |}]
    else actions in
  let actions :=
    if Qlt_le_dec inventory (demand * (8 # 10)) then
      actions ++ [{| action := "Expedite inventory transfer";
                     detail := "Move hot-selling inventory from closest micro-fulfillment center.";
                     priority := "high" |}]
    else actions in
  let actions :=
    actions ++ [{| action := "Enable surge controls";
                   detail := "Temporarily throttle low-priority orders and adjust promised ETA windows.";
                   priority := "medium" |}] in
  let actions :=
    actions ++ [{| action := "Monitor zone stability";
                   detail := "Track availability every 15 minutes for the next 2 hours.";
                   priority := "medium" |}] in
  {| a_event_id := default "unknown-event" (event_id event);
     recommended_actions := actions;
     reasoning_reference := explanation |}.

End ActionAgent.

(** ** backend/orchestrator/runner.py *)

(** The process clock: the successive readings of [perf_counter()] and the
    text of [datetime.now(UTC).isoformat()]. *)
Class Clock : Type := {
  perf_counter_reading : nat -> Q;
  utcnow_isoformat : nat -> string
}.

Module Runner.
Import Frame Events.

Record StepTrace : Type := {
  step : string;
  status : string;
  latency_ms : Q;
  details : list (string * Json)
}.

Record ForecastPayload : Type := {
  f_zone_id : string;
  f_horizon_hours : Z;
  f_predictions : list ForecastAgent.Prediction
}.

Record AnomalyPayload : Type := {
  an_zone_id : string;
  an_events : list Event
}.

Record PipelineOutput : Type := {
  zone_id : string;
  generated_at : string;
  traces : list StepTrace;
  forecast : ForecastPayload;
  anomalies : AnomalyPayload;
  reasoning : option ReasoningAgent.Payload;
  actions : option ActionAgent.Plan
}.

(** A call of an agent's method, as the orchestrator issues it. *)
Inductive Call : Type :=
| TrainCall
| PredictCall (zone : string) (horizon_hours : Z)
| DetectCall (zone : string) (lookback : Z)
| ReasonCall (event : Event)
| PlanCall (event : Event) (explanation : string).

Section WithServices.
Context `{Regressor} `{OutlierModel} `{Isoformat} `{JsonText}
        `{ExplanationService} `{VectorStore} `{Clock}.

(** Everything a run can read and change: the four agents held by the
    orchestrator (the action agent has no state), the clock, the list
    [traces] of the running invocation, and the journal of agent calls
    issued so far. *)
Record State : Type := {
  forecaster : gmap string Model;
  contamination : Q;
  reasoner : ReasoningAgent.Agent;
  ticks : nat;
  run_traces : list StepTrace;
  calls : list Call
}.

Definition M (A : Type) : Type := State -> Py.result A * State.

Definition mret {A} (a : A) : M A := fun s => (inr a, s).

Definition mbind {A B} (m : M A) (k : A -> M B) : M B :=
  fun s =>
    match m s with
    | (inl e, s') => (inl e, s')
    | (inr a, s') => k a s'
    end.

Notation "'letS' x ':=' m 'in' k" := (mbind m (fun x => k))
  (at level 10, x name, m at level 100, k at level 200).
Notation "m ';;S' k" := (mbind m (fun _ => k))
  (at level 100, k at level 200, right associativity).

Definition journal (c : Call) (s : State) : State :=
  {| forecaster := forecaster s; contamination := contamination s;
     reasoner := reasoner s; ticks := ticks s; run_traces := run_traces s;
     calls := calls s ++ [c] |}.

Definition perf_counter : M Q :=
  fun s =>
    (inr (perf_counter_reading (ticks s)),
     {| forecaster := forecaster s; contamination := contamination s;
        reasoner := reasoner s; ticks := S (ticks s); run_traces := run_traces s;
        calls := calls s |}).

Definition utcnow : M string :=
  fun s => (inr (utcnow_isoformat (ticks s)), s).

Definition traces_append (t : StepTrace) : M unit :=
  fun s =>
    (inr tt,
     {| forecaster := forecaster s; contamination := contamination s;
        reasoner := reasoner s; ticks := ticks s; run_traces := run_traces s ++ [t];
        calls := calls s |}).

Definition traces_new : M unit :=
  fun s =>
    (inr tt,
     {| forecaster := forecaster s; contamination := contamination s;
        reasoner := reasoner s; ticks := ticks s; run_traces := [];
        calls := calls s |}).

Definition traces_read : M (list StepTrace) :=
  fun s => (inr (run_traces s), s).

(** [self.forecaster.train(df)]. *)
Definition forecaster_train (df : DataFrame) : M unit :=
  fun s =>
    let s := journal TrainCall s in
    (inr tt,
     {| forecaster := ForecastAgent.train (forecaster s) df;
        contamination := contamination s; reasoner := reasoner s;
        ticks := ticks s; run_traces := run_traces s; calls := calls s |}).

(** [self.forecaster.predict(df, zone_id=..., horizon_hours=...)]. *)
Definition forecaster_predict (df : DataFrame) (zone : string) (horizon_hours : Z)
    : M ForecastAgent.ForecastResult :=
  fun s =>
    let s := journal (PredictCall zone horizon_hours) s in
    (ForecastAgent.predict (forecaster s) df zone horizon_hours, s).

(** [self.anomaly.detect(df, zone_id=..., lookback=...)]. *)
Definition anomaly_detect (df : DataFrame) (zone : string) (lookback : Z)
    : M AnomalyAgent.AnomalyResult :=
  fun s =>
    let s := journal (DetectCall zone lookback) s in
    (AnomalyAgent.detect (contamination s) df zone lookback, s).

(** [self.reasoner.reason(event)]. *)
Definition reasoner_reason (event : Event) : M ReasoningAgent.Payload :=
  fun s =>
    let s := journal (ReasonCall event) s in
    match ReasoningAgent.reason (reasoner s) event with
    | inl e => (inl e, s)
    | inr (payload, agent) =>
        (inr payload,
         {| forecaster := forecaster s; contamination := contamination s;
            reasoner := agent; ticks := ticks s; run_traces := run_traces s;
            calls := calls s |})
    end.

(** [self.actor.plan(event, explanation)]. *)
Definition actor_plan (event : Event) (explanation : string) : M ActionAgent.Plan :=
  fun s => (inr (ActionAgent.plan event explanation), journal (PlanCall event explanation) s).

(** [await asyncio.gather(a, b)] for two coroutines that never suspend:
    [a] runs to its end, then [b] does, and the first failure in
    argument order is the one raised. *)
Definition gather {A B} (a : M A) (b : M B) : M (A * B) :=
  fun s =>
    let '(ra, s1) := a s in
    let '(rb, s2) := b s1 in
    match ra, rb with
    | inr x, inr y => (inr (x, y), s2)
    | inl e, _ => (inl e, s2)
    | inr _, inl e => (inl e, s2)
    end.

Definition elapsed_ms (start stop : Q) : Q := ((stop - start) * 1000)%Q.

(** What the forecast stage gets from its agent in state [s]. *)
Definition forecast_outcome (s : State) (df : DataFrame) (zone : string) (horizon : Z)
    : Py.result ForecastAgent.ForecastResult :=
  ForecastAgent.predict (ForecastAgent.train (forecaster s) df) df zone horizon.

Definition run_forecast (df : DataFrame) (zone : string) (horizon_hours : Z)
    : M ForecastPayload :=
  letS start := perf_counter in
  forecaster_train df ;;S
  letS result := forecaster_predict df zone horizon_hours in
  letS stop := perf_counter in
  traces_append
    {| step := "forecast"; status := "ok";
       latency_ms := elapsed_ms start stop;
       details := [("count", JInt (Z.of_nat (length (ForecastAgent.predictions result))))] |} ;;S
  mret {| f_zone_id := ForecastAgent.fr_zone_id result;
          f_horizon_hours := ForecastAgent.fr_horizon_hours result;
          f_predictions := ForecastAgent.predictions result |}.

Definition run_anomaly (df : DataFrame) (zone : string) (lookback : Z)
    : M AnomalyPayload :=
  letS start := perf_counter in
  letS result := anomaly_detect df zone lookback in
  letS stop := perf_counter in
  traces_append
    {| step := "anomaly"; status := "ok";
       latency_ms := elapsed_ms start stop;
       details := [("events", JInt (Z.of_nat (length (AnomalyAgent.events result))))] |} ;;S
  mret {| an_zone_id := AnomalyAgent.ar_zone_id result;
          an_events := AnomalyAgent.events result |}.

Definition skipped (name : string) : StepTrace :=
  {| step := name; status := "skipped"; latency_ms := 0;
     details := [("reason", JStr "No anomaly events")] |}.

(** The branch taken after both stages have completed. *)
Definition reason_and_act (anomaly_payload : AnomalyPayload)
    : M (option ReasoningAgent.Payload * option ActionAgent.Plan) :=
  match an_events anomaly_payload with
  | event :: _ =>
      letS reason_start := perf_counter in
      letS reasoning_payload := reasoner_reason event in
      letS reason_stop := perf_counter in
      traces_append
        {| step := "reason"; status := "ok";
           latency_ms := elapsed_ms reason_start reason_stop;
           details := [("event_id", JStr (ReasoningAgent.r_event_id reasoning_payload))] |} ;;S
      letS action_start := perf_counter in
      letS action_payload :=
        actor_plan event (ReasoningAgent.explanation reasoning_payload) in
      letS action_stop := perf_counter in
      traces_append
        {| step := "action"; status := "ok";
           latency_ms := elapsed_ms action_start action_stop;
           details := [("actions",
                        JInt (Z.of_nat (length (ActionAgent.recommended_actions
                                                  action_payload))))] |} ;;S
      mret (Some reasoning_payload, Some action_payload)
  | [] =>
      traces_append (skipped "reason") ;;S
      traces_append (skipped "action") ;;S
      mret (None, None)
  end.

Definition run (df : DataFrame) (zone : string) (horizon_hours lookback : Z)
    : M PipelineOutput :=
  traces_new ;;S
  letS payloads :=
    gather (run_forecast df zone horizon_hours) (run_anomaly df zone lookback) in
  let forecast_payload := fst payloads in
  let anomaly_payload := snd payloads in
  letS branch := reason_and_act anomaly_payload in
  letS now := utcnow in
  letS traces := traces_read in
  mret {| zone_id := zone;
          generated_at := now;
          traces := traces;
          forecast := forecast_payload;
          anomalies := anomaly_payload;
          reasoning := fst branch;
          actions := snd branch |}.

End WithServices.

End Runner.

(** ** A concrete world to run the code in *)

Module Demo.
Import Frame Events.

(** A regressor that remembers the mean target and answers with it, moved
    by half the deviation of the one-step lag from one half. *)
#[export] Instance mean_regressor : Regressor := {|
  Model := Q;
  regressor_fit := fun _ y => Frame.mean y;
  regressor_predict := fun m x => (m + (nth 6 x 0%Q - (1 # 2)) / 2)%Q
|}.

(** A forest that remembers the mean availability of its sample and flags
    the rows lying more than a quarter below it. *)
#[export] Instance threshold_forest : OutlierModel := {|
  Forest := Q;
  forest_fit := fun _ X => Frame.mean (map (fun x => nth 3 x 0%Q) X);
  forest_predict := fun m x => if Qle_bool (nth 3 x 0%Q + (1 # 4)) m then -1 else 1;
  forest_score_samples := fun m x => (nth 3 x 0%Q - m)%Q
|}.

#[export] Instance epoch_text : Isoformat := {|
  isoformat := fun ts => "T" +:+ pretty ts
|}.

Definition quote_mark : string := String (Ascii.ascii_of_nat 34) EmptyString.

#[export] Instance plain_text : JsonText := {|
  float_repr := JsonDump.format_2f;
  json_quote := fun s => quote_mark +:+ s +:+ quote_mark
|}.

(** The explanation service is unreachable. *)
#[export] Instance offline : ExplanationService := {|
  ollama_generate := fun _ _ => Py.raise (Py.Exn "ConnectionError" "connection refused")
|}.

#[export] Instance no_neighbours : VectorStore := {|
  collection_query := fun _ _ _ => []
|}.

#[export] Instance counting_clock : Clock := {|
  perf_counter_reading := fun n => inject_Z (Z.of_nat n);
  utcnow_isoformat := fun n => "now"
|}.

(** Hourly observations of one zone; the availability follows a short
    cycle and dips at every seventh hour. *)
Definition observation (zone : string) (i : nat) : Observation :=
  {| zone_id := zone;
     timestamp := 3600 * Z.of_nat i;
     demand := inject_Z (80 + Z.of_nat (i mod 5));
     drivers := inject_Z (60 + Z.of_nat (i mod 3));
     inventory := 70;
     weather := if (i mod 4 =? 0)%nat then "rain" else "clear";
     availability := if (i mod 7 =? 6)%nat then Qmake (Z.of_nat (10 + i mod 11)) 100
                     else Qmake (Z.of_nat (70 + i mod 3)) 100 |}.

Definition history (zone : string) (n : nat) : DataFrame :=
  map (observation zone) (seq 0 n).

(** Forty hours of one zone. *)
Definition df40 : DataFrame := history "zone_01" 40.

(** Forty hours of another zone in which nothing dips. *)
Definition calm (i : nat) : Observation :=
  {| zone_id := "zone_02";
     timestamp := 3600 * Z.of_nat i;
     demand := 80; drivers := 70; inventory := 90;
     weather := "clear";
     availability := 4 # 5 |}.

Definition df_calm : DataFrame := map calm (seq 0 40).

(** The loop variables [predict] starts from on [df40]. *)
Definition demo_state : ForecastAgent.LoopState :=
  match last (ForecastAgent._build_features df40) with
  | Some row =>
      {| ForecastAgent.current_row := row;
         ForecastAgent.current_ts := timestamp (ForecastAgent.obs row) |}
  | None =>
      {| ForecastAgent.current_row :=
           ForecastAgent.feature_row (observation "zone_01" 0) 0 0;
         ForecastAgent.current_ts := 0 |}
  end.

Definition fresh_agent : ReasoningAgent.Agent :=
  {| ReasoningAgent.model := "llama3.1";
     ReasoningAgent._memory_store := ∅;
     ReasoningAgent.collection := None |}.

Definition fresh_state : Runner.State :=
  {| Runner.forecaster := ∅;
     Runner.contamination := 7 # 100;
     Runner.reasoner := fresh_agent;
     Runner.ticks := 0;
     Runner.run_traces := [];
     Runner.calls := [] |}.

Definition sample_event : Event :=
  {| event_id := Some "zone_01:test_event";
     e_timestamp := None;
     e_zone_id := None;
     score := None;
     snapshot := Some {| s_demand := Some 90%Q; s_drivers := Some 65%Q;
                         s_inventory := Some 75%Q; s_availability := None;
                         s_weather := Some "rain" |} |}.

End Demo.

(** * The evaluation harness, the simulator and the API *)

(** ** evaluation/harness.py *)

Module ReplayHarness.
Import Frame Events.

(** [round(x)] and [round(x, ndigits)] on a real number, for the rounded
    root mean squared error. *)
Definition round_half_even_R (r : R) : Z :=
  let f := Int_part r in
  match total_order_T (r - IZR f) (1 / 2) with
  | inleft (left _) => f
  | inleft (right _) => if Z.even f then f else f + 1
  | inright _ => f + 1
  end.

Definition round_R (r : R) (ndigits : nat) : R :=
  (IZR (round_half_even_R (r * 10 ^ ndigits)) / 10 ^ ndigits)%R.

(** [round] on a numpy scalar; [nan] stays [nan]. *)
Definition np_round (x : Metrics.npfloat) (ndigits : nat) : Metrics.npfloat :=
  match x with
  | Metrics.nan => Metrics.nan
  | Metrics.fin q => Metrics.fin (Py.round q ndigits)
  end.

Definition np_round_real (x : Metrics.npreal) (ndigits : nat) : Metrics.npreal :=
  match x with
  | Metrics.rnan => Metrics.rnan
  | Metrics.rfin r => Metrics.rfin (round_R r ndigits)
  end.

Record ReplayReport : Type := {
  zone_id : string;
  forecast_mape : Metrics.npfloat;
  forecast_rmse : Metrics.npreal;
  anomaly_events : Z;
  generated_actions : Z;
  business_impact : BusinessMetrics.BusinessImpact
}.

Section WithServices.
Context `{Regressor} `{OutlierModel} `{Isoformat} `{JsonText}
        `{ExplanationService} `{VectorStore}.

(** The harness owns its agents: the forecaster's models, the anomaly
    agent's contamination and the reasoner; the action agent has no state. *)
Record Harness : Type := {
  forecaster : gmap string Model;
  contamination : Q;
  reasoner : ReasoningAgent.Agent
}.

(** [len(action.get("recommended_actions", []))] for one event. *)
Definition action_count (event : Event) (explanation : string) : Z :=
  Z.of_nat (length (ActionAgent.recommended_actions (ActionAgent.plan event explanation))).

(** [int(round(count * 0.6))]. *)
Definition acknowledged_of (count : Z) : Z :=
  Py.round_half_even (inject_Z count * (6 # 10)).

(** The [for event in anomaly_result.events[:5]] loop: the counters it
    accumulates, or the exception that ended it, and the reasoner as the
    loop left it. *)
Fixpoint review (agent : ReasoningAgent.Agent) (events : list Event)
    (generated_actions acknowledged_actions : Z)
    : Py.result (Z * Z) * ReasoningAgent.Agent :=
  match events with
  | [] => (Py.ret (generated_actions, acknowledged_actions), agent)
  | event :: rest =>
      match ReasoningAgent.reason agent event with
      | inl e => (inl e, agent)
      | inr (reason, agent') =>
          let count := action_count event (ReasoningAgent.explanation reason) in
          review agent' rest (generated_actions + count)
                 (acknowledged_actions + acknowledged_of count)
      end
  end.

Definition run (h : Harness) (df : DataFrame) (zone : string) (horizon_hours lookback : Z)
    : Py.result ReplayReport * Harness :=
  let zone_df := sort_values_timestamp (zone_rows zone df) in
  if Z.of_nat (length zone_df) <? Z.max 40 (lookback / 2) then
    (Py.raise (Py.ValueError ("Insufficient records for replay on " +:+ zone)), h)
  else
    let models := ForecastAgent.train (forecaster h) df in
    let h := {| forecaster := models; contamination := contamination h;
                reasoner := reasoner h |} in
    match ForecastAgent.predict models df zone horizon_hours with
    | inl e => (inl e, h)
    | inr forecast =>
        let y_pred :=
          map ForecastAgent.predicted_availability (ForecastAgent.predictions forecast) in
        let y_true := map availability (tail horizon_hours zone_df) in
        match AnomalyAgent.detect (contamination h) df zone lookback with
        | inl e => (inl e, h)
        | inr anomaly_result =>
            let '(counts, agent) :=
              review (reasoner h) (take 5 (AnomalyAgent.events anomaly_result)) 0 0 in
            let h := {| forecaster := models; contamination := contamination h;
                        reasoner := agent |} in
            match counts with
            | inl e => (inl e, h)
            | inr (generated_actions, acknowledged_actions) =>
                let found := Z.of_nat (length (AnomalyAgent.events anomaly_result)) in
                let impact :=
                  BusinessMetrics.estimate_impact found generated_actions
                    acknowledged_actions (Z.max 1 (lookback / 24)) in
                (letM m := Metrics.mape y_true y_pred in
                 letM r := Metrics.rmse y_true y_pred in
                 Py.ret {| zone_id := zone;
                           forecast_mape := np_round m 4;
                           forecast_rmse := np_round_real r 4;
                           anomaly_events := found;
                           generated_actions := generated_actions;
                           business_impact := impact |},
                 h)
            end
        end
    end.

End WithServices.

End ReplayHarness.

(** ** data/simulate.py *)

(** numpy's random generator: every draw returns a value and the advanced
    generator; the values are arbitrary. *)
Class Rng : Type := {
  Generator : Type;
  default_rng : Z -> Generator;
  rng_uniform : Q -> Q -> Generator -> Q * Generator;
  rng_normal : Q -> Q -> Generator -> Q * Generator;
  rng_choice : list string -> list Q -> Generator -> string * Generator;
  rng_random : Generator -> Q * Generator
}.

(** [np.sin], [np.cos] and [np.pi]. *)
Class Trig : Type := {
  np_sin : Q -> Q;
  np_cos : Q -> Q;
  np_pi : Q
}.

Module Simulate.
Import Frame.

Definition WEATHER_STATES : list string := ["clear"; "rain"; "storm"; "snow"].

Definition _weather_to_multiplier (weather : string) : Q :=
  if String.eqb weather "clear" then 1
  else if String.eqb weather "rain" then 93 # 100
  else if String.eqb weather "snow" then 88 # 100
  else 80 # 100.

(** [f"zone_{z:02d}"]. *)
Definition zone_name (z : Z) : string := "zone_" +:+ JsonDump.two_digits z.

Section WithRng.
Context `{Rng} `{Trig}.

(** One pass through the inner loop: the record appended for hour [i] of a
    zone and the generator after its draws. *)
Definition hour_record (zone : string) (base_demand base_drivers base_inventory : Q)
    (i : nat) (ts : Z) (rng : Generator) : Observation * Generator :=
  let hour_cycle :=
    (1 + (35 # 100) * np_sin ((2 * np_pi * inject_Z (Z.of_nat i mod 24)) / 24))%Q in
  let day_cycle :=
    (1 + (15 # 100)
         * np_cos ((2 * np_pi * inject_Z (Z.of_nat i mod (24 * 7))) / inject_Z (24 * 7)))%Q in
  let '(weather, rng) :=
    rng_choice WEATHER_STATES [68 # 100; 18 # 100; 8 # 100; 6 # 100]%Q rng in
  let '(noise, rng) := rng_normal 0 6 rng in
  let demand := Py.max 5 (base_demand * hour_cycle * day_cycle + noise) in
  let '(noise, rng) := rng_normal 0 (8 # 100) rng in
  let drivers := Py.max 3 (base_drivers * (1 + noise)) in
  let '(noise, rng) := rng_normal 0 (10 # 100) rng in
  let inventory := Py.max 4 (base_inventory * (1 + noise)) in
  let pressure := (demand / Py.max 1 drivers)%Q in
  let inv_factor := Py.min (12 # 10) (inventory / Py.max 1 demand) in
  let weather_mult := _weather_to_multiplier weather in
  let availability :=
    (Py.clip ((11 # 10) - (38 # 100) * pressure + (24 # 100) * inv_factor) (5 # 100) 1
     * weather_mult)%Q in
  let '(noise, rng) := rng_normal 0 (3 # 100) rng in
  let availability := Py.clip (availability + noise) 0 1 in
  let '(shock, rng) := rng_random rng in
  let '(availability, rng) :=
    if Qlt_le_dec shock (18 # 1000) then
      let '(drop, rng) := rng_uniform (2 # 10) (4 # 10) rng in
      (Py.clip (availability - drop) 0 1, rng)
    else (availability, rng) in
  ({| zone_id := zone;
      timestamp := ts;
      demand := Py.round demand 3;
      drivers := Py.round drivers 3;
      inventory := Py.round inventory 3;
      weather := weather;
      availability := Py.round availability 4 |}, rng).

(** [for i, ts in enumerate(timestamps)], from index [i] on. *)
Fixpoint zone_records (zone : string) (base_demand base_drivers base_inventory : Q)
    (i : nat) (timestamps : list Z) (rng : Generator) : list Observation * Generator :=
  match timestamps with
  | [] => ([], rng)
  | ts :: rest =>
      let '(record, rng) :=
        hour_record zone base_demand base_drivers base_inventory i ts rng in
      let '(records, rng) :=
        zone_records zone base_demand base_drivers base_inventory (S i) rest rng in
      (record :: records, rng)
  end.

(** [for z in range(1, n_zones + 1)], over the zone numbers still to do. *)
Fixpoint all_records (zones : list Z) (timestamps : list Z) (rng : Generator)
    : list Observation * Generator :=
  match zones with
  | [] => ([], rng)
  | z :: rest =>
      let zone := zone_name z in
      let '(base_demand, rng) := rng_uniform 50 120 rng in
      let '(base_drivers, rng) := rng_uniform 45 110 rng in
      let '(base_inventory, rng) := rng_uniform 60 140 rng in
      let '(records, rng) :=
        zone_records zone base_demand base_drivers base_inventory 0 timestamps rng in
      let '(more, rng) := all_records rest timestamps rng in
      (records ++ more, rng)
  end.

(** [pd.date_range(start=start, periods=hours, freq="h")]. *)
Definition date_range (start : Z) (periods : nat) : list Z :=
  map (fun i => start + 3600 * Z.of_nat i) (seq 0 periods).

(** [generate_synthetic_data(n_zones, hours, seed)], run at the instant
    [utcnow]; [hours] is a number of periods. *)
Definition generate_synthetic_data (utcnow : Z) (n_zones : Z) (hours : nat) (seed : Z)
    : DataFrame :=
  let rng := default_rng seed in
  let start := utcnow - 3600 * Z.of_nat hours in
  let timestamps := date_range start hours in
  fst (all_records (map Z.of_nat (seq 1 (Z.to_nat n_zones))) timestamps rng).

End WithRng.

End Simulate.

(** ** Vocabulary of the statements *)

(** Readings of the data that several statements share. *)
Module Views.
Import Frame Events.

(** The snapshot numbers [plan] reads, with its defaults. *)
Definition plan_demand (event : Event) : Q :=
  default 0%Q (s_demand (default empty_snapshot (snapshot event))).
Definition plan_drivers (event : Event) : Q :=
  default 0%Q (s_drivers (default empty_snapshot (snapshot event))).
Definition plan_inventory (event : Event) : Q :=
  default 0%Q (s_inventory (default empty_snapshot (snapshot event))).

(** The order [sort_values("timestamp")] sorts by. *)
Definition by_timestamp (a b : Observation) : bool := timestamp a <=? timestamp b.

(** A share: a number between 0 and 1. *)
Definition unit_interval (q : Q) : Prop := (0 <= q /\ q <= 1)%Q.

(** The identifier [reason] files an event under. *)
Definition event_key (event : Event) : string := default "unknown-event" (event_id event).

(** The text [reason] stores for an event. *)
Definition memory_text (event_id explanation : string) : string :=
  "event_id=" +:+ event_id +:+ "; explanation=" +:+ explanation.

(** The text [ingest_feedback] stores. *)
Definition feedback_text (event_id correction : string) (rating : Z) : string :=
  "feedback for " +:+ event_id +:+ ": rating=" +:+ pretty rating
  +:+ "; correction=" +:+ correction.

(** What every generated record satisfies. *)
Definition plausible (zone : string) (o : Observation) : Prop :=
  zone_id o = zone
  /\ unit_interval (availability o)
  /\ (5 <= demand o)%Q /\ (3 <= drivers o)%Q /\ (4 <= inventory o)%Q.

(** [r] is a multiple of [1 / scale] and no multiple lies nearer to [q]: at
    a tie either neighbour is one. *)
Definition nearest_multiple (scale : positive) (q r : Q) : Prop :=
  (exists n : Z, r == n # scale)%Q
  /\ forall m : Z, (Qabs (r - q) <= Qabs ((m # scale) - q))%Q.

(** The text of [n] hundredths for a number of the sign of [q]: sign,
    integer part, point and two digits, as [f"{q:.2f}"] writes them. *)
Definition decimal_2 (q : Q) (n : Z) : string :=
  (if Qlt_le_dec q 0 then "-" else "")
  +:+ pretty (n / 100) +:+ "." +:+ JsonDump.two_digits (n mod 100).

(** The number [float] reads under [key] of a dictionary: the value there
    when it is a number, [dflt] when there is none. *)
Definition number_at (items : list (string * Json)) (key : string) (dflt q : Q)
    : Prop :=
  match ReasoningAgent.Untyped.lookup_item key items with
  | None => q = dflt
  | Some (JInt z) => q = inject_Z z
  | Some (JFloat x) => q = x
  | Some _ => False
  end.

(** The text under [key] of a dictionary: the value there when it is a
    string, [dflt] when there is none. *)
Definition text_at (items : list (string * Json)) (key : string) (dflt s : string)
    : Prop :=
  match ReasoningAgent.Untyped.lookup_item key items with
  | None => s = dflt
  | Some (JStr x) => s = x
  | Some _ => False
  end.

(** Events whose rounded score equals a given number. *)
#[export] Instance score_class_dec (q : Q) (e : Event) : Decision (score_key e == q)%Q.
Proof. destruct (Qeq_dec (score_key e) q); [left | right]; assumption. Defined.

End Views.

(** ** More of the concrete world *)

Module DemoExtra.
Import Frame Events Demo.

(** A generator that counts its draws: uniform draws return the midpoint,
    normal draws the mean, every fiftieth [random()] triggers a shock. *)
#[export] Instance counting_rng : Rng := {|
  Generator := nat;
  default_rng := fun seed => Z.to_nat seed;
  rng_uniform := fun lo hi g => (((lo + hi) / 2)%Q, S g);
  rng_normal := fun mu _ g => (mu, S g);
  rng_choice := fun states _ g => (nth (g mod 4) states "clear", S g);
  rng_random := fun g => (if (g mod 50 =? 0)%nat then 0%Q else (1 # 2)%Q, S g)
|}.

#[export] Instance flat_waves : Trig := {|
  np_sin := fun _ => 0%Q;
  np_cos := fun _ => 1%Q;
  np_pi := 355 # 113
|}.

Definition fresh_harness : ReplayHarness.Harness :=
  {| ReplayHarness.forecaster := ∅;
     ReplayHarness.contamination := 7 # 100;
     ReplayHarness.reasoner := fresh_agent |}.

(** The forty hours of [df40], latest first. *)
Definition df40_latest_first : DataFrame := reverse df40.

(** [repr] in single quotes; no text spells a number. *)
#[export] Instance plain_builtins : PyText := {|
  str_repr := fun s => "'" +:+ s +:+ "'";
  float_of_str := fun _ => None
|}.

(** An explanation service that answers. *)
Definition answering : ExplanationService := {|
  ollama_generate := fun _ _ => Py.ret "{}"
|}.

(** The sample event as a dictionary, and the same with a null demand. *)
Definition sample_items : list (string * Json) :=
  [("event_id", JStr "zone_01:test_event");
   ("snapshot", JDict [("demand", JFloat 90); ("drivers", JFloat 65);
                       ("inventory", JFloat 75); ("weather", JStr "rain")])].

Definition null_demand_items : list (string * Json) :=
  [("event_id", JStr "zone_01:test_event");
   ("snapshot", JDict [("demand", JNull); ("drivers", JFloat 65);
                       ("inventory", JFloat 75); ("weather", JStr "rain")])].

(** A boolean check of the unit interval over a table's availabilities. *)
Definition availabilities_in_unit (df : DataFrame) : bool :=
  forallb (fun o => Qle_bool 0 (availability o) && Qle_bool (availability o) 1) df.

End DemoExtra.

(** ** backend/api/schemas.py *)

Module Schemas.

(** [PipelineRequest] and [ReplayRequest]: a zone, a horizon and a
    lookback. *)
Record PipelineRequest : Type := {
  pr_zone : string;
  pr_horizon : Z;
  pr_lookback : Z
}.

Record ReplayRequest : Type := {
  rr_zone : string;
  rr_horizon : Z;
  rr_lookback : Z
}.

(** [Field(6, ge=1, le=48)] and [Field(120, ge=24, le=720)]: pydantic
    builds no request whose fields lie outside these bounds. *)
Definition horizon_ok (horizon : Z) : bool := (1 <=? horizon) && (horizon <=? 48).
Definition lookback_ok (lookback : Z) : bool := (24 <=? lookback) && (lookback <=? 720).

Definition PipelineRequest_ok (payload : PipelineRequest) : bool :=
  horizon_ok (pr_horizon payload) && lookback_ok (pr_lookback payload).

Definition ReplayRequest_ok (payload : ReplayRequest) : bool :=
  horizon_ok (rr_horizon payload) && lookback_ok (rr_lookback payload).

End Schemas.

(** ** backend/api/routes.py *)

(** The two endpoints that only read the stored records, applied to the
    table [_load_dataframe] returned. *)
Module Routes.
Import Frame Schemas.

(** [HTTPException(status_code, detail)]; its text is the status code, a
    colon and the detail. *)
Definition HTTPException (status_code : Z) (detail : string) : Py.exn :=
  Py.Exn "HTTPException" (pretty status_code +:+ ": " +:+ detail).

Section WithServices.
Context `{Regressor} `{OutlierModel} `{Isoformat} `{JsonText}
        `{ExplanationService} `{VectorStore} `{Clock}.

(** [POST /pipeline/zone]: the response carries the fields of the
    orchestrator's output. *)
Definition run_pipeline (payload : PipelineRequest) (df : DataFrame)
    : Runner.M Runner.PipelineOutput :=
  match df with
  | [] => fun s => (Py.raise (HTTPException 404 "No operational data loaded"), s)
  | _ :: _ =>
      Runner.run df (pr_zone payload) (pr_horizon payload) (pr_lookback payload)
  end.

(** [POST /evaluate/replay]: the response carries the fields of the
    report. *)
Definition evaluate_replay (payload : ReplayRequest) (df : DataFrame)
    (h : ReplayHarness.Harness)
    : Py.result ReplayHarness.ReplayReport * ReplayHarness.Harness :=
  match df with
  | [] => (Py.raise (HTTPException 404 "No operational data loaded"), h)
  | _ :: _ =>
      ReplayHarness.run h df (rr_zone payload) (rr_horizon payload) (rr_lookback payload)
  end.

End WithServices.

End Routes.

Module DemoRequests.
Import Schemas.

Definition pipeline_request : PipelineRequest :=
  {| pr_zone := "zone_01"; pr_horizon := 6; pr_lookback := 120 |}.

Definition replay_request : ReplayRequest :=
  {| rr_zone := "zone_01"; rr_horizon := 6; rr_lookback := 60 |}.

End DemoRequests.

(** * Verification *)

Section Rounding.
Local Open Scope Q_scope.

Lemma round_half_even_ge (q : Q) (a : Z) :
  inject_Z a <= q -> (a <= Py.round_half_even q)%Z.
Proof.
  intros Ha. unfold Py.round_half_even.
  assert (a <= Qfloor q)%Z as Hlo.
  { apply Qfloor_resp_le in Ha. now rewrite Qfloor_Z in Ha. }
  destruct (q - inject_Z (Qfloor q) ?= 1 # 2); [destruct (Z.even _)|..]; lia.
Qed.

Lemma round_half_even_le (q : Q) (b : Z) :
  q <= inject_Z b -> (Py.round_half_even q <= b)%Z.
Proof.
  intros Hb. unfold Py.round_half_even.
  pose proof (Qfloor_le q) as Hf.
  assert (Qfloor q <= b)%Z as Hhi.
  { apply Qfloor_resp_le in Hb. now rewrite Qfloor_Z in Hb. }
  destruct (Z.eq_dec (Qfloor q) b) as [E|NE].
  - assert (q - inject_Z (Qfloor q) == 0) as Htop by (rewrite E in *; lra).
    assert ((q - inject_Z (Qfloor q) ?= 1 # 2) = Lt) as ->.
    { rewrite <- Qlt_alt. rewrite Htop. reflexivity. }
    lia.
  - destruct (q - inject_Z (Qfloor q) ?= 1 # 2); [destruct (Z.even _)|..]; lia.
Qed.

Lemma round_half_even_between (q : Q) (a b : Z) :
  inject_Z a <= q -> q <= inject_Z b ->
  (a <= Py.round_half_even q <= b)%Z.
Proof.
  intros Ha Hb. split; [now apply round_half_even_ge | now apply round_half_even_le].
Qed.

Lemma round_2_le (q : Q) (cents : Z) :
  q <= cents # 100 -> Py.round q 2 <= cents # 100.
Proof.
  intros Hq. unfold Py.round. change (10 ^ Pos.of_nat 2)%positive with 100%positive.
  assert (Py.round_half_even (q * inject_Z 100) <= cents)%Z as Hr.
  { apply round_half_even_le.
    assert ((cents # 100) * inject_Z 100 == inject_Z cents) as E.
    { unfold Qeq, Qmult, inject_Z. cbn. lia. }
    rewrite <- E. apply Qmult_le_compat_r; [exact Hq | discriminate]. }
  unfold Qle. cbn. lia.
Qed.

Lemma round_unit_interval (q : Q) (ndigits : nat) :
  0 <= q -> q <= 1 -> 0 <= Py.round q ndigits /\ Py.round q ndigits <= 1.
Proof.
  intros H0 H1. unfold Py.round. destruct ndigits as [|n].
  - destruct (round_half_even_between q 0 1) as [A B]; [exact H0 | exact H1 |].
    split; [change 0 with (inject_Z 0) | change 1 with (inject_Z 1)];
      rewrite <- Zle_Qle; assumption.
  - set (scale := (10 ^ Pos.of_nat (S n))%positive).
    destruct (round_half_even_between (q * inject_Z (Z.pos scale)) 0 (Z.pos scale))
      as [A B].
    + change (inject_Z 0) with 0. apply Qmult_le_0_compat; [exact H0|].
      change 0 with (inject_Z 0). rewrite <- Zle_Qle. lia.
    + assert (0 <= inject_Z (Z.pos scale)) as Hs.
      { change 0 with (inject_Z 0). rewrite <- Zle_Qle. lia. }
      nra.
    + unfold Qle; simpl. split; lia.
Qed.

Lemma round_le_one (q : Q) (ndigits : nat) : q <= 1 -> Py.round q ndigits <= 1.
Proof.
  intros H1. unfold Py.round. destruct ndigits as [|n].
  - change 1 with (inject_Z 1). rewrite <- Zle_Qle.
    now apply round_half_even_le.
  - set (scale := (10 ^ Pos.of_nat (S n))%positive).
    assert (Py.round_half_even (q * inject_Z (Z.pos scale)) <= Z.pos scale)%Z as B.
    { apply round_half_even_le.
      assert (0 <= inject_Z (Z.pos scale)) as Hs.
      { change 0 with (inject_Z 0). rewrite <- Zle_Qle. lia. }
      nra. }
    unfold Qle; simpl. lia.
Qed.

Lemma clip_unit_interval (x : Q) : 0 <= Py.clip x 0 1 /\ Py.clip x 0 1 <= 1.
Proof.
  unfold Py.clip. split.
  - apply Q.min_glb; [apply Q.le_max_r | discriminate].
  - apply Q.le_min_r.
Qed.
End Rounding.

Section NearestFacts.
Import Views.
Local Open Scope Q_scope.

Lemma round_half_even_nearest (x : Q) (m : Z) :
  Qabs (inject_Z (Py.round_half_even x) - x) <= Qabs (inject_Z m - x).
Proof.
  pose proof (Qfloor_le x) as Hlo. pose proof (Qlt_floor x) as Hhi.
  rewrite inject_Z_plus in Hhi. change (inject_Z 1) with 1 in Hhi.
  pose proof (Qle_Qabs (inject_Z m - x)) as Hpos.
  pose proof (Qle_Qabs (- (inject_Z m - x))) as Hneg. rewrite Qabs_opp in Hneg.
  assert (inject_Z m <= inject_Z (Qfloor x) \/ inject_Z (Qfloor x) + 1 <= inject_Z m)
    as Hm.
  { destruct (Z_le_gt_dec m (Qfloor x)) as [Hle|Hgt].
    - left. now rewrite <- Zle_Qle.
    - right. change 1 with (inject_Z 1). rewrite <- inject_Z_plus, <- Zle_Qle. lia. }
  apply Qabs_Qle_condition. unfold Py.round_half_even.
  destruct (x - inject_Z (Qfloor x) ?= 1 # 2) eqn:C.
  - apply Qeq_alt in C.
    destruct (Z.even (Qfloor x));
      [|rewrite inject_Z_plus; change (inject_Z 1) with 1];
      destruct Hm; split; lra.
  - apply Qlt_alt in C. destruct Hm; split; lra.
  - apply Qgt_alt in C. rewrite inject_Z_plus. change (inject_Z 1) with 1.
    destruct Hm; split; lra.
Qed.

Lemma scaled_distance (scale : positive) (k : Z) (q : Q) :
  Qabs ((k # scale) - q) * inject_Z (Z.pos scale)
  == Qabs (inject_Z k - q * inject_Z (Z.pos scale)).
Proof.
  assert (0 <= inject_Z (Z.pos scale)) as Hs
    by (change 0 with (inject_Z 0); rewrite <- Zle_Qle; lia).
  rewrite <- (Qabs_pos (inject_Z (Z.pos scale))) at 1 by exact Hs.
  rewrite <- Qabs_Qmult. apply Qabs_wd.
  rewrite (Qmake_Qdiv k scale). field.
  intros E. rewrite E in Hs.
  assert (0 < inject_Z (Z.pos scale))
    by (change 0 with (inject_Z 0); rewrite <- Zlt_Qlt; lia).
  lra.
Qed.

Lemma nearest_of_round_half_even (scale : positive) (q : Q) :
  nearest_multiple scale q
    (Py.round_half_even (q * inject_Z (Z.pos scale)) # scale).
Proof.
  split; [eexists; reflexivity|]. intros m.
  assert (0 < inject_Z (Z.pos scale)) as Hs
    by (change 0 with (inject_Z 0); rewrite <- Zlt_Qlt; lia).
  apply (Qmult_le_r _ _ (inject_Z (Z.pos scale))); [exact Hs|].
  rewrite !scaled_distance. apply round_half_even_nearest.
Qed.

Lemma round_nearest (q : Q) (n : nat) :
  nearest_multiple (10 ^ Pos.of_nat (S n)) q (Py.round q (S n)).
Proof. unfold Py.round. apply nearest_of_round_half_even. Qed.

(** A nearest multiple of a multiple is that multiple. *)
Lemma nearest_of_multiple (scale : positive) (q r : Q) (k : Z) :
  q == k # scale -> nearest_multiple scale q r -> r == q.
Proof.
  intros Hq [_ Hnear]. specialize (Hnear k).
  assert ((k # scale) - q == 0) as Hz by (rewrite Hq; ring).
  rewrite Hz in Hnear. change (Qabs 0) with 0 in Hnear.
  apply Qabs_Qle_condition in Hnear. lra.
Qed.

(** A nearest multiple of a number no greater than a multiple is no
    greater than it. *)
Lemma nearest_le (scale : positive) (q r : Q) (k : Z) :
  q <= k # scale -> nearest_multiple scale q r -> r <= k # scale.
Proof.
  intros Hq [_ Hnear]. specialize (Hnear k).
  destruct (Qlt_le_dec (k # scale) r) as [Hgt|Hle]; [|exact Hle].
  rewrite (Qabs_pos (r - q)) in Hnear by lra.
  rewrite (Qabs_pos ((k # scale) - q)) in Hnear by lra. lra.
Qed.

End NearestFacts.

Section BusinessMetricsFacts.
Import BusinessMetrics Views.
Local Open Scope Q_scope.

(** C7, as the specification states it, fails: with more acknowledged than
    generated actions the code clamps the acceptance rate to 1 where the
    stated quotient is 4/3 (and the MTTR estimate is 50, not 12 + 38 * 4/3),
    and the prevention rate is the rounded 0.3333, not 1/3. *)
Lemma estimate_impact_clamps_and_rounds :
  ~ impact_eq (estimate_impact 1 3 4 3) (spec_estimate_impact 1 3 4 3)
  /\ action_acceptance_rate (estimate_impact 1 3 4 3) == 1
  /\ action_acceptance_rate (spec_estimate_impact 1 3 4 3) == 4 # 3
  /\ estimated_mttr_reduction_minutes (estimate_impact 1 3 4 3) == 50
  /\ estimated_mttr_reduction_minutes (spec_estimate_impact 1 3 4 3) == 188 # 3
  /\ incident_prevention_rate (estimate_impact 1 3 4 3) == 3333 # 10000
  /\ incident_prevention_rate (spec_estimate_impact 1 3 4 3) == 1 # 3.
Proof.
  split; [|repeat split; vm_compute; reflexivity].
  intros (_ & _ & Hacc & _). vm_compute in Hacc. discriminate.
Qed.

Lemma round_of_hundredths (q : Q) (k : Z) :
  q * inject_Z 100 == inject_Z k -> Py.round q 2 == k # 100.
Proof.
  intros E. unfold Py.round. change (10 ^ Pos.of_nat 2)%positive with 100%positive.
  assert (Py.round_half_even (q * inject_Z 100) = k) as ->; [|reflexivity].
  destruct (round_half_even_between (q * inject_Z 100) k k);
    [rewrite E; apply Qle_refl | rewrite E; apply Qle_refl | lia].
Qed.

(** C7, amended: with a baseline of 0 or less replaced by 1, the prevention
    rate is min(1, anomalies / baseline) and the acceptance rate
    min(1, acknowledged / generated) (0 when nothing was generated), each
    rounded to a nearest multiple of 0.0001; the MTTR reduction is
    12 + 38 * min(1, acknowledged / generated) rounded to a nearest multiple
    of 0.01 (12 when nothing was generated); the ops hours saved are
    (35 * anomalies + 22 * acknowledged) / 100; both rates never exceed 1;
    and for anomalies = 5, generated = 10, acknowledged = 6, baseline = 2 the
    four numbers are 1.0, 0.6, 34.8 and 3.07.  Nothing is said of which
    neighbour a rounding takes at an exact tie. *)
Theorem estimate_impact_formulas (anomalies corrective acknowledged baseline : Z) :
  let baseline' := if (baseline <=? 0)%Z then 1%Z else baseline in
  let acceptance :=
    if (corrective =? 0)%Z then 0
    else Qmin 1 (inject_Z acknowledged / inject_Z corrective) in
  let impact := estimate_impact anomalies corrective acknowledged baseline in
  nearest_multiple 10000 (Qmin 1 (inject_Z anomalies / inject_Z baseline'))
    (incident_prevention_rate impact)
  /\ nearest_multiple 10000 acceptance (action_acceptance_rate impact)
  /\ nearest_multiple 100 (12 + 38 * acceptance) (estimated_mttr_reduction_minutes impact)
  /\ estimated_ops_hours_saved impact == (35 * anomalies + 22 * acknowledged) # 100
  /\ incident_prevention_rate impact <= 1
  /\ action_acceptance_rate impact <= 1
  /\ action_acceptance_rate (estimate_impact anomalies 0 acknowledged baseline) == 0
  /\ estimated_mttr_reduction_minutes (estimate_impact anomalies 0 acknowledged baseline)
     == 12
  /\ impact_eq (estimate_impact 5 10 6 2)
       {| incident_prevention_rate := 1;
          estimated_mttr_reduction_minutes := 348 # 10;
          action_acceptance_rate := 6 # 10;
          estimated_ops_hours_saved := 307 # 100 |}.
Proof.
  cbv zeta. unfold estimate_impact, Py.min; cbn [incident_prevention_rate
    action_acceptance_rate estimated_mttr_reduction_minutes estimated_ops_hours_saved].
  split; [apply (round_nearest _ 3)|]. split; [apply (round_nearest _ 3)|].
  split; [apply (round_nearest _ 1)|].
  split.
  - apply round_of_hundredths.
    rewrite inject_Z_plus, !inject_Z_mult. change (inject_Z 100) with 100.
    change (inject_Z 35) with 35. change (inject_Z 22) with 22. field.
  - split; [apply round_le_one, Q.le_min_l|].
    split.
    + apply round_le_one. destruct (corrective =? 0)%Z; [discriminate | apply Q.le_min_l].
    + split; [vm_compute; reflexivity|]. split; [vm_compute; reflexivity|].
      repeat split; vm_compute; reflexivity.
Qed.

End BusinessMetricsFacts.

Section MetricsFacts.
Import Metrics.
Local Open Scope Q_scope.

Lemma broadcast_same_length f xs ys :
  length xs = length ys -> broadcast f xs ys = inr (zip_with f xs ys).
Proof. intros E. unfold broadcast. now rewrite decide_True. Qed.

Lemma Qsum_zero xs : Forall (fun x => x == 0) xs -> Qsum xs == 0.
Proof.
  induction 1 as [|x xs Hx _ IH]; cbn; [reflexivity|].
  rewrite Hx, IH. reflexivity.
Qed.

Lemma np_mean_zero x xs :
  Forall (fun x => x == 0) (x :: xs) ->
  exists m, np_mean (x :: xs) = fin m /\ m == 0.
Proof.
  intros Hz. eexists; split; [reflexivity|].
  rewrite (Qsum_zero _ Hz). unfold Qdiv. apply Qmult_0_l.
Qed.

(** C8, as the specification states it, fails: on the documented series the
    MAPE is not between 0.025 and 0.03. *)
Lemma mape_documented_out_of_range :
  ~ exists m, mape documented_true documented_pred = inr (fin m)
              /\ (25 # 1000) <= m /\ m <= (3 # 100).
Proof.
  intros (m & E & _ & Hhi). vm_compute in E. injection E as <-.
  vm_compute in Hhi. apply Hhi. reflexivity.
Qed.

Lemma zip_minus_self (xs : list Q) :
  Forall (fun x => x == 0) (zip_with Qminus xs xs).
Proof.
  induction xs as [|x xs IH]; cbn; constructor; [|exact IH].
  unfold Qminus. apply Qplus_opp_r.
Qed.

Lemma zip_div_zero (xs ds : list Q) :
  Forall (fun x => x == 0) xs ->
  Forall (fun x => x == 0) (zip_with Qdiv xs ds).
Proof.
  intros Hz. revert ds. induction Hz as [|x xs Hx _ IH]; intros [|d ds]; cbn;
    try constructor; [|apply IH].
  rewrite Hx. unfold Qdiv. apply Qmult_0_l.
Qed.

Lemma map_abs_zero (xs : list Q) :
  Forall (fun x => x == 0) xs -> Forall (fun x => x == 0) (map Qabs xs).
Proof.
  induction 1 as [|x xs Hx _ IH]; cbn; constructor; [|exact IH].
  rewrite Hx. reflexivity.
Qed.

Lemma map_square_zero (xs : list Q) :
  Forall (fun x => x == 0) xs -> Forall (fun x => x == 0) (map (fun d => d * d) xs).
Proof.
  induction 1 as [|x xs Hx _ IH]; cbn; constructor; [|exact IH].
  rewrite Hx. reflexivity.
Qed.

Lemma mape_exact (y : Q) (ys : list Q) :
  exists m, mape (y :: ys) (y :: ys) = inr (fin m) /\ m == 0.
Proof.
  unfold mape. rewrite broadcast_same_length by reflexivity.
  cbn [Py.bind]. rewrite broadcast_same_length
    by (rewrite length_zip_with, length_map; lia).
  cbn [Py.bind Py.ret].
  destruct (np_mean_zero
              (Qabs ((y - y) / Qmax (Qabs y) (1 # 1000000)))
              (map Qabs (zip_with Qdiv (zip_with Qminus ys ys)
                           (map (fun t => Qmax (Qabs t) (1 # 1000000)) ys))))
    as (m & E & Hm).
  - change (Forall (fun x => x == 0)
              (map Qabs (zip_with Qdiv (zip_with Qminus (y :: ys) (y :: ys))
                          (map (fun t => Qmax (Qabs t) (1 # 1000000)) (y :: ys))))).
    apply map_abs_zero, zip_div_zero, zip_minus_self.
  - exists m. split; [|exact Hm]. cbn [map zip_with]. f_equal. exact E.
Qed.

Lemma rmse_exact (y : Q) (ys : list Q) :
  rmse (y :: ys) (y :: ys) = inr (rfin 0%R).
Proof.
  unfold rmse, mean_squared_error.
  rewrite broadcast_same_length by reflexivity.
  cbn [Py.bind Py.ret].
  destruct (np_mean_zero ((y - y) * (y - y))
              (map (fun d => d * d) (zip_with Qminus ys ys))) as (m & E & Hm).
  - change (Forall (fun x => x == 0)
              (map (fun d => d * d) (zip_with Qminus (y :: ys) (y :: ys)))).
    apply map_square_zero, zip_minus_self.
  - cbn [map zip_with]. rewrite E. cbn [np_sqrt]. do 2 f_equal.
    rewrite (Qeq_eqR _ _ Hm). rewrite RMicromega.Q2R_0. apply sqrt_0.
Qed.

Lemma mape_single (t p : Q) :
  exists m, mape [t] [p] = inr (fin m)
            /\ m == Qabs (t - p) / Qmax (Qabs t) (1 # 1000000).
Proof.
  unfold mape. rewrite broadcast_same_length by reflexivity.
  cbn [Py.bind map zip_with]. rewrite broadcast_same_length by reflexivity.
  cbn [Py.bind Py.ret map zip_with np_mean length Qsum foldr].
  eexists; split; [reflexivity|].
  change (inject_Z (Z.of_nat 1)) with 1.
  rewrite Qplus_0_r. unfold Qdiv at 1. change (/ 1) with 1. rewrite Qmult_1_r.
  unfold Qdiv. rewrite Qabs_Qmult.
  rewrite (Qabs_pos (/ _)); [reflexivity|].
  apply Qinv_le_0_compat. apply Q.max_le_iff. right. discriminate.
Qed.

Lemma sqrt_between (x lo hi : R) :
  (0 <= lo)%R -> (0 <= hi)%R -> (lo * lo < x)%R -> (x < hi * hi)%R ->
  (lo < sqrt x < hi)%R.
Proof.
  intros Hlo Hhi Hl Hh.
  assert (0 <= x)%R as Hx by (pose proof (Rle_0_sqr lo); unfold Rsqr in *; Lra.lra).
  split.
  - rewrite <- (sqrt_square lo Hlo). apply sqrt_lt_1_alt. split; [|exact Hl].
    pose proof (Rle_0_sqr lo); unfold Rsqr in *; Lra.lra.
  - rewrite <- (sqrt_square hi Hhi). apply sqrt_lt_1_alt. split; assumption.
Qed.

Lemma documented_mse :
  exists m, mean_squared_error documented_true documented_pred = inr (fin m)
            /\ m == 8 # 10000.
Proof. eexists; split; [vm_compute; reflexivity | reflexivity]. Qed.

(** C8, amended: on non-empty series MAPE = 0 and RMSE = 0 whenever the
    predictions equal the true values; the MAPE denominator is floored at
    1e-6; and on y_true = [0.8, 0.7, 0.9], y_pred = [0.78, 0.72, 0.86] the
    MAPE lies between 0.032 and 0.033 and the RMSE, the square root of
    0.0008, between 0.028 and 0.029. *)
Theorem replay_metrics (y : Q) (ys : list Q) (t p : Q) :
  (exists m, mape (y :: ys) (y :: ys) = inr (fin m) /\ m == 0)
  /\ rmse (y :: ys) (y :: ys) = inr (rfin 0%R)
  /\ (exists m, mape [t] [p] = inr (fin m)
                /\ m == Qabs (t - p) / Qmax (Qabs t) (1 # 1000000))
  /\ (exists m, mape documented_true documented_pred = inr (fin m)
                /\ (32 # 1000) < m /\ m < (33 # 1000))
  /\ (exists r, rmse documented_true documented_pred = inr (rfin r)
                /\ (r * r = 8 / 10000)%R
                /\ (28 / 1000 < r < 29 / 1000)%R).
Proof.
  split; [apply mape_exact|]. split; [apply rmse_exact|].
  split; [apply mape_single|]. split.
  - eexists; split; [vm_compute; reflexivity|]. split; reflexivity.
  - destruct documented_mse as (m & E & Hm).
    unfold rmse. rewrite E. cbn [Py.bind Py.ret np_sqrt].
    assert (Q2R m = 8 / 10000)%R as ->.
    { rewrite (Qeq_eqR _ _ Hm). unfold Q2R. cbn. Lra.lra. }
    eexists; split; [reflexivity|]. split.
    + apply sqrt_sqrt. Lra.lra.
    + apply sqrt_between; Lra.lra.
Qed.

End MetricsFacts.

Section FrameFacts.
Import Frame.
Context {A : Type}.

Lemma length_insert_by (leb : A -> A -> bool) (x : A) (l : list A) :
  length (insert_by leb x l) = S (length l).
Proof.
  induction l as [|y l IH]; cbn; [reflexivity|].
  destruct (leb x y); cbn; [reflexivity|]. now rewrite IH.
Qed.

Lemma length_sort_by (leb : A -> A -> bool) (l : list A) :
  length (sort_by leb l) = length l.
Proof.
  induction l as [|x l IH]; cbn; [reflexivity|].
  unfold sort_by in IH. now rewrite length_insert_by, IH.
Qed.

Lemma insert_by_perm (leb : A -> A -> bool) (x : A) (l : list A) :
  Permutation (insert_by leb x l) (x :: l).
Proof.
  induction l as [|y l IH]; cbn; [reflexivity|].
  destruct (leb x y); [reflexivity|].
  rewrite IH. apply perm_swap.
Qed.

Lemma sort_by_perm (leb : A -> A -> bool) (l : list A) :
  Permutation (sort_by leb l) l.
Proof.
  induction l as [|x l IH]; cbn; [reflexivity|].
  rewrite insert_by_perm. now constructor.
Qed.

Lemma shift1_cons (x : A) (xs : list A) :
  shift1 (x :: xs) = None :: map Some (take (length xs) (x :: xs)).
Proof.
  unfold shift1. cbn [length]. rewrite firstn_cons. f_equal.
  change (Some x :: map Some xs) with (map Some (x :: xs)).
  symmetry. apply fmap_take.
Qed.

Lemma length_shift1 (xs : list A) : length (shift1 xs) = length xs.
Proof.
  unfold shift1. rewrite length_take. cbn. rewrite length_map. lia.
Qed.

End FrameFacts.

Section SortFacts.
Import Frame.
Context {A : Type} (leb : A -> A -> bool).

Lemma insert_by_hd (a x : A) (l : list A) :
  HdRel (in_order leb) a l -> in_order leb a x -> HdRel (in_order leb) a (insert_by leb x l).
Proof.
  intros Hl Hx. destruct l as [|y l]; cbn; [now constructor|].
  destruct (leb x y); constructor; [exact Hx|].
  now inversion Hl.
Qed.

Lemma insert_by_sorted (x : A) (l : list A) :
  (forall u v, leb u v = true \/ leb v u = true) ->
  Sorted (in_order leb) l -> Sorted (in_order leb) (insert_by leb x l).
Proof.
  intros Htotal. induction 1 as [|y l Hs IH Hhd]; cbn; [repeat constructor|].
  destruct (leb x y) eqn:E.
  - constructor; [now constructor|]. now constructor.
  - constructor; [exact IH|]. apply insert_by_hd; [exact Hhd|].
    destruct (Htotal x y) as [E'|E']; [congruence | exact E'].
Qed.

Lemma sort_by_sorted (l : list A) :
  (forall u v, leb u v = true \/ leb v u = true) ->
  Sorted (in_order leb) (sort_by leb l).
Proof.
  intros Htotal. induction l as [|x l IH]; cbn; [constructor|].
  now apply insert_by_sorted.
Qed.

Lemma sort_by_fixed (l : list A) : Sorted (in_order leb) l -> sort_by leb l = l.
Proof.
  induction 1 as [|x l Hs IH Hhd]; [reflexivity|].
  cbn [sort_by foldr]. fold (sort_by leb l). rewrite IH.
  destruct Hhd as [|y l' Hxy]; cbn; [reflexivity|].
  unfold in_order in Hxy. now rewrite Hxy.
Qed.

Lemma sort_by_idempotent (l : list A) :
  (forall u v, leb u v = true \/ leb v u = true) ->
  sort_by leb (sort_by leb l) = sort_by leb l.
Proof. intros Htotal. now apply sort_by_fixed, sort_by_sorted. Qed.

End SortFacts.

Section TimestampOrder.
Import Frame.

Lemma sort_values_timestamp_idempotent (df : DataFrame) :
  sort_values_timestamp (sort_values_timestamp df) = sort_values_timestamp df.
Proof.
  apply sort_by_idempotent. intros u v.
  destruct (Z.leb_spec (timestamp u) (timestamp v)); [now left|].
  right. apply Z.leb_le. lia.
Qed.

Lemma last_drop_1 {A} (l : list A) (x : A) :
  last (drop 1 l) = Some x -> last l = Some x.
Proof.
  destruct l as [|y l]; [discriminate|].
  change (drop 1 (y :: l)) with l. intros E.
  rewrite last_cons, E. reflexivity.
Qed.
End TimestampOrder.

Section RollingFacts.
Import Frame.

Lemma length_rolling_mean (w : nat) (xs : list Q) :
  length (rolling_mean w xs) = length xs.
Proof. unfold rolling_mean. apply length_imap. Qed.

Lemma rolling_mean_lookup (w i : nat) (xs : list Q) (x : Q) :
  xs !! i = Some x ->
  rolling_mean w xs !! i = Some (mean (window_at w i xs)).
Proof.
  intros E. unfold rolling_mean. rewrite list_lookup_imap, E. reflexivity.
Qed.
End RollingFacts.

Section BuildFeatures.
Import Frame ForecastAgent.

Lemma dropna_all_present (os : list Observation) (lags rolls : list Q) :
  omap (fun '(o, s) => assemble o s) (zip os (zip (map Some lags) (map Some rolls)))
  = rows_of os lags rolls.
Proof.
  unfold rows_of. revert lags rolls.
  induction os as [|o os IH]; intros [|l lags] [|r rolls]; cbn; try reflexivity.
  f_equal. apply IH.
Qed.

Lemma build_features_ordered (df : DataFrame) (o : Observation) (os : list Observation) :
  sort_values_timestamp df = o :: os ->
  let av := map availability (o :: os) in
  _build_features df
  = rows_of os (take (length os) av) (take (length os) (rolling_mean 3 av)).
Proof.
  intros Hs av. unfold _build_features. rewrite Hs. fold av.
  assert (length av = S (length os)) as Hav by (unfold av; cbn; now rewrite length_map).
  pose proof (length_rolling_mean 3 av) as Hr. rewrite Hav in Hr.
  destruct (rolling_mean 3 av) as [|r rs] eqn:Er; [discriminate|].
  injection Hr as Hr.
  unfold av at 1. cbn [map]. rewrite !shift1_cons.
  rewrite Hr, length_map. 
  exact (dropna_all_present os (take (length os) av) (take (length os) (r :: rs))).
Qed.

Lemma rows_of_obs (os : list Observation) (lags rolls : list Q) :
  length lags = length os -> length rolls = length os ->
  map obs (rows_of os lags rolls) = os.
Proof.
  unfold rows_of. revert lags rolls.
  induction os as [|o os IH]; intros [|l lags] [|r rolls] Hl Hr; cbn in *;
    try discriminate; [reflexivity|].
  f_equal. apply IH; lia.
Qed.

Lemma rows_of_lookup (os : list Observation) (lags rolls : list Q) (k : nat) (r : FeatureRow) :
  rows_of os lags rolls !! k = Some r ->
  exists o l m, os !! k = Some o /\ lags !! k = Some l /\ rolls !! k = Some m
                /\ r = feature_row o l m.
Proof.
  unfold rows_of. intros E.
  apply lookup_zip_with_Some in E as (o & [l m] & -> & Ho & Hz).
  apply lookup_zip_with_Some in Hz as (l' & m' & E & Hl & Hm).
  injection E as <- <-. exists o, l, m. auto.
Qed.

Lemma build_features_obs (df : DataFrame) :
  map obs (_build_features df) = drop 1 (sort_values_timestamp df).
Proof.
  destruct (sort_values_timestamp df) as [|o os] eqn:Hs.
  - unfold _build_features. rewrite Hs. reflexivity.
  - rewrite (build_features_ordered df o os Hs).
    change (drop 1 (o :: os)) with os.
    apply rows_of_obs.
    + rewrite length_take, length_map. cbn [length]. lia.
    + rewrite length_take, length_rolling_mean, length_map. cbn [length]. lia.
Qed.

Lemma length_build_features (df : DataFrame) :
  length (_build_features df) = (length df - 1)%nat.
Proof.
  rewrite <- (length_map obs), build_features_obs, length_drop.
  unfold sort_values_timestamp. now rewrite length_sort_by.
Qed.

Lemma build_features_lookup (df : DataFrame) (k : nat) (r : FeatureRow) :
  _build_features df !! k = Some r ->
  let ordered := sort_values_timestamp df in
  let av := map availability ordered in
  exists o a, ordered !! S k = Some o /\ av !! k = Some a
              /\ r = feature_row o a (mean (window_at 3 k av)).
Proof.
  intros E ordered av. subst ordered av.
  destruct (sort_values_timestamp df) as [|o os] eqn:Hs.
  - unfold _build_features in E. rewrite Hs in E. discriminate.
  - rewrite (build_features_ordered df o os Hs) in E.
    apply rows_of_lookup in E as (o' & l & m & Ho & Hl & Hm & ->).
    apply lookup_take_Some in Hl as [Hl _].
    apply lookup_take_Some in Hm as [Hm _].
    rewrite (rolling_mean_lookup 3 k _ l Hl) in Hm. injection Hm as <-.
    exists o', l. auto.
Qed.

End BuildFeatures.

Section TrainFacts.
Import Frame ForecastAgent.
Context `{Regressor} `{Isoformat}.

Lemma train_zone_lookup (models : gmap string Model) (df : DataFrame) (k zone : string) :
  train_zone models (k, zone_rows k df) !! zone
  = if decide (zone = k /\ viable df zone) then Some (fitted df zone)
    else models !! zone.
Proof.
  unfold train_zone, viable, fitted.
  destruct (Nat.ltb_spec (length (_build_features (zone_rows k df))) 30) as [Hlt|Hge].
  - rewrite decide_False; [reflexivity|]. intros [-> Hv]. lia.
  - destruct (decide (zone = k)) as [->|Hne].
    + rewrite decide_True by auto. apply lookup_insert_eq.
    + rewrite decide_False by tauto. apply lookup_insert_ne. congruence.
Qed.

Lemma train_keys_lookup (df : DataFrame) (keys : list string)
    (models : gmap string Model) (zone : string) :
  foldl train_zone models (map (fun z => (z, zone_rows z df)) keys) !! zone
  = if decide (zone ∈ keys /\ viable df zone) then Some (fitted df zone)
    else models !! zone.
Proof.
  revert models. induction keys as [|k keys IH]; intros models; cbn [map foldl].
  - rewrite decide_False; [reflexivity|]. intros [Hin _]. inversion Hin.
  - rewrite IH, train_zone_lookup.
    destruct (decide (zone ∈ keys /\ viable df zone)) as [[Hin Hv]|Hn].
    + rewrite decide_True; [reflexivity|]. split; [now right | exact Hv].
    + destruct (decide (zone = k /\ viable df zone)) as [[-> Hv]|Hn'].
      * rewrite decide_True; [reflexivity|]. split; [now left | exact Hv].
      * rewrite decide_False; [reflexivity|]. intros [Hin Hv].
        apply elem_of_cons in Hin as [->|Hin]; tauto.
Qed.

Lemma viable_present (df : DataFrame) (zone : string) :
  viable df zone -> zone ∈ remove_dups (map zone_id df).
Proof.
  unfold viable. rewrite length_build_features. intros Hv.
  rewrite elem_of_remove_dups.
  destruct (zone_rows zone df) as [|o os] eqn:E; [cbn in Hv; lia|].
  assert (o ∈ zone_rows zone df) as Hin by (rewrite E; left).
  unfold zone_rows in Hin. apply list_elem_of_filter in Hin as [Hz Hin].
  rewrite <- Hz. apply list_elem_of_fmap. exists o. auto.
Qed.

Lemma train_lookup (models : gmap string Model) (df : DataFrame) (zone : string) :
  train models df !! zone
  = if decide (viable df zone) then Some (fitted df zone) else models !! zone.
Proof.
  unfold train, groupby_zone. rewrite train_keys_lookup.
  destruct (decide (viable df zone)) as [Hv|Hn].
  - rewrite decide_True; [reflexivity|]. split; [now apply viable_present | exact Hv].
  - rewrite decide_False; [reflexivity | tauto].
Qed.

Lemma viable_iff (df : DataFrame) (zone : string) :
  viable df zone <-> (31 <= length (zone_rows zone df))%nat.
Proof. unfold viable. rewrite length_build_features. lia. Qed.

End TrainFacts.

Section LoopFacts.
Import Frame ForecastAgent.
Context `{Regressor} `{Isoformat}.

Lemma predict_loop_S (model : Model) (n : nat) (st : LoopState) :
  predict_loop model (S n) st
  = (fst (predict_loop model n (fst (loop_body model st))),
     snd (loop_body model st) :: snd (predict_loop model n (fst (loop_body model st)))).
Proof.
  cbn [predict_loop]. destruct (loop_body model st) as [st' p]. cbn [fst snd].
  destruct (predict_loop model n st') as [st'' ps]. reflexivity.
Qed.

Lemma state_after_S (model : Model) (k : nat) (st : LoopState) :
  state_after model (S k) st = fst (loop_body model (state_after model k st)).
Proof.
  unfold state_after. revert st. induction k as [|k IH]; intros st.
  - rewrite predict_loop_S. reflexivity.
  - rewrite predict_loop_S. cbn [fst]. rewrite IH. 
    rewrite (predict_loop_S model k st). reflexivity.
Qed.

Lemma length_predict_loop (model : Model) (n : nat) (st : LoopState) :
  length (snd (predict_loop model n st)) = n.
Proof.
  revert st. induction n as [|n IH]; intros st; [reflexivity|].
  rewrite predict_loop_S. cbn [snd length]. now rewrite IH.
Qed.

Lemma predict_loop_lookup (model : Model) (n k : nat) (st : LoopState) :
  (k < n)%nat ->
  snd (predict_loop model n st) !! k
  = Some (snd (loop_body model (state_after model k st))).
Proof.
  revert k st. induction n as [|n IH]; intros k st Hk; [lia|].
  rewrite predict_loop_S. cbn [snd]. destruct k as [|k].
  - reflexivity.
  - cbn [lookup list_lookup]. rewrite IH by lia.
    unfold state_after. rewrite (predict_loop_S model k st). reflexivity.
Qed.

Lemma state_after_ts (model : Model) (k : nat) (st : LoopState) :
  current_ts (state_after model k st) = current_ts st + 3600 * Z.of_nat k.
Proof.
  induction k as [|k IH].
  - unfold state_after. cbn. lia.
  - rewrite state_after_S. cbn [loop_body fst current_ts]. rewrite IH. lia.
Qed.

Lemma loop_body_prediction (model : Model) (st : LoopState) :
  snd (loop_body model st)
  = {| p_timestamp := isoformat (current_ts st + 3600);
       predicted_availability := Py.round (yhat_of model st) 4 |}.
Proof. reflexivity. Qed.

Lemma loop_body_state (model : Model) (st : LoopState) :
  fst (loop_body model st)
  = {| current_row :=
         with_feedback (with_clock (current_row st) (current_ts st + 3600))
                       (yhat_of model st);
       current_ts := current_ts st + 3600 |}.
Proof. reflexivity. Qed.

End LoopFacts.

Section ClipFacts.
Local Open Scope Q_scope.

Lemma clip_inside (x : Q) : 0 <= x -> x <= 1 -> Py.clip x 0 1 = x.
Proof.
  intros H0 H1. unfold Py.clip, Qmin, Qmax, GenericMinMax.gmin, GenericMinMax.gmax.
  destruct (x ?= 0) eqn:C0.
  - destruct (x ?= 1) eqn:C1; try reflexivity.
    apply Qgt_alt in C1. lra.
  - apply Qlt_alt in C0. lra.
  - destruct (x ?= 1) eqn:C1; try reflexivity.
    apply Qgt_alt in C1. lra.
Qed.

Lemma clip_below (x : Q) : x < 0 -> Py.clip x 0 1 = 0.
Proof.
  intros H0. unfold Py.clip, Qmin, Qmax, GenericMinMax.gmin, GenericMinMax.gmax.
  destruct (x ?= 0) eqn:C0.
  - apply Qeq_alt in C0. lra.
  - reflexivity.
  - apply Qgt_alt in C0. lra.
Qed.

Lemma clip_above (x : Q) : 1 < x -> Py.clip x 0 1 = 1.
Proof.
  intros H1. unfold Py.clip, Qmin, Qmax, GenericMinMax.gmin, GenericMinMax.gmax.
  destruct (x ?= 0) eqn:C0.
  - apply Qeq_alt in C0. lra.
  - apply Qlt_alt in C0. lra.
  - destruct (x ?= 1) eqn:C1; try reflexivity.
    + apply Qeq_alt in C1. lra.
    + apply Qlt_alt in C1. lra.
Qed.

End ClipFacts.

Section ForecastTheorems.
Import Frame ForecastAgent Views.
Context `{Regressor} `{Isoformat}.

(** C1: for a zone whose history yields at least 30 feature rows, [train]
    followed by [predict] with a horizon [H] (a count, so not negative)
    returns exactly [H] predictions, each availability within [0,1], the
    [k]-th stamped one hour after the previous one, starting one hour after
    the zone's latest observation. *)
Theorem train_then_predict (models : gmap string Model) (df : DataFrame)
    (zone : string) (horizon : Z) :
  (30 <= length (_build_features (zone_rows zone df)))%nat ->
  0 <= horizon ->
  exists result latest,
    predict (train models df) df zone horizon = inr result
    /\ last (sort_values_timestamp (zone_rows zone df)) = Some latest
    /\ fr_zone_id result = zone
    /\ fr_horizon_hours result = horizon
    /\ Z.of_nat (length (predictions result)) = horizon
    /\ forall k p,
         predictions result !! k = Some p ->
         (0 <= predicted_availability p /\ predicted_availability p <= 1)%Q
         /\ p_timestamp p = isoformat (timestamp latest + 3600 * (Z.of_nat k + 1)).
Proof.
  intros Hv Hh.
  unfold predict. rewrite train_lookup, decide_True by exact Hv.
  set (zone_df := sort_values_timestamp (zone_rows zone df)).
  assert (length zone_df = length (zone_rows zone df)) as Hlen
    by apply length_sort_by.
  assert (29 <= length (_build_features zone_df) - 1)%nat as Hfeats.
  { rewrite length_build_features, Hlen.
    rewrite length_build_features in Hv. lia. }
  destruct (last (_build_features zone_df)) as [row|] eqn:Hlast.
  2:{ apply last_None in Hlast. rewrite Hlast in Hfeats. cbn in Hfeats. lia. }
  assert (last zone_df = Some (obs row)) as Hlatest.
  { pose proof (build_features_obs zone_df) as Hobs.
    unfold zone_df in Hobs at 2. rewrite sort_values_timestamp_idempotent in Hobs.
    fold zone_df in Hobs. apply last_drop_1. rewrite <- Hobs.
    change (map obs) with (fmap (M := list) obs).
    rewrite fmap_last, Hlast. reflexivity. }
  exists {| fr_zone_id := zone; fr_horizon_hours := horizon;
            predictions :=
              snd (predict_loop (fitted df zone) (Z.to_nat horizon)
                     {| current_row := row; current_ts := timestamp (obs row) |}) |},
         (obs row).
  cbn [fr_zone_id fr_horizon_hours predictions].
  split; [reflexivity|]. split; [exact Hlatest|].
  split; [reflexivity|]. split; [reflexivity|].
  split; [rewrite length_predict_loop; lia|].
  intros k p Hk.
  assert (k < Z.to_nat horizon)%nat as Hlt
    by (apply lookup_lt_Some in Hk; now rewrite length_predict_loop in Hk).
  rewrite (predict_loop_lookup _ _ _ _ Hlt), loop_body_prediction in Hk.
  apply (inj Some) in Hk. subst p. cbn [predicted_availability p_timestamp]. split.
  - apply round_unit_interval; apply clip_unit_interval.
  - rewrite state_after_ts. cbn [current_ts]. f_equal. lia.
Qed.

(** C5: in every iteration of the forecast loop the raw model output is
    clamped to [0,1]: the value fed back is the raw output itself when that
    lies in [0,1], 0 when it is negative and 1 when it exceeds 1.  The
    clamped value is what is emitted, rounded to a nearest multiple of
    0.0001, and what the next iteration reads as its one-step lag, and the
    rolling average becomes exactly (previous * 2 + clamped) / 3. *)
Theorem recursive_feedback (model : Model) (st0 : LoopState) (n k : nat) :
  (k < n)%nat ->
  let st := state_after model k st0 in
  let st' := state_after model (S k) st0 in
  let raw := regressor_predict model (model_input st) in
  exists yhat : Q,
    ((0 <= raw -> raw <= 1 -> yhat = raw)
     /\ (raw < 0 -> yhat = 0)
     /\ (1 < raw -> yhat = 1)
     /\ 0 <= yhat /\ yhat <= 1)%Q
    /\ snd (predict_loop model n st0) !! k
       = Some {| p_timestamp := isoformat (current_ts st + 3600);
                 predicted_availability := Py.round yhat 4 |}
    /\ nearest_multiple 10000 yhat (Py.round yhat 4)
    /\ availability_lag_1 (current_row st') = yhat
    /\ availability_roll_3 (current_row st')
       = ((availability_roll_3 (current_row st) * 2 + yhat) / 3)%Q
    /\ model_input st' !! 6%nat = Some yhat
    /\ model_input st' !! 7%nat
       = Some ((availability_roll_3 (current_row st) * 2 + yhat) / 3)%Q.
Proof.
  intros Hk st st' raw. exists (Py.clip raw 0 1).
  assert (st' = fst (loop_body model st)) as Est by apply state_after_S.
  split.
  { split; [apply clip_inside|]. split; [apply clip_below|].
    split; [apply clip_above | apply clip_unit_interval]. }
  split; [now rewrite (predict_loop_lookup model n k st0 Hk)|].
  split; [apply (round_nearest _ 3)|].
  rewrite Est, loop_body_state. repeat split; reflexivity.
Qed.

(** C10: feature construction drops exactly the first observation of a zone
    (the feature rows are the ordered observations without the first), so
    there is one feature row less than observations; [train] fits a zone
    if and only if it has at least 31 observations; and the trailing
    average of the [k]-th feature row is the mean of the window ending at
    observation [k], which for the second and third observation holds one
    and two samples. *)
Theorem build_features_drops_first (df : DataFrame) (models : gmap string Model)
    (zone : string) (k : nat) (r : FeatureRow) (a0 a1 : Q) (rest : list Q) :
  let ordered := sort_values_timestamp df in
  let av := map availability ordered in
  map obs (_build_features df) = drop 1 ordered
  /\ length (_build_features df) = (length df - 1)%nat
  /\ train models df !! zone
     = (if decide (31 <= length (zone_rows zone df))%nat
        then Some (fitted df zone) else models !! zone)
  /\ (is_Some (train ∅ df !! zone) <-> (31 <= length (zone_rows zone df))%nat)
  /\ (_build_features df !! k = Some r ->
      exists o a, ordered !! S k = Some o /\ av !! k = Some a
                  /\ r = feature_row o a (mean (window_at 3 k av)))
  /\ (av = a0 :: a1 :: rest ->
      window_at 3 0 av = [a0] /\ window_at 3 1 av = [a0; a1]
      /\ (mean [a0] == a0)%Q /\ (mean [a0; a1] == (a0 + a1) / 2)%Q).
Proof.
  intros ordered av.
  split; [apply build_features_obs|]. split; [apply length_build_features|].
  split.
  { rewrite train_lookup.
    destruct (decide (viable df zone)) as [Hv|Hn];
      [rewrite decide_True | rewrite decide_False];
      try reflexivity; now rewrite <- viable_iff. }
  split.
  { rewrite train_lookup, <- viable_iff.
    destruct (decide (viable df zone)) as [Hv|Hn].
    - split; [auto | eauto].
    - rewrite lookup_empty. split; [intros [? ?]; discriminate | tauto]. }
  split; [apply build_features_lookup|].
  intros ->. split; [reflexivity|]. split; [reflexivity|].
  unfold mean, Metrics.Qsum. cbn [foldr length].
  change (inject_Z (Z.of_nat 1)) with 1%Q. change (inject_Z (Z.of_nat 2)) with 2%Q.
  split; field.
Qed.

Lemma predict_untrained (models : gmap string Model) (df : DataFrame)
    (zone : string) (horizon : Z) :
  models !! zone = None ->
  predict models df zone horizon
  = inl (Py.ValueError ("No model trained for " +:+ zone)).
Proof. intros E. unfold predict. now rewrite E. Qed.

End ForecastTheorems.

Section ForecastWitnesses.
Import Frame ForecastAgent Demo.

Lemma train_then_predict_witness :
  (30 <= length (_build_features (zone_rows "zone_01" df40)))%nat
  /\ 0 <= 3
  /\ exists result,
       predict (train ∅ df40) df40 "zone_01" 3 = inr result
       /\ Z.of_nat (length (predictions result)) = 3.
Proof.
  assert (30 <= length (_build_features (zone_rows "zone_01" df40)))%nat as Hv
    by (vm_compute; lia).
  assert (0 <= 3) as Hh by lia.
  split; [exact Hv|]. split; [exact Hh|].
  destruct (train_then_predict ∅ df40 "zone_01" 3 Hv Hh)
    as (result & latest & E & _ & _ & _ & Hn & _).
  exists result. split; [exact E | exact Hn].
Defined.

Lemma recursive_feedback_witness :
  (1 < 3)%nat
  /\ availability_lag_1 (current_row (state_after (fitted df40 "zone_01") 2 demo_state))
     = regressor_predict (fitted df40 "zone_01")
         (model_input (state_after (fitted df40 "zone_01") 1 demo_state))
  /\ model_input (state_after (fitted df40 "zone_01") 2 demo_state) !! 6%nat
     = Some (regressor_predict (fitted df40 "zone_01")
               (model_input (state_after (fitted df40 "zone_01") 1 demo_state))).
Proof.
  assert (1 < 3)%nat as Hk by lia.
  split; [exact Hk|].
  destruct (recursive_feedback (fitted df40 "zone_01") demo_state 3 1 Hk)
    as (yhat & (Hinside & _) & _ & _ & Hlag & _ & Hin & _).
  rewrite Hlag, Hin, Hinside; [split; reflexivity | |]; vm_compute; discriminate.
Defined.

Lemma build_features_drops_first_witness :
  _build_features df40 !! 0%nat
    = Some (feature_row (observation "zone_01" 1) (70 # 100) (mean [70 # 100]))
  /\ map availability (sort_values_timestamp df40)
     = (70 # 100) :: (71 # 100) :: map availability (drop 2 (sort_values_timestamp df40))
  /\ window_at 3 1 (map availability (sort_values_timestamp df40))
     = [70 # 100; 71 # 100]
  /\ exists o a, sort_values_timestamp df40 !! 1%nat = Some o
                 /\ map availability (sort_values_timestamp df40) !! 0%nat = Some a
                 /\ feature_row (observation "zone_01" 1) (70 # 100) (mean [70 # 100])
                    = feature_row o a
                        (mean (window_at 3 0 (map availability (sort_values_timestamp df40)))).
Proof.
  assert (_build_features df40 !! 0%nat
          = Some (feature_row (observation "zone_01" 1) (70 # 100) (mean [70 # 100])))
    as E by (vm_compute; reflexivity).
  assert (map availability (sort_values_timestamp df40)
          = (70 # 100) :: (71 # 100)
            :: map availability (drop 2 (sort_values_timestamp df40)))
    as Eav by (vm_compute; reflexivity).
  destruct (build_features_drops_first df40 ∅ "zone_01" 0
              (feature_row (observation "zone_01" 1) (70 # 100) (mean [70 # 100]))
              (70 # 100) (71 # 100)
              (map availability (drop 2 (sort_values_timestamp df40))))
    as (_ & _ & _ & _ & Hrow & Hwin).
  split; [exact E|]. split; [exact Eav|].
  split; [exact (proj1 (proj2 (Hwin Eav))) | exact (Hrow E)].
Defined.
End ForecastWitnesses.

Section SortedLookup.
Context {A : Type} (R : A -> A -> Prop).

Lemma StronglySorted_lookup_le (l : list A) (i j : nat) (a b : A) :
  (forall x, R x x) ->
  StronglySorted R l -> (i <= j)%nat ->
  l !! i = Some a -> l !! j = Some b -> R a b.
Proof.
  intros Hrefl Hs. revert i j.
  induction Hs as [|x l Hs IH Hall]; intros i j Hij Hi Hj; [discriminate|].
  destruct i as [|i], j as [|j]; cbn in Hi, Hj.
  - injection Hi as <-. injection Hj as <-. apply Hrefl.
  - injection Hi as <-. rewrite Forall_forall in Hall. apply Hall.
    eapply list_elem_of_lookup_2. exact Hj.
  - lia.
  - apply (IH i j); [lia | exact Hi | exact Hj].
Qed.
End SortedLookup.

Section AnomalyTheorems.
Import Frame Events AnomalyAgent.
Context `{OutlierModel} `{Isoformat}.

Lemma zip_with_maps {B C D} (h : Observation -> B * C -> D)
    (f : list Q -> B) (g : list Q -> C) (l : DataFrame) :
  zip_with h l (zip (map f (map metrics_of l)) (map g (map metrics_of l)))
  = map (fun r => h r (f (metrics_of r), g (metrics_of r))) l.
Proof. induction l as [|r l IH]; cbn; [reflexivity|]. f_equal. exact IH. Qed.

Lemma score_window_classify (contamination : Q) (zone_df : DataFrame) :
  score_window contamination zone_df
  = map (classify (fitted_forest contamination zone_df)) zone_df.
Proof. unfold score_window. apply zip_with_maps. Qed.

Lemma flagged_events (forest : Forest) (l : DataFrame) :
  map to_event (filter (fun sr => is_anomaly sr = true) (map (classify forest) l))
  = map (event_of forest)
      (filter (fun r => forest_predict forest (metrics_of r) = -1) l).
Proof.
  induction l as [|r l IH]; [reflexivity|].
  cbn [map]. rewrite (filter_cons _ r l), (filter_cons _ (classify forest r)).
  cbn [is_anomaly classify].
  destruct (Z.eqb_spec (forest_predict forest (metrics_of r)) (-1)) as [E|NE].
  - rewrite !decide_True by first [reflexivity | exact E]. cbn [map]. now rewrite IH.
  - rewrite !decide_False by first [discriminate | exact NE]. exact IH.
Qed.

Lemma descending_total (u v : Event) : descending u v = true \/ descending v u = true.
Proof.
  unfold descending. rewrite !Qle_bool_iff.
  destruct (Qlt_le_dec (score_key u) (score_key v)) as [Hlt|Hle]; [right | left]; lra.
Qed.

Lemma detect_events (contamination : Q) (df : DataFrame) (zone : string) (lookback : Z)
    (result : AnomalyResult) :
  detect contamination df zone lookback = inr result ->
  let zone_df := window df zone lookback in
  let forest := fitted_forest contamination zone_df in
  (20 <= length zone_df)%nat
  /\ ar_zone_id result = zone
  /\ events result
     = sort_by descending
         (map (event_of forest)
            (filter (fun r => forest_predict forest (metrics_of r) = -1) zone_df)).
Proof.
  intros E zone_df forest. unfold detect in E. fold zone_df in E.
  destruct (Nat.ltb_spec (length zone_df) 20) as [Hlt|Hge]; [discriminate|].
  injection E as <-. cbn [ar_zone_id events].
  rewrite score_window_classify, flagged_events. auto.
Qed.

(** C4: the events [detect] returns are ordered by descending score, every
    one of them is the event of a window row the fitted forest labelled
    -1, and the events are, up to order, exactly the events of the flagged
    rows: a row that is not flagged produces none. *)
Theorem detect_ranked_flagged (contamination : Q) (df : DataFrame) (zone : string)
    (lookback : Z) (result : AnomalyResult) :
  detect contamination df zone lookback = inr result ->
  let zone_df := window df zone lookback in
  let forest := fitted_forest contamination zone_df in
  let flagged := fun r => forest_predict forest (metrics_of r) = -1 in
  (forall i j e1 e2,
      (i <= j)%nat -> events result !! i = Some e1 -> events result !! j = Some e2 ->
      (score_key e2 <= score_key e1)%Q)
  /\ (forall e, e ∈ events result ->
                exists r, r ∈ zone_df /\ flagged r /\ e = event_of forest r
                          /\ score e
                             = Some (Py.round (- forest_score_samples forest (metrics_of r)) 4))
  /\ Permutation (events result) (map (event_of forest) (filter flagged zone_df))
  /\ length (events result) = length (filter flagged zone_df).
Proof.
  intros E zone_df forest flagged.
  destruct (detect_events _ _ _ _ _ E) as (_ & _ & Hev).
  fold zone_df forest in Hev. fold flagged in Hev.
  assert (Permutation (events result) (map (event_of forest) (filter flagged zone_df)))
    as Hperm by (rewrite Hev; apply sort_by_perm).
  split; [|split; [|split]].
  - intros i j e1 e2 Hij H1 H2.
    assert (StronglySorted (in_order descending) (events result)) as Hs.
    { rewrite Hev. apply Sorted_StronglySorted.
      - intros a b c. unfold in_order, descending. rewrite !Qle_bool_iff. lra.
      - apply sort_by_sorted, descending_total. }
    pose proof (StronglySorted_lookup_le (in_order descending) (events result)
                  i j e1 e2) as Hle.
    unfold in_order, descending in Hle. rewrite Qle_bool_iff in Hle.
    apply Hle; auto. intros x. apply Qle_bool_iff. lra.
  - intros e He. rewrite Hperm in He.
    apply list_elem_of_fmap in He as (r & -> & Hr).
    apply list_elem_of_filter in Hr as [Hf Hr].
    exists r. repeat split; auto.
  - exact Hperm.
  - rewrite (Permutation_length Hperm). apply length_map.
Qed.

Lemma detect_insufficient (contamination : Q) (df : DataFrame) (zone : string)
    (lookback : Z) :
  (length (window df zone lookback) < 20)%nat ->
  detect contamination df zone lookback
  = inl (Py.ValueError ("Insufficient records for anomaly detection in " +:+ zone)).
Proof.
  intros Hlt. unfold detect.
  destruct (Nat.ltb_spec (length (window df zone lookback)) 20); [reflexivity | lia].
Qed.

End AnomalyTheorems.

Section AnomalyWitness.
Import Frame Events AnomalyAgent Demo.

Lemma detect_ranked_flagged_witness :
  exists result,
    detect (7 # 100) df40 "zone_01" 30 = inr result
    /\ length (events result)
       = length (filter (fun r => forest_predict
                                    (fitted_forest (7 # 100) (window df40 "zone_01" 30))
                                    (metrics_of r) = -1)
                   (window df40 "zone_01" 30)).
Proof.
  destruct (detect (7 # 100) df40 "zone_01" 30) as [e|result] eqn:E;
    [vm_compute in E; discriminate|].
  exists result. split; [reflexivity|].
  exact (proj2 (proj2 (proj2 (detect_ranked_flagged _ _ _ _ result E)))).
Defined.
End AnomalyWitness.

Section StringFacts.
Lemma length_append (s1 s2 : string) :
  String.length (s1 +:+ s2) = (String.length s1 + String.length s2)%nat.
Proof. induction s1 as [|c s1 IH]; simpl; [reflexivity | f_equal; exact IH]. Qed.
End StringFacts.

Section MemoryFacts.
Import Events ReasoningAgent.

Lemma recall_remember (a : Agent) (key text : string) (meta : list (string * Json)) :
  recall (remember a key text meta) key = Some text.
Proof.
  unfold recall, remember. destruct (collection a) as [c|]; cbn.
  - unfold upsert. now rewrite lookup_insert_eq.
  - now rewrite lookup_insert_eq.
Qed.

Lemma recall_remember_other (a : Agent) (key key' text : string)
    (meta : list (string * Json)) :
  key <> key' ->
  recall (remember a key text meta) key' = recall a key'.
Proof.
  intros Hne. unfold recall, remember. destruct (collection a) as [c|]; cbn.
  - unfold upsert. now rewrite lookup_insert_ne.
  - now rewrite lookup_insert_ne.
Qed.

Lemma fb_id_fresh (event_id : string) (rating : Z) : fb_id event_id rating <> event_id.
Proof.
  intros E. apply (f_equal String.length) in E.
  unfold fb_id in E. rewrite !length_append in E. cbn in E. lia.
Qed.

(** C9: [ingest_feedback] files its entry under the composite key
    "feedback:<event_id>:<rating>", which differs from [event_id]; what the
    memory holds under [event_id], and under any other key, is unchanged. *)
Theorem feedback_keeps_explanation (a : Agent) (event_id correction : string) (rating : Z) :
  let a' := ingest_feedback a event_id correction rating in
  fb_id event_id rating <> event_id
  /\ recall a' event_id = recall a event_id
  /\ (collection a = None ->
      _memory_store a' = <[fb_id event_id rating :=
                             "feedback for " +:+ event_id +:+ ": rating=" +:+ pretty rating
                             +:+ "; correction=" +:+ correction]> (_memory_store a)
      /\ _memory_store a' !! event_id = _memory_store a !! event_id)
  /\ recall a' (fb_id event_id rating)
     = Some ("feedback for " +:+ event_id +:+ ": rating=" +:+ pretty rating
             +:+ "; correction=" +:+ correction)
  /\ forall key, key <> fb_id event_id rating -> recall a' key = recall a key.
Proof.
  intros a'. pose proof (fb_id_fresh event_id rating) as Hfresh.
  split; [exact Hfresh|].
  split; [now apply recall_remember_other|].
  split.
  { intros Hc. subst a'. unfold ingest_feedback, remember. rewrite Hc.
    cbn [_memory_store]. split; [reflexivity|]. now rewrite lookup_insert_ne. }
  split; [apply recall_remember|].
  intros key Hkey. apply recall_remember_other. congruence.
Qed.

End MemoryFacts.

Section MemoryWitness.
Import Events ReasoningAgent Demo.

Lemma feedback_keeps_explanation_witness :
  collection fresh_agent = None
  /\ "zone_01:test_event" <> fb_id "zone_01:test_event" 4
  /\ _memory_store (ingest_feedback fresh_agent "zone_01:test_event" "Reasoning largely correct." 4)
       !! "zone_01:test_event"
     = _memory_store fresh_agent !! "zone_01:test_event"
  /\ recall (ingest_feedback fresh_agent "zone_01:test_event" "Reasoning largely correct." 4)
       "zone_01:test_event"
     = recall fresh_agent "zone_01:test_event".
Proof.
  assert (collection fresh_agent = None) as Hc by reflexivity.
  assert ("zone_01:test_event" <> fb_id "zone_01:test_event" 4) as Hkey
    by (vm_compute; discriminate).
  destruct (feedback_keeps_explanation fresh_agent "zone_01:test_event"
              "Reasoning largely correct." 4) as (_ & _ & Hstore & _ & Hframe).
  split; [exact Hc|]. split; [exact Hkey|].
  split; [exact (proj2 (Hstore Hc)) | exact (Hframe _ Hkey)].
Defined.
End MemoryWitness.

Section UntypedFacts.
Import Events ReasoningAgent Views.
Context `{JsonText} `{PyText} `{ExplanationService} `{VectorStore}.

Lemma lookup_item_present_ne {A} (key k : string) (f : A -> Json) (v : option A)
    (rest : list (string * Json)) :
  k <> key ->
  Untyped.lookup_item key (present k f v ++ rest) = Untyped.lookup_item key rest.
Proof.
  intros Hne. destruct v as [x|]; [|reflexivity].
  cbn. apply String.eqb_neq in Hne. now rewrite Hne.
Qed.

Lemma lookup_item_present_eq {A} (key : string) (f : A -> Json) (v : option A)
    (rest : list (string * Json)) :
  Untyped.lookup_item key (present key f v ++ rest)
  = match v with
    | Some x => Some (f x)
    | None => Untyped.lookup_item key rest
    end.
Proof.
  destruct v as [x|]; [|reflexivity]. cbn. now rewrite String.eqb_refl.
Qed.

(** On an event of the types [detect] gives, the method on dictionaries is
    the typed [reason]. *)
Lemma untyped_reason_typed (a : Agent) (e : Event) (items : list (string * Json)) :
  event_to_json e = JDict items -> Untyped.reason a items = reason a e.
Proof.
  unfold event_to_json. intros E. injection E as <-.
  assert (Untyped.event_key
            (present "event_id" JStr (event_id e) ++ present "timestamp" JStr (e_timestamp e)
             ++ present "zone_id" JStr (e_zone_id e) ++ present "score" JFloat (score e)
             ++ present "snapshot" snapshot_to_json (snapshot e))
          = default "unknown-event" (event_id e)) as Hkey.
  { unfold Untyped.event_key. rewrite lookup_item_present_eq.
    destruct (event_id e) as [s|]; [reflexivity|].
    rewrite <- (app_nil_r (present "snapshot" _ _)).
    rewrite !lookup_item_present_ne by discriminate. reflexivity. }
  assert (Untyped.fallback
            (present "event_id" JStr (event_id e) ++ present "timestamp" JStr (e_timestamp e)
             ++ present "zone_id" JStr (e_zone_id e) ++ present "score" JFloat (score e)
             ++ present "snapshot" snapshot_to_json (snapshot e))
          = Py.ret (JsonDump.dumps (fallback_document e))) as Hfb.
  { unfold Untyped.fallback. rewrite <- (app_nil_r (present "snapshot" _ _)).
    rewrite !lookup_item_present_ne by discriminate.
    rewrite lookup_item_present_eq.
    unfold fallback_document, pressure_of.
    destruct (snapshot e) as [s|]; [|reflexivity].
    unfold snapshot_to_json.
    cbn [default from_option Datatypes.id Untyped.get Py.bind Py.ret].
    destruct (s_demand s), (s_drivers s), (s_inventory s), (s_availability s),
      (s_weather s); reflexivity. }
  unfold Untyped.reason, reason. rewrite Hkey, Hfb. reflexivity.
Qed.

End UntypedFacts.

Section ReasoningTheorems.
Import Events ReasoningAgent Views.
Context `{JsonText} `{PyText} `{ExplanationService} `{VectorStore}.

Lemma untyped_reason_with_answer (a : Agent) (event : list (string * Json)) (t : string) :
  let eid := Untyped.event_key event in
  let request := Untyped._build_prompt event (_query_context a eid 3) in
  _call_ollama a request = inr t ->
  Untyped.reason a event
  = inr ({| r_event_id := eid; prompt := request; explanation := t |},
         remember a eid (Views.memory_text eid t) [("event_id", JStr eid)]).
Proof. intros eid request E. unfold Untyped.reason. fold eid request. now rewrite E. Qed.

Lemma untyped_reason_with_failure (a : Agent) (event : list (string * Json))
    (failure : Py.exn) :
  let eid := Untyped.event_key event in
  let request := Untyped._build_prompt event (_query_context a eid 3) in
  _call_ollama a request = inl failure ->
  Untyped.reason a event
  = match Untyped.fallback event with
    | inl e => inl e
    | inr text =>
        inr ({| r_event_id := eid; prompt := request; explanation := text |},
             remember a eid (Views.memory_text eid text) [("event_id", JStr eid)])
    end.
Proof.
  intros eid request E. unfold Untyped.reason. fold eid request. rewrite E.
  cbn [Py.try_except]. destruct (Untyped.fallback event); reflexivity.
Qed.

Lemma fallback_with_numbers (event snapshot : list (string * Json))
    (demand drivers inventory : Q) :
  default (JDict []) (Untyped.lookup_item "snapshot" event) = JDict snapshot ->
  Untyped.py_float (default (JFloat 0) (Untyped.lookup_item "demand" snapshot))
    = inr demand ->
  Untyped.py_float (default (JFloat 1) (Untyped.lookup_item "drivers" snapshot))
    = inr drivers ->
  Untyped.py_float (default (JFloat 1) (Untyped.lookup_item "inventory" snapshot))
    = inr inventory ->
  Untyped.fallback event
  = inr (JsonDump.dumps
           (Untyped.document (demand / Qmax drivers 1) inventory
              (Untyped.py_str
                 (default (JStr "clear") (Untyped.lookup_item "weather" snapshot))))).
Proof.
  intros Hs Hd Hv Hi. unfold Untyped.fallback. rewrite Hs.
  cbn [Untyped.get Py.bind Py.ret]. rewrite Hd. cbn [Py.bind]. rewrite Hv.
  cbn [Py.bind]. rewrite Hi. reflexivity.
Qed.

Lemma float_of_number (items : list (string * Json)) (key : string) (dflt q : Q) :
  number_at items key dflt q ->
  Untyped.py_float (default (JFloat dflt) (Untyped.lookup_item key items)) = inr q.
Proof.
  unfold number_at. destruct (Untyped.lookup_item key items) as [[]|];
    intros Hq; try contradiction; subst q; reflexivity.
Qed.

Lemma str_of_text (items : list (string * Json)) (key dflt s : string) :
  text_at items key dflt s ->
  Untyped.py_str (default (JStr dflt) (Untyped.lookup_item key items)) = s.
Proof.
  unfold text_at. destruct (Untyped.lookup_item key items) as [[]|];
    intros Hs; try contradiction; subst s; reflexivity.
Qed.


End ReasoningTheorems.

Section ReasoningWitness.
Import Events ReasoningAgent Views Demo DemoExtra.



End ReasoningWitness.

(** Open a run: the monadic plumbing and the stage wrappers, down to the
    agents' own methods. *)
Ltac unfold_stage :=
  unfold Runner.run_forecast, Runner.run_anomaly, Runner.mbind, Runner.perf_counter,
    Runner.forecaster_train, Runner.forecaster_predict, Runner.anomaly_detect,
    Runner.traces_append, Runner.mret, Runner.journal, Runner.forecast_outcome.

Ltac unfold_run :=
  unfold Runner.run, Runner.gather, Runner.reason_and_act, Runner.mbind,
    Runner.traces_new, Runner.utcnow, Runner.traces_read, Runner.mret;
  unfold_stage; cbn.

Section RunnerTheorems.
Import Frame Events Runner.
Context `{Regressor} `{OutlierModel} `{Isoformat} `{JsonText}
        `{ExplanationService} `{VectorStore} `{Clock}.

Lemma run_forecast_calls (s : State) (df : DataFrame) (zone : string) (horizon : Z) :
  calls (snd (run_forecast df zone horizon s))
  = calls s ++ [TrainCall; PredictCall zone horizon]
  /\ reasoner (snd (run_forecast df zone horizon s)) = reasoner s
  /\ contamination (snd (run_forecast df zone horizon s)) = contamination s.
Proof.
  unfold_stage. cbn.
  destruct (ForecastAgent.predict _ df zone horizon); cbn;
    rewrite <- app_assoc; auto.
Qed.

Lemma run_forecast_result (s : State) (df : DataFrame) (zone : string) (horizon : Z) :
  fst (run_forecast df zone horizon s)
  = match forecast_outcome s df zone horizon with
    | inl e => inl e
    | inr fr => inr {| f_zone_id := ForecastAgent.fr_zone_id fr;
                       f_horizon_hours := ForecastAgent.fr_horizon_hours fr;
                       f_predictions := ForecastAgent.predictions fr |}
    end.
Proof.
  unfold_stage. cbn.
  destruct (ForecastAgent.predict _ df zone horizon); reflexivity.
Qed.

Lemma run_anomaly_calls (s : State) (df : DataFrame) (zone : string) (lookback : Z) :
  calls (snd (run_anomaly df zone lookback s)) = calls s ++ [DetectCall zone lookback]
  /\ reasoner (snd (run_anomaly df zone lookback s)) = reasoner s.
Proof.
  unfold_stage. cbn. destruct (AnomalyAgent.detect _ df zone lookback); cbn; auto.
Qed.

Lemma run_anomaly_result (s : State) (df : DataFrame) (zone : string) (lookback : Z) :
  fst (run_anomaly df zone lookback s)
  = match AnomalyAgent.detect (contamination s) df zone lookback with
    | inl e => inl e
    | inr ar => inr {| an_zone_id := AnomalyAgent.ar_zone_id ar;
                       an_events := AnomalyAgent.events ar |}
    end.
Proof.
  unfold_stage. cbn. destruct (AnomalyAgent.detect _ df zone lookback); reflexivity.
Qed.

(** C3: in a run whose anomaly stage returns no event, the reasoning and
    action agents are never called (the run issues only the train, predict
    and detect calls and leaves the reasoner's memory as it was); the run
    returns whenever the forecast stage does, and then its reason and
    action traces are "skipped" with latency 0 and its reasoning and
    actions outputs are null. *)
Theorem run_skips_without_events (s : State) (df : DataFrame) (zone : string)
    (horizon lookback : Z) (found : AnomalyAgent.AnomalyResult) :
  AnomalyAgent.detect (contamination s) df zone lookback = inr found ->
  AnomalyAgent.events found = [] ->
  let outcome := run df zone horizon lookback s in
  calls (snd outcome)
    = calls s ++ [TrainCall; PredictCall zone horizon; DetectCall zone lookback]
  /\ reasoner (snd outcome) = reasoner s
  /\ (forall fr, forecast_outcome s df zone horizon = inr fr ->
                 exists out, fst outcome = inr out)
  /\ (forall out,
        fst outcome = inr out ->
        reasoning out = None /\ actions out = None
        /\ an_events (anomalies out) = []
        /\ (exists forecast_step anomaly_step,
               traces out = [forecast_step; anomaly_step;
                             {| step := "reason"; status := "skipped"; latency_ms := 0;
                                details := [("reason", JStr "No anomaly events")] |};
                             {| step := "action"; status := "skipped"; latency_ms := 0;
                                details := [("reason", JStr "No anomaly events")] |}]
               /\ step forecast_step = "forecast" /\ step anomaly_step = "anomaly")).
Proof.
  intros Hdet Hnone outcome. subst outcome.
  unfold_run.
  destruct (ForecastAgent.predict _ df zone horizon) as [e|fr]; cbn; rewrite Hdet; cbn.
  - rewrite <- !app_assoc. split; [reflexivity|]. split; [reflexivity|].
    split; [intros fr' Hfr; discriminate | intros out Hout; discriminate].
  - rewrite Hnone. cbn. rewrite <- !app_assoc.
    split; [reflexivity|]. split; [reflexivity|].
    split; [intros fr' _; eauto|].
    intros out Hout. apply (inj inr) in Hout. subst out.
    cbn [reasoning actions anomalies an_events traces].
    split; [reflexivity|]. split; [reflexivity|]. split; [reflexivity|].
    eexists _, _. split; [reflexivity|]. split; reflexivity.
Qed.

(** C2: [detect] on a window of fewer than 20 rows (the zone's last
    [lookback] observations) raises "Insufficient records ...", and
    [predict] for a zone without a trained model raises "No model trained
    ..."; the orchestrator hands both failures on to its caller. *)
Theorem failures_reach_the_caller (c : Q) (df : DataFrame) (zone : string) (lookback : Z)
    (models : gmap string Model) (df' : DataFrame) (zone' : string) (horizon : Z) :
  (length (AnomalyAgent.window df zone lookback) < 20)%nat ->
  models !! zone' = None ->
  AnomalyAgent.detect c df zone lookback
  = inl (Py.ValueError ("Insufficient records for anomaly detection in " +:+ zone))
  /\ ForecastAgent.predict models df' zone' horizon
     = inl (Py.ValueError ("No model trained for " +:+ zone'))
  /\ (forall s h, Py.raises (fst (run df zone h lookback s)))
  /\ (forall s h fr,
        forecast_outcome s df zone h = inr fr ->
        fst (run df zone h lookback s)
        = inl (Py.ValueError ("Insufficient records for anomaly detection in " +:+ zone)))
  /\ (forall s l,
        ForecastAgent.train (forecaster s) df' = models ->
        fst (run df' zone' horizon l s)
        = inl (Py.ValueError ("No model trained for " +:+ zone'))).
Proof.
  intros Hshort Huntrained.
  pose proof (fun c => detect_insufficient c df zone lookback Hshort) as Hdet.
  pose proof (predict_untrained models df' zone' horizon Huntrained) as Hpred.
  split; [apply Hdet|]. split; [exact Hpred|].
  assert (forall s h,
             fst (run df zone h lookback s)
             = match forecast_outcome s df zone h with
               | inl e => inl e
               | inr _ => inl (Py.ValueError
                                 ("Insufficient records for anomaly detection in "
                                  +:+ zone))
               end) as Hrun.
  { intros s h.
    unfold_run.
    destruct (ForecastAgent.predict _ df zone h) as [e|fr]; cbn; rewrite Hdet;
      reflexivity. }
  split; [|split].
  - intros s h. rewrite Hrun. unfold Py.raises.
    destruct (forecast_outcome s df zone h); eauto.
  - intros s h fr Hfr. now rewrite Hrun, Hfr.
  - intros s l Htrain.
    unfold_run. rewrite Htrain, Hpred. cbn.
    destruct (AnomalyAgent.detect _ df' zone' l); reflexivity.
Qed.

End RunnerTheorems.

Section RunnerWitnesses.
Import Frame Events Runner Demo.

Lemma run_skips_without_events_witness :
  AnomalyAgent.detect (contamination fresh_state) df_calm "zone_02" 24
    = inr {| AnomalyAgent.ar_zone_id := "zone_02"; AnomalyAgent.events := [] |}
  /\ calls (snd (run df_calm "zone_02" 2 24 fresh_state))
     = calls fresh_state
       ++ [TrainCall; PredictCall "zone_02" 2; DetectCall "zone_02" 24]
  /\ exists out,
       fst (run df_calm "zone_02" 2 24 fresh_state) = inr out
       /\ reasoning out = None /\ actions out = None.
Proof.
  assert (AnomalyAgent.detect (contamination fresh_state) df_calm "zone_02" 24
          = inr {| AnomalyAgent.ar_zone_id := "zone_02"; AnomalyAgent.events := [] |})
    as Hdet by (vm_compute; reflexivity).
  destruct (run_skips_without_events fresh_state df_calm "zone_02" 2 24 _
              Hdet eq_refl) as (Hcalls & _ & Hreturns & Hskipped).
  split; [exact Hdet|]. split; [exact Hcalls|].
  destruct (forecast_outcome fresh_state df_calm "zone_02" 2) as [e|fr] eqn:Hfr;
    [vm_compute in Hfr; discriminate|].
  destruct (Hreturns fr eq_refl) as (out & Hout).
  exists out. split; [exact Hout|].
  destruct (Hskipped out Hout) as (Hr & Ha & _).
  split; [exact Hr | exact Ha].
Defined.

Lemma failures_reach_the_caller_witness :
  (length (AnomalyAgent.window df_calm "zone_02" 10) < 20)%nat
  /\ ForecastAgent.train (forecaster fresh_state) df_calm !! "zone_09" = None
  /\ AnomalyAgent.detect (7 # 100) df_calm "zone_02" 10
     = inl (Py.ValueError "Insufficient records for anomaly detection in zone_02")
  /\ ForecastAgent.predict (ForecastAgent.train (forecaster fresh_state) df_calm)
       df_calm "zone_09" 3
     = inl (Py.ValueError "No model trained for zone_09")
  /\ fst (run df_calm "zone_02" 3 10 fresh_state)
     = inl (Py.ValueError "Insufficient records for anomaly detection in zone_02")
  /\ fst (run df_calm "zone_09" 3 24 fresh_state)
     = inl (Py.ValueError "No model trained for zone_09").
Proof.
  assert (length (AnomalyAgent.window df_calm "zone_02" 10) < 20)%nat as Hshort
    by (vm_compute; lia).
  assert (ForecastAgent.train (forecaster fresh_state) df_calm !! "zone_09" = None)
    as Hnone by (vm_compute; reflexivity).
  split; [exact Hshort|]. split; [exact Hnone|].
  destruct (failures_reach_the_caller (7 # 100) df_calm "zone_02" 10
              (ForecastAgent.train (forecaster fresh_state) df_calm)
              df_calm "zone_09" 3 Hshort Hnone) as (Hd & Hp & _ & Hrun & Hrun').
  split; [exact Hd|]. split; [exact Hp|]. split.
  - destruct (forecast_outcome fresh_state df_calm "zone_02" 3) as [e|fr] eqn:Hfr;
      [vm_compute in Hfr; discriminate|].
    exact (Hrun fresh_state 3 fr Hfr).
  - exact (Hrun' fresh_state 24 eq_refl).
Defined.
End RunnerWitnesses.

(** * Further properties of the code *)

(** A name is not among finitely many other names. *)
Ltac not_listed H :=
  repeat (apply elem_of_cons in H as [H|H]; [discriminate H|]);
  apply elem_of_nil in H; exact H.

Section ActionPlanFacts.
Import Events ActionAgent Views.

(** X1: ActionAgent.plan always ends its action list with the two
    medium-priority actions 'Enable surge controls' and 'Monitor zone
    stability', preceded by at most two actions that all have priority 'high',
    so a plan holds between 2 and 4 actions; the plan's event id is the event's,
    or 'unknown-event' when it has none, and the explanation is passed on
    unchanged as reasoning_reference. *)
Theorem plan_ends_with_standing_actions (event : Event) (explanation : string) :
  exists urgent,
    recommended_actions (plan event explanation)
    = urgent
      ++ [{| action := "Enable surge controls";
             detail := "Temporarily throttle low-priority orders and adjust promised ETA windows.";
             priority := "medium" |};
          {| action := "Monitor zone stability";
             detail := "Track availability every 15 minutes for the next 2 hours.";
             priority := "medium" |}]
    /\ Forall (fun a => priority a = "high") urgent
    /\ (length urgent <= 2)%nat
    /\ (2 <= length (recommended_actions (plan event explanation)) <= 4)%nat
    /\ a_event_id (plan event explanation) = default "unknown-event" (event_id event)
    /\ reasoning_reference (plan event explanation) = explanation.
Proof.
  unfold plan. cbn [recommended_actions a_event_id reasoning_reference].
  destruct (Qlt_le_dec _ _), (Qlt_le_dec _ _); cbn [app].
  - eexists [_; _]. cbn. repeat split; auto; repeat constructor.
  - eexists [_]. cbn. repeat split; auto; repeat constructor.
  - eexists [_]. cbn. repeat split; auto; repeat constructor.
  - exists []. cbn. repeat split; auto; repeat constructor.
Qed.


End ActionPlanFacts.

Section OrderFacts.
Import Frame Views.

Lemma NoDup_fmap_eq {A B} (f : A -> B) (l : list A) (x y : A) :
  NoDup (map f l) -> x ∈ l -> y ∈ l -> f x = f y -> x = y.
Proof.
  induction l as [|a l IH]; intros Hnd Hx Hy E; [inversion Hx|].
  cbn in Hnd. apply NoDup_cons in Hnd as [Ha Hnd].
  apply elem_of_cons in Hx as [->|Hx]; apply elem_of_cons in Hy as [->|Hy]; auto.
  - exfalso. apply Ha. rewrite E. apply list_elem_of_fmap. eauto.
  - exfalso. apply Ha. rewrite <- E. apply list_elem_of_fmap. eauto.
Qed.

Lemma by_timestamp_total (u v : Observation) :
  by_timestamp u v = true \/ by_timestamp v u = true.
Proof.
  unfold by_timestamp. destruct (Z.leb_spec (timestamp u) (timestamp v)); [now left|].
  right. apply Z.leb_le. lia.
Qed.

Lemma sorted_by_timestamp (df : DataFrame) :
  StronglySorted (in_order by_timestamp) (sort_values_timestamp df).
Proof.
  apply Sorted.Sorted_StronglySorted.
  - intros a b c. unfold in_order, by_timestamp. rewrite !Z.leb_le. lia.
  - apply sort_by_sorted, by_timestamp_total.
Qed.

Lemma sort_values_timestamp_perm (df : DataFrame) : sort_values_timestamp df ≡ₚ df.
Proof. apply sort_by_perm. Qed.

Lemma sort_values_timestamp_unique (df1 df2 : DataFrame) :
  df1 ≡ₚ df2 -> NoDup (map timestamp df1) ->
  sort_values_timestamp df1 = sort_values_timestamp df2.
Proof.
  intros Hp Hnd.
  apply (StronglySorted_unique_strong (in_order by_timestamp));
    try apply sorted_by_timestamp.
  - intros x1 x2 H1 H2 H12 H21.
    rewrite sort_values_timestamp_perm in H1.
    rewrite sort_values_timestamp_perm, <- Hp in H2.
    apply (NoDup_fmap_eq timestamp df1); auto.
    unfold in_order, by_timestamp in *. rewrite Z.leb_le in *. lia.
  - now rewrite !sort_values_timestamp_perm.
Qed.

End OrderFacts.

Section MeanFacts.
Import Frame Views.
Local Open Scope Q_scope.

Lemma Qsum_unit (xs : list Q) :
  Forall unit_interval xs ->
  0 <= Metrics.Qsum xs /\ Metrics.Qsum xs <= inject_Z (Z.of_nat (length xs)).
Proof.
  induction 1 as [|x xs [Hx0 Hx1] _ [IH0 IH1]]; cbn [Metrics.Qsum foldr length].
  - split; apply Qle_refl.
  - fold (Metrics.Qsum xs). rewrite Nat2Z.inj_succ, <- Z.add_1_r, inject_Z_plus.
    change (inject_Z 1) with 1. split; lra.
Qed.

Lemma mean_unit (xs : list Q) :
  xs <> [] -> Forall unit_interval xs -> unit_interval (mean xs).
Proof.
  intros Hne Hall. destruct (Qsum_unit xs Hall) as [H0 H1].
  assert (0 < inject_Z (Z.of_nat (length xs))) as Hpos.
  { change 0 with (inject_Z 0). rewrite <- Zlt_Qlt.
    destruct xs; [congruence | cbn; lia]. }
  unfold mean. split.
  - apply Qle_shift_div_l; [exact Hpos|]. lra.
  - apply Qle_shift_div_r; [exact Hpos|]. lra.
Qed.

Lemma window_at_nonempty {A} (w k : nat) (xs : list A) :
  (0 < w)%nat -> (k < length xs)%nat -> window_at w k xs <> [].
Proof.
  intros Hw Hk E. apply (f_equal length) in E.
  unfold window_at in E. rewrite length_drop, length_take in E.
  change (length (@nil A)) with 0%nat in E. lia.
Qed.

Lemma window_at_subset {A} (w k : nat) (xs : list A) (x : A) :
  x ∈ window_at w k xs -> x ∈ xs.
Proof.
  unfold window_at. intros Hin.
  apply list_elem_of_lookup in Hin as [i Hi].
  rewrite lookup_drop in Hi. apply lookup_take_Some in Hi as [Hi _].
  eapply list_elem_of_lookup_2; eauto.
Qed.

Lemma window_at_take {A} (w k : nat) (xs : list A) :
  window_at w k xs = window_at w k (take (S k) xs).
Proof. unfold window_at. now rewrite take_idemp. Qed.

End MeanFacts.

Section ForecastEdgeFacts.
Import Frame ForecastAgent Views.
Context `{Regressor} `{Isoformat}.

Lemma predict_with_model (models : gmap string Model) (df : DataFrame) (zone : string)
    (horizon : Z) (m : Model) :
  models !! zone = Some m ->
  predict models df zone horizon
  = match last (_build_features (sort_values_timestamp (zone_rows zone df))) with
    | None => inl (Py.ValueError ("Insufficient feature history for " +:+ zone))
    | Some row =>
        inr {| fr_zone_id := zone;
               fr_horizon_hours := horizon;
               predictions :=
                 snd (predict_loop m (Z.to_nat horizon)
                        {| current_row := row; current_ts := timestamp (obs row) |}) |}
    end.
Proof. intros E. unfold predict. now rewrite E. Qed.

Lemma length_zone_features (zone : string) (df : DataFrame) :
  length (_build_features (sort_values_timestamp (zone_rows zone df)))
  = (length (zone_rows zone df) - 1)%nat.
Proof.
  rewrite length_build_features. unfold sort_values_timestamp.
  now rewrite length_sort_by.
Qed.

(** X3: For a zone that has a trained model, predict raises ValueError
    'Insufficient feature history for <zone>' when the given table holds fewer
    than 2 rows of the zone; with 2 rows or more it returns a result for that
    zone with max(horizon, 0) predictions, none at all for a horizon of 0 or
    less. *)
Theorem predict_needs_history (models : gmap string Model) (df : DataFrame)
    (zone : string) (horizon : Z) (m : Model) :
  models !! zone = Some m ->
  ((length (zone_rows zone df) < 2)%nat ->
   predict models df zone horizon
   = inl (Py.ValueError ("Insufficient feature history for " +:+ zone)))
  /\ ((2 <= length (zone_rows zone df))%nat ->
      exists result,
        predict models df zone horizon = inr result
        /\ fr_zone_id result = zone
        /\ length (predictions result) = Z.to_nat horizon
        /\ (horizon <= 0 -> predictions result = [])).
Proof.
  intros Hm. rewrite (predict_with_model _ _ _ _ _ Hm).
  pose proof (length_zone_features zone df) as Hlen.
  destruct (last _) as [row|] eqn:Hlast.
  - split.
    + intros Hshort.
      destruct (_build_features (sort_values_timestamp (zone_rows zone df)));
        [discriminate | cbn in Hlen; lia].
    + intros _. eexists. split; [reflexivity|]. cbn [fr_zone_id predictions].
      split; [reflexivity|]. split; [apply length_predict_loop|].
      intros Hh. replace (Z.to_nat horizon) with 0%nat by lia. reflexivity.
  - apply last_None in Hlast. rewrite Hlast in Hlen. cbn in Hlen.
    split; [reflexivity | intros Hlong; lia].
Qed.

(** X4: When a zone's timestamps are distinct, the order of the rows in the
    input table does not matter: two tables that are permutations of each other
    give the same feature rows for the zone, the same trained model and the same
    outcome of predict. *)
Theorem forecast_ignores_row_order (models : gmap string Model) (df1 df2 : DataFrame)
    (zone : string) (horizon : Z) :
  df1 ≡ₚ df2 ->
  NoDup (map timestamp (zone_rows zone df1)) ->
  _build_features (zone_rows zone df1) = _build_features (zone_rows zone df2)
  /\ train models df1 !! zone = train models df2 !! zone
  /\ predict models df1 zone horizon = predict models df2 zone horizon.
Proof.
  intros Hp Hnd.
  assert (zone_rows zone df1 ≡ₚ zone_rows zone df2) as Hz
    by (unfold zone_rows; now rewrite Hp).
  assert (sort_values_timestamp (zone_rows zone df1)
          = sort_values_timestamp (zone_rows zone df2)) as Hs
    by now apply sort_values_timestamp_unique.
  assert (_build_features (zone_rows zone df1) = _build_features (zone_rows zone df2))
    as Hf by (unfold _build_features; now rewrite Hs).
  split; [exact Hf|]. split.
  - rewrite !train_lookup.
    assert (fitted df1 zone = fitted df2 zone) as Hfit
      by (unfold fitted; now rewrite Hf).
    assert (viable df1 zone <-> viable df2 zone) as Hv
      by (unfold viable; now rewrite Hf).
    destruct (decide (viable df1 zone)), (decide (viable df2 zone));
      try tauto; congruence.
  - unfold predict. now rewrite Hs.
Qed.

(** X5: Training twice on the same table leaves the same models as training
    once. A zone with fewer than 31 rows keeps whatever model it had before (or
    none), and the model of a zone with at least 31 rows does not depend on the
    models held before. *)
Theorem train_is_idempotent (models : gmap string Model) (df : DataFrame) :
  train (train models df) df = train models df
  /\ (forall zone, (length (zone_rows zone df) < 31)%nat ->
                   train models df !! zone = models !! zone)
  /\ (forall models' zone, (31 <= length (zone_rows zone df))%nat ->
                           train models df !! zone = train models' df !! zone).
Proof.
  split; [|split].
  - apply map_eq. intros zone. rewrite !train_lookup.
    destruct (decide (viable df zone)); reflexivity.
  - intros zone Hshort. rewrite train_lookup, decide_False; [reflexivity|].
    rewrite viable_iff. lia.
  - intros models' zone Hlong. rewrite !train_lookup.
    rewrite !decide_True by (rewrite viable_iff; lia). reflexivity.
Qed.

End ForecastEdgeFacts.

Section FeatureBounds.
Import Frame ForecastAgent Views.

Lemma availabilities_unit (df : DataFrame) :
  Forall (fun o => unit_interval (availability o)) df ->
  Forall unit_interval (map availability (sort_values_timestamp df)).
Proof.
  intros Hall. apply Forall_forall. intros a Ha.
  apply list_elem_of_fmap in Ha as (o & -> & Ho).
  rewrite sort_values_timestamp_perm in Ho.
  rewrite Forall_forall in Hall. now apply Hall.
Qed.

Lemma encode_weather_range (w : string) : _encode_weather w ∈ [0%Q; 1%Q; 2%Q; 3%Q].
Proof.
  unfold _encode_weather.
  repeat (destruct (String.eqb w _); [now repeat constructor|]).
  now repeat constructor.
Qed.

Lemma feature_row_of_member (df : DataFrame) (r : FeatureRow) :
  r ∈ _build_features df ->
  exists k o a,
    sort_values_timestamp df !! S k = Some o
    /\ map availability (sort_values_timestamp df) !! k = Some a
    /\ r = feature_row o a (mean (window_at 3 k (map availability (sort_values_timestamp df)))).
Proof.
  intros Hin. apply list_elem_of_lookup in Hin as [k Hk].
  destruct (build_features_lookup df k r Hk) as (o & a & Ho & Ha & Hr).
  exists k, o, a. auto.
Qed.

Lemma features_unit (df : DataFrame) (r : FeatureRow) :
  Forall (fun o => unit_interval (availability o)) df ->
  r ∈ _build_features df ->
  unit_interval (availability_lag_1 r) /\ unit_interval (availability_roll_3 r).
Proof.
  intros Hall Hin.
  pose proof (availabilities_unit df Hall) as Hav.
  destruct (feature_row_of_member df r Hin) as (k & o & a & Ho & Ha & ->).
  cbn [feature_row availability_lag_1 availability_roll_3]. split.
  - rewrite Forall_forall in Hav. apply Hav. eapply list_elem_of_lookup_2; eauto.
  - apply mean_unit.
    + apply window_at_nonempty; [lia|]. eapply lookup_lt_Some; eauto.
    + apply Forall_forall. intros x Hx. apply window_at_subset in Hx.
      rewrite Forall_forall in Hav. now apply Hav.
Qed.

(** X6: If every availability of the table lies in [0, 1], every feature row has
    availability_lag_1 and availability_roll_3 in [0, 1], an hour in 0..23, a
    dayofweek in 0..6, a weather_idx among 0, 1, 2, 3, and belongs to a row of
    the table. *)
Theorem engineered_features_bounded (df : DataFrame) (r : FeatureRow) :
  Forall (fun o => unit_interval (availability o)) df ->
  r ∈ _build_features df ->
  unit_interval (availability_lag_1 r)
  /\ unit_interval (availability_roll_3 r)
  /\ (exists h, hour r = inject_Z h /\ 0 <= h <= 23)
  /\ (exists d, dayofweek r = inject_Z d /\ 0 <= d <= 6)
  /\ weather_idx r ∈ [0%Q; 1%Q; 2%Q; 3%Q]
  /\ obs r ∈ df.
Proof.
  intros Hall Hin. destruct (features_unit df r Hall Hin) as [Hlag Hroll].
  split; [exact Hlag|]. split; [exact Hroll|].
  destruct (feature_row_of_member df r Hin) as (k & o & a & Ho & Ha & ->).
  cbn [feature_row hour dayofweek weather_idx obs].
  split; [|split; [|split]].
  - eexists; split; [reflexivity|]. unfold hour_of.
    pose proof (Z.mod_pos_bound (timestamp o / 3600) 24). lia.
  - eexists; split; [reflexivity|]. unfold dayofweek_of.
    pose proof (Z.mod_pos_bound (timestamp o / 86400 + 3) 7). lia.
  - apply encode_weather_range.
  - rewrite <- (sort_values_timestamp_perm df). eapply list_elem_of_lookup_2; eauto.
Qed.

(** X8: The lag and rolling features of the k-th feature row depend only on the
    first k+1 availabilities in time order: two tables that agree on those give
    the same availability_lag_1 and availability_roll_3 at index k, whatever
    comes later. *)
Theorem features_have_no_lookahead (df1 df2 : DataFrame) (k : nat) (r1 r2 : FeatureRow) :
  take (S k) (map availability (sort_values_timestamp df1))
  = take (S k) (map availability (sort_values_timestamp df2)) ->
  _build_features df1 !! k = Some r1 ->
  _build_features df2 !! k = Some r2 ->
  availability_lag_1 r1 = availability_lag_1 r2
  /\ availability_roll_3 r1 = availability_roll_3 r2.
Proof.
  intros Htake H1 H2.
  destruct (build_features_lookup df1 k r1 H1) as (o1 & a1 & _ & Ha1 & ->).
  destruct (build_features_lookup df2 k r2 H2) as (o2 & a2 & _ & Ha2 & ->).
  cbn [feature_row availability_lag_1 availability_roll_3]. split.
  - rewrite <- (lookup_take_lt _ (S k) k) in Ha1 by lia.
    rewrite <- (lookup_take_lt _ (S k) k) in Ha2 by lia.
    rewrite Htake in Ha1. congruence.
  - rewrite (window_at_take 3 k (map availability (sort_values_timestamp df1))).
    rewrite (window_at_take 3 k (map availability (sort_values_timestamp df2))).
    now rewrite Htake.
Qed.

End FeatureBounds.

Section LoopInvariant.
Import Frame ForecastAgent Views.
Context `{Regressor} `{Isoformat}.
Local Open Scope Q_scope.

Lemma blend_unit (r y : Q) :
  unit_interval r -> unit_interval y -> unit_interval ((r * 2 + y) / 3).
Proof.
  unfold unit_interval. intros [Hr0 Hr1] [Hy0 Hy1]. split.
  - apply Qle_shift_div_l; [reflexivity | lra].
  - apply Qle_shift_div_r; [reflexivity | lra].
Qed.

Lemma state_after_frozen (model : Model) (k : nat) (st : LoopState) :
  obs (current_row (state_after model k st)) = obs (current_row st)
  /\ weather_idx (current_row (state_after model k st)) = weather_idx (current_row st).
Proof.
  induction k as [|k [IHo IHw]]; [split; reflexivity|].
  rewrite state_after_S, loop_body_state. cbn. auto.
Qed.

Lemma state_after_unit (model : Model) (k : nat) (st : LoopState) :
  unit_interval (availability_lag_1 (current_row st)) ->
  unit_interval (availability_roll_3 (current_row st)) ->
  unit_interval (availability_lag_1 (current_row (state_after model k st)))
  /\ unit_interval (availability_roll_3 (current_row (state_after model k st))).
Proof.
  intros Hlag Hroll. induction k as [|k [IHl IHr]]; [split; assumption|].
  rewrite state_after_S, loop_body_state.
  cbn [current_row with_feedback with_clock availability_lag_1 availability_roll_3].
  split; [apply clip_unit_interval|].
  apply blend_unit; [exact IHr | apply clip_unit_interval].
Qed.

(** X7: If every availability of the table lies in [0, 1], then after any number
    k of iterations of the forecast loop the lag and rolling features fed to the
    model are still in [0, 1], demand, drivers, inventory and weather_idx are
    frozen at the starting row's values, the loop's clock stands k hours after
    that row, and the hour and dayofweek inputs are in 0..23 and 0..6. *)
Theorem recursion_stays_bounded (model : Model) (df : DataFrame) (row : FeatureRow)
    (k : nat) :
  Forall (fun o => unit_interval (availability o)) df ->
  row ∈ _build_features df ->
  let st := state_after model k
              {| current_row := row; current_ts := timestamp (obs row) |} in
  unit_interval (availability_lag_1 (current_row st))
  /\ unit_interval (availability_roll_3 (current_row st))
  /\ obs (current_row st) = obs row
  /\ weather_idx (current_row st) = weather_idx row
  /\ current_ts st = (timestamp (obs row) + 3600 * Z.of_nat k)%Z
  /\ exists h d,
       model_input st
       = [inject_Z h; inject_Z d; demand (obs row); drivers (obs row);
          inventory (obs row); weather_idx row;
          availability_lag_1 (current_row st); availability_roll_3 (current_row st)]
       /\ (0 <= h <= 23)%Z /\ (0 <= d <= 6)%Z.
Proof.
  intros Hall Hin st.
  destruct (features_unit df row Hall Hin) as [Hlag Hroll].
  destruct (state_after_unit model k
              {| current_row := row; current_ts := timestamp (obs row) |} Hlag Hroll)
    as [Hl Hr].
  destruct (state_after_frozen model k
              {| current_row := row; current_ts := timestamp (obs row) |})
    as [Ho Hw].
  fold st in Hl, Hr, Ho, Hw. cbn [current_row] in Ho, Hw.
  split; [exact Hl|]. split; [exact Hr|]. split; [exact Ho|]. split; [exact Hw|].
  split; [apply state_after_ts|].
  exists (hour_of (current_ts st + 3600)), (dayofweek_of (current_ts st + 3600)).
  split.
  - unfold model_input, feature_vector, with_clock.
    cbn [hour dayofweek obs weather_idx availability_lag_1 availability_roll_3].
    rewrite Ho, Hw. reflexivity.
  - unfold hour_of, dayofweek_of.
    pose proof (Z.mod_pos_bound ((current_ts st + 3600) / 3600) 24).
    pose proof (Z.mod_pos_bound ((current_ts st + 3600) / 86400 + 3) 7). lia.
Qed.

End LoopInvariant.

Section StableSort.
Import Frame Views.
Context {A : Type} (leb : A -> A -> bool) (P : A -> Prop) `{!forall x, Decision (P x)}.
Hypothesis class_in_order : forall x y, P x -> P y -> leb x y = true.

Lemma filter_insert_by (x : A) (l : list A) :
  filter P (insert_by leb x l) = filter P (x :: l).
Proof.
  induction l as [|y l IH]; [reflexivity|].
  cbn [insert_by]. destruct (leb x y) eqn:E; [reflexivity|].
  rewrite filter_cons, IH, !filter_cons.
  destruct (decide (P x)) as [Hx|Hx], (decide (P y)) as [Hy|Hy]; try reflexivity.
  rewrite (class_in_order x y Hx Hy) in E. discriminate.
Qed.

Lemma filter_sort_by (l : list A) : filter P (sort_by leb l) = filter P l.
Proof.
  induction l as [|x l IH]; [reflexivity|].
  cbn [sort_by foldr]. fold (sort_by leb l).
  rewrite filter_insert_by, !filter_cons, IH. reflexivity.
Qed.

End StableSort.

Section WindowFacts.
Import Frame Views.

Lemma length_tail {A} (n : Z) (l : list A) :
  length (tail n l)
  = if n <? 0 then (length l - Z.to_nat (- n))%nat
    else Nat.min (Z.to_nat n) (length l).
Proof.
  unfold tail. destruct (n <? 0); rewrite length_drop; lia.
Qed.

Lemma tail_subset {A} (n : Z) (l : list A) (x : A) : x ∈ tail n l -> x ∈ l.
Proof.
  unfold tail. destruct (n <? 0); intros Hin;
    apply list_elem_of_lookup in Hin as [i Hi]; rewrite lookup_drop in Hi;
    eapply list_elem_of_lookup_2; eauto.
Qed.

End WindowFacts.

Section AnomalyExtras.
Import Frame Events AnomalyAgent Views.
Context `{OutlierModel} `{Isoformat}.

Lemma window_rows (df : DataFrame) (zone : string) (lookback : Z) (r : Observation) :
  r ∈ window df zone lookback -> r ∈ df /\ zone_id r = zone.
Proof.
  unfold window. intros Hin. apply tail_subset in Hin.
  rewrite sort_values_timestamp_perm in Hin.
  unfold zone_rows in Hin. apply list_elem_of_filter in Hin as [Hz Hin]. auto.
Qed.

Lemma length_window (df : DataFrame) (zone : string) (lookback : Z) :
  length (window df zone lookback)
  = if lookback <? 0
    then (length (zone_rows zone df) - Z.to_nat (- lookback))%nat
    else Nat.min (Z.to_nat lookback) (length (zone_rows zone df)).
Proof.
  unfold window. rewrite length_tail. unfold sort_values_timestamp.
  now rewrite length_sort_by.
Qed.

(** X9: The detection window holds min(lookback, rows) of the zone's rows (rows
    - |lookback| for a negative lookback); detect returns exactly when the
    window holds at least 20 rows, so every lookback from 0 to 19 raises
    whatever the data. *)
Theorem detect_needs_twenty_rows (contamination : Q) (df : DataFrame) (zone : string)
    (lookback : Z) :
  let rows := length (zone_rows zone df) in
  length (window df zone lookback)
  = (if lookback <? 0 then (rows - Z.to_nat (- lookback))%nat
     else Nat.min (Z.to_nat lookback) rows)
  /\ ((exists result, detect contamination df zone lookback = inr result)
      <-> (20 <= length (window df zone lookback))%nat)
  /\ (0 <= lookback < 20 -> Py.raises (detect contamination df zone lookback)).
Proof.
  intros rows. split; [apply length_window|].
  assert ((exists result, detect contamination df zone lookback = inr result)
          <-> (20 <= length (window df zone lookback))%nat) as Hiff.
  { unfold detect.
    destruct (Nat.ltb_spec (length (window df zone lookback)) 20) as [Hlt|Hge].
    - split; [intros [? ?]; discriminate | lia].
    - split; [auto | eauto]. }
  split; [exact Hiff|].
  intros Hlb. unfold Py.raises.
  destruct (detect contamination df zone lookback) as [e|result] eqn:E; [eauto|].
  exfalso. assert (20 <= length (window df zone lookback))%nat as Hge
    by (apply Hiff; eauto).
  rewrite length_window in Hge. destruct (Z.ltb_spec lookback 0); lia.
Qed.

(** X10: When detect returns, the result carries the requested zone and at most
    as many events as the window has rows, and every event describes one row of
    the input for that zone: its id is '<zone>:<timestamp>', it carries the
    row's timestamp and zone and a snapshot of the row's demand, drivers,
    inventory, availability and weather. *)
Theorem detect_events_describe_rows (contamination : Q) (df : DataFrame) (zone : string)
    (lookback : Z) (result : AnomalyResult) :
  detect contamination df zone lookback = inr result ->
  ar_zone_id result = zone
  /\ (length (events result) <= length (window df zone lookback))%nat
  /\ forall e, e ∈ events result ->
       exists r, r ∈ df /\ zone_id r = zone
         /\ event_id e = Some (zone +:+ ":" +:+ isoformat (timestamp r))
         /\ e_timestamp e = Some (isoformat (timestamp r))
         /\ e_zone_id e = Some zone
         /\ snapshot e
            = Some {| s_demand := Some (demand r); s_drivers := Some (drivers r);
                      s_inventory := Some (inventory r);
                      s_availability := Some (availability r);
                      s_weather := Some (weather r) |}.
Proof.
  intros E. destruct (detect_events _ _ _ _ _ E) as (_ & Hz & Hev).
  set (zone_df := window df zone lookback) in *.
  set (forest := fitted_forest contamination zone_df) in *.
  assert (events result
          ≡ₚ map (event_of forest)
               (filter (fun r => forest_predict forest (metrics_of r) = -1) zone_df))
    as Hperm by (rewrite Hev; apply sort_by_perm).
  split; [exact Hz|]. split.
  - rewrite Hperm, length_map. apply length_filter.
  - intros e He. rewrite Hperm in He.
    apply list_elem_of_fmap in He as (r & -> & Hr).
    apply list_elem_of_filter in Hr as [_ Hr].
    destruct (window_rows df zone lookback r Hr) as [Hdf Hzone].
    exists r. unfold event_of, to_event, classify. cbn. rewrite Hzone. auto 10.
Qed.

(** X11: The descending sort of the events is stable: the events that share a
    (rounded) score appear in the result in the time order of their rows in the
    window. *)
Theorem detect_keeps_ties_in_time_order (contamination : Q) (df : DataFrame)
    (zone : string) (lookback : Z) (result : AnomalyResult) (q : Q) :
  detect contamination df zone lookback = inr result ->
  let zone_df := window df zone lookback in
  let forest := fitted_forest contamination zone_df in
  filter (fun e => score_key e == q)%Q (events result)
  = filter (fun e => score_key e == q)%Q
      (map (event_of forest)
         (filter (fun r => forest_predict forest (metrics_of r) = -1) zone_df)).
Proof.
  intros E zone_df forest.
  destruct (detect_events _ _ _ _ _ E) as (_ & _ & Hev).
  fold zone_df forest in Hev. rewrite Hev.
  apply filter_sort_by. intros x y Hx Hy.
  unfold descending. apply Qle_bool_iff. rewrite Hx, Hy. apply Qle_refl.
Qed.

End AnomalyExtras.

Section FeedbackKeys.
Import Events ReasoningAgent Views.

Lemma fb_id_rating_inj (event_id : string) (r1 r2 : Z) :
  fb_id event_id r1 = fb_id event_id r2 -> r1 = r2.
Proof.
  unfold fb_id. intros E.
  apply (inj (String.app _)) in E. apply (inj (String.app _)) in E.
  apply (inj (String.app _)) in E. now apply (inj pretty) in E.
Qed.

(** X13: Feedback is stored under 'feedback:<event_id>:<rating>': two feedbacks
    on one event with different ratings are both kept, with the same rating the
    later one replaces the earlier, and the entry under the event id itself is
    never touched. *)
Theorem feedback_entries_by_rating (a : Agent) (event_id c1 c2 : string) (r1 r2 : Z) :
  let a1 := ingest_feedback a event_id c1 r1 in
  let a2 := ingest_feedback a1 event_id c2 r2 in
  recall a2 (fb_id event_id r2) = Some (feedback_text event_id c2 r2)
  /\ (r1 <> r2 -> recall a2 (fb_id event_id r1) = Some (feedback_text event_id c1 r1))
  /\ (r1 = r2 -> recall a2 (fb_id event_id r1) = Some (feedback_text event_id c2 r2))
  /\ recall a2 event_id = recall a event_id.
Proof.
  intros a1 a2. subst a1 a2. unfold ingest_feedback.
  split; [apply recall_remember|]. split; [|split].
  - intros Hne. rewrite recall_remember_other.
    + apply recall_remember.
    + intros E. apply Hne. symmetry. now apply (fb_id_rating_inj event_id).
  - intros ->. apply recall_remember.
  - rewrite !recall_remember_other by apply fb_id_fresh. reflexivity.
Qed.

End FeedbackKeys.

Section ReasoningExtras.
Import Events ReasoningAgent Views.
Context `{JsonText} `{PyText} `{ExplanationService} `{VectorStore}.

Lemma reason_returns (a : Agent) (event : Event) :
  exists text,
    reason a event
    = inr ({| r_event_id := event_key event;
              prompt := _build_prompt event (_query_context a (event_key event) 3);
              explanation := text |},
           remember a (event_key event) (memory_text (event_key event) text)
             [("event_id", JStr (event_key event))])
    /\ (forall t, _call_ollama a (_build_prompt event (_query_context a (event_key event) 3))
                  = inr t -> text = t)
    /\ (Py.raises (_call_ollama a (_build_prompt event
                                     (_query_context a (event_key event) 3)))
        -> text = JsonDump.dumps (fallback_document event)).
Proof.
  unfold reason. fold (event_key event).
  destruct (_call_ollama a _) as [e|t] eqn:E; cbn [Py.try_except Py.bind Py.ret].
  - eexists. split; [reflexivity|]. split; [intros t Ht; discriminate | reflexivity].
  - exists t. split; [reflexivity|]. split.
    + intros t' Ht. congruence.
    + intros [e He]. discriminate.
Qed.


(** X14: Without a vector collection, once reason has returned the in-process
    store holds the explanation text under the event id, _query_context for that
    event returns exactly that text, and a second reason on the same event
    builds its prompt from it and adds no key to the store. *)
Theorem reason_remembers_for_next_time (a : Agent) (event : Event)
    (payload : Payload) (a' : Agent) :
  collection a = None ->
  reason a event = inr (payload, a') ->
  _memory_store a'
  = <[event_key event := memory_text (event_key event) (explanation payload)]>
      (_memory_store a)
  /\ _query_context a' (event_key event) 3
     = [memory_text (event_key event) (explanation payload)]
  /\ exists payload2 a2,
       reason a' event = inr (payload2, a2)
       /\ prompt payload2
          = _build_prompt event [memory_text (event_key event) (explanation payload)]
       /\ dom (_memory_store a2) = dom (_memory_store a').
Proof.
  intros Hc E. destruct (reason_returns a event) as (text & E' & _).
  rewrite E in E'. apply (inj inr) in E'. injection E' as -> ->.
  cbn [explanation]. unfold remember. rewrite Hc. cbn [_memory_store].
  split; [reflexivity|].
  assert (_query_context
            {| model := model a;
               _memory_store := <[event_key event := memory_text (event_key event) text]>
                                  (_memory_store a);
               collection := None |} (event_key event) 3
          = [memory_text (event_key event) text]) as Hctx.
  { unfold _query_context. cbn [collection _memory_store].
    now rewrite lookup_insert_eq. }
  split; [exact Hctx|].
  destruct (reason_returns
              {| model := model a;
                 _memory_store := <[event_key event := memory_text (event_key event) text]>
                                    (_memory_store a);
                 collection := None |} event) as (text2 & E2 & _).
  eexists _, _. split; [exact E2|]. cbn [prompt]. rewrite Hctx.
  split; [reflexivity|].
  unfold remember. cbn [collection _memory_store].
  rewrite insert_insert_eq, !dom_insert_L. reflexivity.
Qed.

(** X15: Without a vector collection, ingesting feedback for an event changes
    neither the context recalled for that event nor the prompt reason builds for
    it: the feedback sits under a key _query_context never reads. *)
Theorem feedback_never_reaches_prompt (a : Agent) (event : Event)
    (correction : string) (rating : Z) :
  collection a = None ->
  let a' := ingest_feedback a (event_key event) correction rating in
  _query_context a' (event_key event) 3 = _query_context a (event_key event) 3
  /\ forall payload payload' b b',
       reason a event = inr (payload, b) ->
       reason a' event = inr (payload', b') ->
       prompt payload' = prompt payload.
Proof.
  intros Hc a'.
  assert (_query_context a' (event_key event) 3 = _query_context a (event_key event) 3)
    as Hctx.
  { subst a'. unfold _query_context, ingest_feedback, remember. rewrite Hc.
    cbn [collection _memory_store].
    rewrite lookup_insert_ne by apply fb_id_fresh. reflexivity. }
  split; [exact Hctx|].
  intros payload payload' b b' E E'.
  destruct (reason_returns a event) as (text & Er & _).
  destruct (reason_returns a' event) as (text' & Er' & _).
  rewrite E in Er. rewrite E' in Er'.
  apply (inj inr) in Er, Er'. injection Er as -> _. injection Er' as -> _.
  cbn [prompt]. now rewrite Hctx.
Qed.

End ReasoningExtras.

Section TopEvent.
Import Frame Events AnomalyAgent Views.
Context `{OutlierModel} `{Isoformat}.

Lemma detect_sorted (contamination : Q) (df : DataFrame) (zone : string) (lookback : Z)
    (result : AnomalyResult) :
  detect contamination df zone lookback = inr result ->
  StronglySorted (in_order descending) (events result).
Proof.
  intros E. destruct (detect_events _ _ _ _ _ E) as (_ & _ & ->).
  apply Sorted.Sorted_StronglySorted.
  - intros a b c. unfold in_order, descending. rewrite !Qle_bool_iff. lra.
  - apply sort_by_sorted, descending_total.
Qed.

Lemma detect_top_event (contamination : Q) (df : DataFrame) (zone : string) (lookback : Z)
    (result : AnomalyResult) (top : Event) (rest : list Event) :
  detect contamination df zone lookback = inr result ->
  events result = top :: rest ->
  forall e, e ∈ events result -> (score_key e <= score_key top)%Q.
Proof.
  intros E Hev e He. pose proof (detect_sorted _ _ _ _ _ E) as Hs.
  rewrite Hev in Hs, He. apply StronglySorted_inv in Hs as [_ Hall].
  apply elem_of_cons in He as [->|He]; [apply Qle_refl|].
  rewrite Forall_forall in Hall. specialize (Hall e He).
  unfold in_order, descending in Hall. now apply Qle_bool_iff in Hall.
Qed.

End TopEvent.

(** Open the branch a run takes once it has events; the agents' own methods
    stay folded. *)
Ltac unfold_branch :=
  unfold Runner.reasoner_reason, Runner.actor_plan, Runner.journal;
  cbn -[ActionAgent.plan ReasoningAgent.reason].

Section RunnerExtras.
Import Frame Events Runner Views.
Context `{Regressor} `{OutlierModel} `{Isoformat} `{JsonText}
        `{ExplanationService} `{VectorStore} `{Clock}.

(** X16: When the forecast returns and detection returns at least one event, the
    run reasons about and plans for the first event only, which has the highest
    score: the agent calls are train, predict, detect, reason(top), plan(top,
    explanation) in this order, the output carries the reasoner's payload and
    that plan, and the four traces forecast, anomaly, reason, action all have
    status 'ok'. *)
Theorem run_reasons_about_top_event (s : State) (df : DataFrame) (zone : string)
    (horizon lookback : Z) (fr : ForecastAgent.ForecastResult)
    (found : AnomalyAgent.AnomalyResult) (top : Event) (rest : list Event) :
  forecast_outcome s df zone horizon = inr fr ->
  AnomalyAgent.detect (contamination s) df zone lookback = inr found ->
  AnomalyAgent.events found = top :: rest ->
  let outcome := run df zone horizon lookback s in
  exists out payload agent,
    fst outcome = inr out
    /\ ReasoningAgent.reason (reasoner s) top = inr (payload, agent)
    /\ reasoning out = Some payload
    /\ actions out = Some (ActionAgent.plan top (ReasoningAgent.explanation payload))
    /\ reasoner (snd outcome) = agent
    /\ calls (snd outcome)
       = calls s ++ [TrainCall; PredictCall zone horizon; DetectCall zone lookback;
                     ReasonCall top;
                     PlanCall top (ReasoningAgent.explanation payload)]
    /\ map step (traces out) = ["forecast"; "anomaly"; "reason"; "action"]
    /\ Forall (fun t => status t = "ok") (traces out)
    /\ forall e, e ∈ an_events (anomalies out) -> (score_key e <= score_key top)%Q.
Proof.
  intros Hfr Hdet Hev outcome. subst outcome.
  destruct (reason_returns (reasoner s) top) as (text & Er & _).
  pose proof (detect_top_event _ _ _ _ _ _ _ Hdet Hev) as Htop.
  unfold forecast_outcome in Hfr. unfold_run. rewrite Hfr. cbn. rewrite Hdet. cbn.
  rewrite Hev. unfold_branch. rewrite Er. unfold_branch. rewrite <- !app_assoc.
  cbn [app].
  eexists _, _, _. split; [reflexivity|]. split; [reflexivity|].
  cbn [reasoning actions traces anomalies an_events].
  split; [reflexivity|]. split; [reflexivity|]. split; [reflexivity|].
  split; [reflexivity|]. split; [reflexivity|].
  split; [repeat constructor|].
  rewrite <- Hev. exact Htop.
Qed.

(** X17: Whenever the run returns, its output carries the requested zone, the
    traces forecast, anomaly, reason, action in this order, the predictions of
    the forecast and the events of the detection; reasoning is null exactly when
    there are no events, and so is actions; the forecaster is left with the
    retrained models. *)
Theorem run_output_shape (s : State) (df : DataFrame) (zone : string)
    (horizon lookback : Z) (out : PipelineOutput) :
  fst (run df zone horizon lookback s) = inr out ->
  zone_id out = zone
  /\ map step (traces out) = ["forecast"; "anomaly"; "reason"; "action"]
  /\ (exists fr, forecast_outcome s df zone horizon = inr fr
                 /\ f_predictions (forecast out) = ForecastAgent.predictions fr
                 /\ f_zone_id (forecast out) = zone)
  /\ (exists found, AnomalyAgent.detect (contamination s) df zone lookback = inr found
                    /\ an_events (anomalies out) = AnomalyAgent.events found)
  /\ (reasoning out = None <-> an_events (anomalies out) = [])
  /\ (actions out = None <-> an_events (anomalies out) = [])
  /\ forecaster (snd (run df zone horizon lookback s))
     = ForecastAgent.train (forecaster s) df.
Proof.
  unfold forecast_outcome. unfold_run.
  destruct (ForecastAgent.predict _ df zone horizon) as [e|fr] eqn:Hfr; cbn;
    destruct (AnomalyAgent.detect _ df zone lookback) as [e'|found] eqn:Hdet; cbn;
    try discriminate.
  assert (ForecastAgent.fr_zone_id fr = zone) as Hzone.
  { unfold ForecastAgent.predict in Hfr.
    destruct (_ !! zone); [|discriminate]. destruct (last _); [|discriminate].
    apply (inj inr) in Hfr. now subst fr. }
  destruct (AnomalyAgent.events found) as [|top rest] eqn:Hev; cbn.
  - intros E. apply (inj inr) in E. subst out. cbn.
    split; [reflexivity|]. split; [reflexivity|].
    split; [eauto|]. split; [eauto|]. repeat split; auto.
  - destruct (reason_returns (reasoner s) top) as (text & Er & _).
    unfold_branch. rewrite Er. unfold_branch.
    intros E. apply (inj inr) in E. subst out. cbn -[ActionAgent.plan].
    split; [reflexivity|]. split; [reflexivity|].
    split; [eauto|]. split; [eauto|]. repeat split; auto; discriminate.
Qed.

(** X18: When the forecast stage fails, the run raises the forecast's exception
    whether or not detection fails too; detection has been called all the same,
    the reasoner is untouched and the forecaster keeps the retrained models. *)
Theorem run_reports_forecast_failure_first (s : State) (df : DataFrame) (zone : string)
    (horizon lookback : Z) (e : Py.exn) :
  forecast_outcome s df zone horizon = inl e ->
  let outcome := run df zone horizon lookback s in
  fst outcome = inl e
  /\ calls (snd outcome)
     = calls s ++ [TrainCall; PredictCall zone horizon; DetectCall zone lookback]
  /\ reasoner (snd outcome) = reasoner s
  /\ forecaster (snd outcome) = ForecastAgent.train (forecaster s) df.
Proof.
  intros Hfr outcome. subst outcome. unfold forecast_outcome in Hfr.
  unfold_run. rewrite Hfr. cbn.
  destruct (AnomalyAgent.detect _ df zone lookback); cbn;
    rewrite <- !app_assoc; auto.
Qed.

End RunnerExtras.

Section RoundingBounds.
Import Views.
Local Open Scope Q_scope.

Lemma scale_positive (ndigits : nat) : 0 < inject_Z (Z.pos (10 ^ Pos.of_nat ndigits)).
Proof. change 0 with (inject_Z 0). rewrite <- Zlt_Qlt. lia. Qed.

Lemma round_ge_Z (q : Q) (a : Z) (ndigits : nat) :
  inject_Z a <= q -> inject_Z a <= Py.round q ndigits.
Proof.
  intros Ha. unfold Py.round. destruct ndigits as [|n].
  - rewrite <- Zle_Qle. now apply round_half_even_ge.
  - set (scale := (10 ^ Pos.of_nat (S n))%positive).
    assert (a * Z.pos scale <= Py.round_half_even (q * inject_Z (Z.pos scale)))%Z as B.
    { apply round_half_even_ge. rewrite inject_Z_mult.
      apply Qmult_le_compat_r; [exact Ha|]. apply Qlt_le_weak, scale_positive. }
    unfold Qle; simpl. lia.
Qed.

Lemma round_le_Z (q : Q) (b : Z) (ndigits : nat) :
  q <= inject_Z b -> Py.round q ndigits <= inject_Z b.
Proof.
  intros Hb. unfold Py.round. destruct ndigits as [|n].
  - rewrite <- Zle_Qle. now apply round_half_even_le.
  - set (scale := (10 ^ Pos.of_nat (S n))%positive).
    assert (Py.round_half_even (q * inject_Z (Z.pos scale)) <= b * Z.pos scale)%Z as B.
    { apply round_half_even_le. rewrite inject_Z_mult.
      apply Qmult_le_compat_r; [exact Hb|]. apply Qlt_le_weak, scale_positive. }
    unfold Qle; simpl. lia.
Qed.

Lemma ratio_nonneg (a b : Z) : (0 <= a)%Z -> (0 <= b)%Z -> 0 <= inject_Z a / inject_Z b.
Proof.
  intros Ha Hb. destruct (Z.eq_dec b 0%Z) as [->|Hne].
  - unfold Qdiv. change (/ inject_Z 0%Z) with 0. rewrite Qmult_0_r. apply Qle_refl.
  - apply Qle_shift_div_l.
    + change 0 with (inject_Z 0). rewrite <- Zlt_Qlt. lia.
    + rewrite Qmult_0_l. change 0 with (inject_Z 0). rewrite <- Zle_Qle. exact Ha.
Qed.

End RoundingBounds.

Section BusinessExtras.
Import BusinessMetrics Views.
Local Open Scope Q_scope.

(** X19: For non-negative counts, estimate_impact returns both rates in [0, 1],
    an MTTR reduction in [12, 50] and non-negative ops hours saved; any
    baseline_incidents of 0 or less gives the result of baseline_incidents = 1. *)
Theorem estimate_impact_ranges (anomalies corrective acknowledged baseline : Z) :
  (0 <= anomalies)%Z -> (0 <= corrective)%Z -> (0 <= acknowledged)%Z ->
  let impact := estimate_impact anomalies corrective acknowledged baseline in
  0 <= incident_prevention_rate impact <= 1
  /\ 0 <= action_acceptance_rate impact <= 1
  /\ 12 <= estimated_mttr_reduction_minutes impact <= 50
  /\ 0 <= estimated_ops_hours_saved impact
  /\ ((baseline <= 0)%Z ->
      impact = estimate_impact anomalies corrective acknowledged 1).
Proof.
  intros Ha Hc Hk impact. subst impact. unfold estimate_impact, Py.min.
  cbn [incident_prevention_rate action_acceptance_rate
       estimated_mttr_reduction_minutes estimated_ops_hours_saved].
  set (b := if (baseline <=? 0)%Z then 1%Z else baseline).
  assert (0 <= b)%Z as Hb by (subst b; destruct (Z.leb_spec baseline 0); lia).
  set (acc := if (corrective =? 0)%Z then 0
              else Qmin 1 (inject_Z acknowledged / inject_Z corrective)).
  assert (0 <= acc /\ acc <= 1) as [Hacc0 Hacc1].
  { subst acc. destruct (corrective =? 0)%Z; [split; discriminate|]. split.
    - apply Q.min_glb; [discriminate | now apply ratio_nonneg].
    - apply Q.le_min_l. }
  split; [split|].
  - apply (round_ge_Z _ 0). apply Q.min_glb; [discriminate | now apply ratio_nonneg].
  - apply (round_le_Z _ 1), Q.le_min_l.
  - split; [split; [apply (round_ge_Z _ 0) | apply (round_le_Z _ 1)]; assumption|].
    split; [split; [apply (round_ge_Z _ 12) | apply (round_le_Z _ 50)];
            change (inject_Z 12) with 12; change (inject_Z 50) with 50; lra|].
    split.
    + apply (round_ge_Z _ 0). change (inject_Z 0) with 0.
      assert (0 <= inject_Z anomalies) by (change 0 with (inject_Z 0); now rewrite <- Zle_Qle).
      assert (0 <= inject_Z acknowledged)
        by (change 0 with (inject_Z 0); now rewrite <- Zle_Qle).
      lra.
    + intros Hle. subst b. destruct (Z.leb_spec baseline 0); [reflexivity | lia].
Qed.

End BusinessExtras.

Section MetricsExtras.
Import Metrics Views.
Local Open Scope Q_scope.

Lemma Qsum_nonneg (xs : list Q) : Forall (fun x => 0 <= x) xs -> 0 <= Qsum xs.
Proof.
  induction 1 as [|x xs Hx _ IH]; cbn [Qsum foldr]; [apply Qle_refl|].
  fold (Qsum xs). lra.
Qed.

Lemma np_mean_nonneg (xs : list Q) (m : Q) :
  Forall (fun x => 0 <= x) xs -> np_mean xs = fin m -> 0 <= m.
Proof.
  intros Hall E. destruct xs as [|x xs]; [discriminate|].
  unfold np_mean in E. injection E as <-.
  change (0 <= Qsum (x :: xs) / inject_Z (Z.of_nat (length (x :: xs)))).
  apply Qle_shift_div_l.
  - change 0 with (inject_Z 0). rewrite <- Zlt_Qlt. cbn [length]. lia.
  - rewrite Qmult_0_l. now apply Qsum_nonneg.
Qed.

Lemma broadcast_mismatch (f : Q -> Q -> Q) (xs ys : list Q) :
  length xs <> length ys -> length xs <> 1%nat -> length ys <> 1%nat ->
  broadcast f xs ys
  = inl (Py.ValueError "operands could not be broadcast together").
Proof.
  intros Hne Hx Hy. unfold broadcast. rewrite decide_False by exact Hne.
  destruct xs as [|x [|x' xs]], ys as [|y [|y' ys]]; cbn [length] in *;
    first [congruence | reflexivity].
Qed.

Lemma mape_nonneg (y_true y_pred : list Q) (m : Q) :
  mape y_true y_pred = inr (fin m) -> 0 <= m.
Proof.
  intros E. unfold mape in E.
  destruct (broadcast Qminus y_true y_pred) as [e|diff]; [discriminate|].
  cbn [Py.bind] in E. destruct (broadcast Qdiv diff _) as [e|ratio]; [discriminate|].
  cbn [Py.bind Py.ret] in E. apply (inj inr) in E.
  apply (np_mean_nonneg _ _) in E; [exact E|].
  apply Forall_forall. intros x Hx. apply list_elem_of_fmap in Hx as (y & -> & _).
  apply Qabs_nonneg.
Qed.

Lemma metrics_return (y_true y_pred : list Q) :
  length y_true = length y_pred -> y_true <> [] ->
  exists m r, mape y_true y_pred = inr (fin m) /\ rmse y_true y_pred = inr (rfin r).
Proof.
  intros Hlen Hne. unfold mape, rmse, mean_squared_error.
  rewrite !broadcast_same_length by exact Hlen. cbn [Py.bind].
  rewrite broadcast_same_length
    by (rewrite length_zip_with, length_map; lia).
  cbn [Py.bind Py.ret].
  destruct y_true as [|t ts]; [congruence|].
  destruct y_pred as [|p ps]; [discriminate|].
  cbn [zip_with map np_mean np_sqrt]. eauto.
Qed.

(** X20: Whenever mape, the mean squared error inside rmse, or rmse return a
    number, that number is not negative. *)
Theorem metrics_are_nonnegative (y_true y_pred : list Q) :
  (forall m, mape y_true y_pred = inr (fin m) -> 0 <= m)
  /\ (forall m, mean_squared_error y_true y_pred = inr (fin m) -> 0 <= m)
  /\ (forall r, rmse y_true y_pred = inr (rfin r) -> (0 <= r)%R).
Proof.
  split; [|split].
  - intros m E. now apply (mape_nonneg y_true y_pred).
  - intros m E. unfold mean_squared_error in E.
    destruct (broadcast Qminus y_true y_pred) as [e|diff]; [discriminate|].
    cbn [Py.bind Py.ret] in E. apply (inj inr) in E.
    apply (np_mean_nonneg _ _) in E; [exact E|].
    apply Forall_forall. intros x Hx. apply list_elem_of_fmap in Hx as (y & -> & _).
    nra.
  - intros r E. unfold rmse in E.
    destruct (mean_squared_error y_true y_pred) as [e|[|m]]; try discriminate.
    cbn in E. injection E as <-. apply sqrt_pos.
Qed.

(** X21: On empty series mape and rmse return nan; on series of different
    lengths, neither of length 1, both raise numpy's broadcasting ValueError; on
    non-empty series of equal length both return a number. *)
Theorem metrics_edge_cases (y_true y_pred : list Q) :
  mape [] [] = inr nan
  /\ rmse [] [] = inr rnan
  /\ (length y_true <> length y_pred ->
      length y_true <> 1%nat -> length y_pred <> 1%nat ->
      mape y_true y_pred
      = inl (Py.ValueError "operands could not be broadcast together")
      /\ rmse y_true y_pred
         = inl (Py.ValueError "operands could not be broadcast together"))
  /\ (length y_true = length y_pred -> y_true <> [] ->
      exists m r, mape y_true y_pred = inr (fin m) /\ rmse y_true y_pred = inr (rfin r)).
Proof.
  split; [reflexivity|]. split; [reflexivity|]. split.
  - intros Hne Ht Hp. unfold mape, rmse, mean_squared_error.
    rewrite (broadcast_mismatch _ _ _ Hne Ht Hp). split; reflexivity.
  - apply metrics_return.
Qed.

End MetricsExtras.

Section ReplayFacts.
Import Frame Events ReplayHarness Views.
Context `{Regressor} `{OutlierModel} `{Isoformat} `{JsonText}
        `{ExplanationService} `{VectorStore}.

Lemma action_count_range (event : Event) (explanation : string) :
  2 <= action_count event explanation <= 4.
Proof.
  unfold action_count, ActionAgent.plan. cbn [ActionAgent.recommended_actions].
  destruct (Qlt_le_dec _ _), (Qlt_le_dec _ _); cbn; lia.
Qed.

Lemma acknowledged_of_range (count : Z) :
  2 <= count <= 4 -> 1 <= acknowledged_of count <= 2 /\ acknowledged_of count <= count.
Proof.
  intros Hc. assert (count = 2 \/ count = 3 \/ count = 4) as [->|[->| ->]] by lia;
    vm_compute; repeat split; discriminate.
Qed.

Lemma review_counts (events : list Event) (agent : ReasoningAgent.Agent) (g k : Z) :
  exists g' k' agent',
    review agent events g k = (inr (g', k'), agent')
    /\ g + 2 * Z.of_nat (length events) <= g' <= g + 4 * Z.of_nat (length events)
    /\ k + Z.of_nat (length events) <= k' <= k + 2 * Z.of_nat (length events)
    /\ k' - k <= g' - g.
Proof.
  revert agent g k. induction events as [|event rest IH]; intros agent g k.
  - exists g, k, agent. cbn. split; [reflexivity | lia].
  - cbn [review]. destruct (reason_returns agent event) as (text & -> & _).
    cbn [ReasoningAgent.explanation].
    pose proof (action_count_range event text) as Hc.
    pose proof (acknowledged_of_range _ Hc) as Hk.
    destruct (IH (ReasoningAgent.remember agent (event_key event)
                    (memory_text (event_key event) text)
                    [("event_id", JStr (event_key event))])
                 (g + action_count event text)
                 (k + acknowledged_of (action_count event text)))
      as (g' & k' & agent' & E & Hg & Hk' & Hd).
    exists g', k', agent'. split; [exact E|]. cbn [length]. lia.
Qed.

(** X22: A replay on a zone with fewer than max(40, lookback // 2) rows raises
    ValueError 'Insufficient records for replay on <zone>' before any agent is
    used: the harness is left as it was. *)
Theorem replay_needs_history (h : Harness) (df : DataFrame) (zone : string)
    (horizon lookback : Z) :
  Z.of_nat (length (zone_rows zone df)) < Z.max 40 (lookback / 2) ->
  run h df zone horizon lookback
  = (inl (Py.ValueError ("Insufficient records for replay on " +:+ zone)), h).
Proof.
  intros Hshort. unfold run. unfold sort_values_timestamp. rewrite length_sort_by.
  destruct (Z.ltb_spec (Z.of_nat (length (zone_rows zone df))) (Z.max 40 (lookback / 2)));
    [reflexivity | lia].
Qed.

Lemma replay_forecast (h : Harness) (df : DataFrame) (zone : string) (horizon : Z) :
  40 <= Z.of_nat (length (zone_rows zone df)) ->
  exists forecast,
    ForecastAgent.predict (ForecastAgent.train (forecaster h) df) df zone horizon
    = inr forecast
    /\ length (ForecastAgent.predictions forecast) = Z.to_nat horizon.
Proof.
  intros Hn.
  assert (ForecastAgent.train (forecaster h) df !! zone
          = Some (ForecastAgent.fitted df zone)) as Hm.
  { rewrite train_lookup, decide_True; [reflexivity|]. apply viable_iff. lia. }
  rewrite (predict_with_model _ _ _ _ _ Hm).
  pose proof (length_zone_features zone df) as Hlen.
  destruct (last _) as [row|] eqn:Hlast.
  - eexists. split; [reflexivity|]. cbn. apply length_predict_loop.
  - apply last_None in Hlast. rewrite Hlast in Hlen. cbn in Hlen. lia.
Qed.

Lemma length_y_true (df : DataFrame) (zone : string) (horizon : Z) :
  0 <= horizon ->
  length (map availability (tail horizon (sort_values_timestamp (zone_rows zone df))))
  = Nat.min (Z.to_nat horizon) (length (zone_rows zone df)).
Proof.
  intros Hh. rewrite length_map, length_tail.
  unfold sort_values_timestamp. rewrite length_sort_by.
  destruct (Z.ltb_spec horizon 0); [lia | reflexivity].
Qed.

(** X23: Whenever a replay returns a report, the report is for the requested
    zone, anomaly_events is the number of detected events, and with r = min(5,
    events) events reviewed, generated_actions lies between 2r and 4r, the
    acknowledged count between r and 2r and never above generated_actions, and
    business_impact is estimate_impact of these counts with baseline max(1,
    lookback // 24). *)
Theorem replay_counts (h : Harness) (df : DataFrame) (zone : string)
    (horizon lookback : Z) (report : ReplayReport) :
  fst (run h df zone horizon lookback) = inr report ->
  exists found acknowledged,
    AnomalyAgent.detect (contamination h) df zone lookback = inr found
    /\ zone_id report = zone
    /\ anomaly_events report = Z.of_nat (length (AnomalyAgent.events found))
    /\ let reviewed := Z.of_nat (Nat.min 5 (length (AnomalyAgent.events found))) in
       2 * reviewed <= generated_actions report <= 4 * reviewed
       /\ reviewed <= acknowledged <= 2 * reviewed
       /\ acknowledged <= generated_actions report
       /\ business_impact report
          = BusinessMetrics.estimate_impact
              (Z.of_nat (length (AnomalyAgent.events found)))
              (generated_actions report) acknowledged (Z.max 1 (lookback / 24)).
Proof.
  unfold run.
  destruct (_ <? _); [discriminate|].
  destruct (ForecastAgent.predict _ df zone horizon) as [e|forecast]; [discriminate|].
  cbn [contamination].
  destruct (AnomalyAgent.detect _ df zone lookback) as [e|found]; [discriminate|].
  cbn [reasoner].
  destruct (review_counts (take 5 (AnomalyAgent.events found)) (reasoner h) 0 0)
    as (g & k & agent & -> & Hg & Hk & Hd).
  rewrite length_take in Hg, Hk.
  destruct (Metrics.mape _ _) as [e|m]; [discriminate|].
  cbn [Py.bind fst]. destruct (Metrics.rmse _ _) as [e|r]; [discriminate|].
  cbn [Py.bind Py.ret]. intros E. apply (inj inr) in E. subst report.
  exists found, k. cbn [zone_id anomaly_events generated_actions business_impact].
  split; [reflexivity|]. split; [reflexivity|]. split; [reflexivity|].
  cbv zeta. split; [lia|]. split; [lia|]. split; [lia | reflexivity].
Qed.

(** The run of a replay whose history and window are long enough, up to the
    two metrics. *)
Lemma replay_outcome (h : Harness) (df : DataFrame) (zone : string)
    (horizon lookback : Z) :
  Z.max 40 (lookback / 2) <= Z.of_nat (length (zone_rows zone df)) ->
  (20 <= length (AnomalyAgent.window df zone lookback))%nat ->
  exists forecast found generated acknowledged agent,
    length (ForecastAgent.predictions forecast) = Z.to_nat horizon
    /\ run h df zone horizon lookback
       = (letM m := Metrics.mape
                      (map availability
                         (tail horizon (sort_values_timestamp (zone_rows zone df))))
                      (map ForecastAgent.predicted_availability
                         (ForecastAgent.predictions forecast)) in
          letM r := Metrics.rmse
                      (map availability
                         (tail horizon (sort_values_timestamp (zone_rows zone df))))
                      (map ForecastAgent.predicted_availability
                         (ForecastAgent.predictions forecast)) in
          Py.ret {| zone_id := zone;
                    forecast_mape := np_round m 4;
                    forecast_rmse := np_round_real r 4;
                    anomaly_events := Z.of_nat (length (AnomalyAgent.events found));
                    generated_actions := generated;
                    business_impact :=
                      BusinessMetrics.estimate_impact
                        (Z.of_nat (length (AnomalyAgent.events found)))
                        generated acknowledged (Z.max 1 (lookback / 24)) |},
          {| forecaster := ForecastAgent.train (forecaster h) df;
             contamination := contamination h;
             reasoner := agent |}).
Proof.
  intros Hn Hwin. unfold run.
  unfold sort_values_timestamp at 1. rewrite length_sort_by.
  destruct (Z.ltb_spec (Z.of_nat (length (zone_rows zone df))) (Z.max 40 (lookback / 2)));
    [lia|].
  destruct (replay_forecast h df zone horizon) as (forecast & -> & Hlen); [lia|].
  cbn [contamination reasoner].
  destruct (AnomalyAgent.detect _ df zone lookback) as [e|found] eqn:Hdet.
  { exfalso. unfold AnomalyAgent.detect in Hdet.
    destruct (Nat.ltb_spec (length (AnomalyAgent.window df zone lookback)) 20);
      [lia | discriminate]. }
  destruct (review_counts (take 5 (AnomalyAgent.events found)) (reasoner h) 0 0)
    as (g & k & agent & -> & _).
  exists forecast, found, g, k, agent. split; [exact Hlen | reflexivity].
Qed.

(** X24: With enough history for the replay (at least max(40, lookback // 2)
    rows and a detection window of at least 20 rows), a horizon larger than the
    zone's number of rows makes the replay fail with numpy's broadcasting
    ValueError: there are fewer true values than predictions. *)
Theorem replay_horizon_beyond_history (h : Harness) (df : DataFrame) (zone : string)
    (horizon lookback : Z) :
  Z.max 40 (lookback / 2) <= Z.of_nat (length (zone_rows zone df)) ->
  (20 <= length (AnomalyAgent.window df zone lookback))%nat ->
  Z.of_nat (length (zone_rows zone df)) < horizon ->
  fst (run h df zone horizon lookback)
  = inl (Py.ValueError "operands could not be broadcast together").
Proof.
  intros Hn Hwin Hbeyond.
  destruct (replay_outcome h df zone horizon lookback Hn Hwin)
    as (forecast & found & g & k & agent & Hlen & ->).
  cbn [fst]. unfold Metrics.mape. rewrite broadcast_mismatch; [reflexivity| | |].
  - rewrite length_y_true, !length_map, Hlen by lia. lia.
  - rewrite length_y_true by lia. lia.
  - rewrite !length_map, Hlen. lia.
Qed.

(** X25: With enough history for the replay and 0 <= horizon <= rows, the replay
    returns a report and leaves the forecaster with the retrained models;
    forecast_mape is nan for horizon 0 and a non-negative number for a positive
    horizon. *)
Theorem replay_returns_report (h : Harness) (df : DataFrame) (zone : string)
    (horizon lookback : Z) :
  Z.max 40 (lookback / 2) <= Z.of_nat (length (zone_rows zone df)) ->
  (20 <= length (AnomalyAgent.window df zone lookback))%nat ->
  0 <= horizon <= Z.of_nat (length (zone_rows zone df)) ->
  exists report,
    fst (run h df zone horizon lookback) = inr report
    /\ forecaster (snd (run h df zone horizon lookback))
       = ForecastAgent.train (forecaster h) df
    /\ (horizon = 0 -> forecast_mape report = Metrics.nan)
    /\ (0 < horizon -> exists m, forecast_mape report = Metrics.fin m /\ (0 <= m)%Q).
Proof.
  intros Hn Hwin Hh.
  destruct (replay_outcome h df zone horizon lookback Hn Hwin)
    as (forecast & found & g & k & agent & Hlen & ->).
  cbn [fst snd forecaster].
  set (y_true := map availability _).
  set (y_pred := map ForecastAgent.predicted_availability _).
  assert (length y_true = length y_pred) as Hsame.
  { subst y_true y_pred. rewrite length_y_true, length_map, Hlen by lia. lia. }
  assert (y_true = [] <-> horizon = 0) as Hempty.
  { rewrite <- length_zero_iff_nil. subst y_true. rewrite length_y_true by lia. lia. }
  destruct (decide (y_true = [])) as [Hnil|Hne].
  - assert (y_pred = []) as Hnil'.
    { rewrite Hnil in Hsame. destruct y_pred; [reflexivity | discriminate]. }
    rewrite Hnil, Hnil'. cbn. eexists. split; [reflexivity|]. split; [reflexivity|].
    split; [reflexivity|]. intros Hpos. apply Hempty in Hnil. lia.
  - destruct (metrics_return y_true y_pred Hsame Hne) as (m & r & Em & Er).
    pose proof (mape_nonneg y_true y_pred m Em) as Hm.
    rewrite Em, Er. cbn [Py.bind Py.ret np_round np_round_real].
    eexists. split; [reflexivity|]. split; [reflexivity|].
    split.
    + intros Hz. apply Hempty in Hz. contradiction.
    + intros _. cbn [forecast_mape]. eexists. split; [reflexivity|].
      now apply (round_ge_Z _ 0).
Qed.

Lemma replay_succeeds (h : Harness) (df : DataFrame) (zone : string)
    (horizon lookback : Z) :
  Z.max 40 (lookback / 2) <= Z.of_nat (length (zone_rows zone df)) ->
  (20 <= length (AnomalyAgent.window df zone lookback))%nat ->
  0 < horizon <= Z.of_nat (length (zone_rows zone df)) ->
  exists report, fst (run h df zone horizon lookback) = inr report.
Proof.
  intros Hn Hwin Hh.
  destruct (replay_outcome h df zone horizon lookback Hn Hwin)
    as (forecast & found & g & k & agent & Hlen & ->).
  cbn [fst].
  destruct (metrics_return
              (map availability
                 (tail horizon (sort_values_timestamp (zone_rows zone df))))
              (map ForecastAgent.predicted_availability
                 (ForecastAgent.predictions forecast))) as (m & r & -> & ->).
  - rewrite length_y_true, length_map, Hlen by lia. lia.
  - intros Hnil. apply (f_equal length) in Hnil.
    rewrite length_y_true in Hnil by lia. cbn in Hnil. lia.
  - cbn [Py.bind Py.ret]. eauto.
Qed.

End ReplayFacts.

Section SimulateFacts.
Import Frame Simulate Views.
Context `{Rng} `{Trig}.

Lemma hour_record_plausible (zone : string) (bd bv bi : Q) (i : nat) (ts : Z)
    (rng : Generator) :
  plausible zone (fst (hour_record zone bd bv bi i ts rng))
  /\ timestamp (fst (hour_record zone bd bv bi i ts rng)) = ts.
Proof.
  unfold hour_record.
  destruct (rng_choice _ _ rng) as [weather g1].
  destruct (rng_normal 0 6 g1) as [n1 g2].
  destruct (rng_normal 0 (8 # 100) g2) as [n2 g3].
  destruct (rng_normal 0 (10 # 100) g3) as [n3 g4].
  destruct (rng_normal 0 (3 # 100) g4) as [n4 g5].
  destruct (rng_random g5) as [shock g6].
  destruct (Qlt_le_dec shock (18 # 1000)) as [Hs|Hs];
    [destruct (rng_uniform (2 # 10) (4 # 10) g6) as [drop g7]|];
    cbn [fst zone_id timestamp availability demand drivers inventory];
    (split; [|reflexivity]); unfold plausible;
    cbn [zone_id availability demand drivers inventory];
    (split; [reflexivity|]);
    (split; [apply round_unit_interval; apply clip_unit_interval|]);
    (split; [apply (round_ge_Z _ 5), Q.le_max_l|]);
    (split; [apply (round_ge_Z _ 3), Q.le_max_l | apply (round_ge_Z _ 4), Q.le_max_l]).
Qed.

Lemma zone_records_spec (zone : string) (bd bv bi : Q) (timestamps : list Z) (i : nat)
    (rng : Generator) :
  Forall (plausible zone) (fst (zone_records zone bd bv bi i timestamps rng))
  /\ map timestamp (fst (zone_records zone bd bv bi i timestamps rng)) = timestamps.
Proof.
  revert i rng. induction timestamps as [|ts rest IH]; intros i rng.
  - split; [constructor | reflexivity].
  - cbn [zone_records].
    pose proof (hour_record_plausible zone bd bv bi i ts rng) as [Hp Hts].
    destruct (hour_record zone bd bv bi i ts rng) as [record g]. cbn [fst] in Hp, Hts.
    destruct (IH (S i) g) as [Hall Hmap].
    destruct (zone_records zone bd bv bi (S i) rest g) as [records g'].
    cbn [fst map] in *. split; [now constructor | now rewrite Hts, Hmap].
Qed.

Lemma all_records_spec (zones : list Z) (timestamps : list Z) (rng : Generator) :
  length (fst (all_records zones timestamps rng))
  = (length zones * length timestamps)%nat
  /\ Forall (fun o => exists z, z ∈ zones /\ plausible (zone_name z) o
                                /\ timestamp o ∈ timestamps)
       (fst (all_records zones timestamps rng))
  /\ forall z, z ∈ zones ->
       (length timestamps
        <= length (zone_rows (zone_name z) (fst (all_records zones timestamps rng))))%nat.
Proof.
  revert rng. induction zones as [|z rest IH]; intros rng.
  - cbn. split; [reflexivity|]. split; [constructor|]. intros z Hz. inversion Hz.
  - cbn [all_records].
    destruct (rng_uniform 50 120 rng) as [bd g1].
    destruct (rng_uniform 45 110 g1) as [bv g2].
    destruct (rng_uniform 60 140 g2) as [bi g3].
    pose proof (zone_records_spec (zone_name z) bd bv bi timestamps 0 g3) as [Hall Hmap].
    destruct (zone_records (zone_name z) bd bv bi 0 timestamps g3) as [records g4].
    cbn [fst] in Hall, Hmap.
    destruct (IH g4) as (Hlen & Hmore & Hrows).
    destruct (all_records rest timestamps g4) as [more g5]. cbn [fst] in *.
    assert (length records = length timestamps) as Hrec
      by (rewrite <- Hmap; now rewrite length_map).
    split; [rewrite length_app, Hlen, Hrec; cbn [length]; lia|]. split.
    + apply Forall_app. split.
      * apply Forall_forall. intros o Ho. exists z. split; [left|].
        rewrite Forall_forall in Hall. split; [now apply Hall|].
        rewrite <- Hmap. apply list_elem_of_fmap. eauto.
      * eapply Forall_impl; [exact Hmore|]. intros o (z' & Hz' & Hp).
        exists z'. split; [now right | exact Hp].
    + intros z' Hz'. unfold zone_rows. rewrite (filter_app (fun r => zone_id r = zone_name z') records more), length_app.
      apply elem_of_cons in Hz' as [->|Hz'].
      * assert (filter (fun r => zone_id r = zone_name z) records = records) as ->.
        { clear -Hall. induction Hall as [|o l [Hz _] _ IHl]; [reflexivity|].
          rewrite filter_cons, decide_True by exact Hz. now rewrite IHl. }
        lia.
      * specialize (Hrows z' Hz'). unfold zone_rows in Hrows.
        etransitivity; [exact Hrows | apply Nat.le_add_l].
Qed.

Lemma length_date_range (start : Z) (periods : nat) :
  length (date_range start periods) = periods.
Proof. unfold date_range. now rewrite length_map, length_seq. Qed.

Lemma zone_numbers (n_zones z : Z) :
  z ∈ map Z.of_nat (seq 1 (Z.to_nat n_zones)) <-> 1 <= z <= n_zones.
Proof.
  split.
  - intros Hin. apply list_elem_of_fmap in Hin as (k & -> & Hk).
    apply elem_of_seq in Hk. lia.
  - intros Hz. apply list_elem_of_fmap. exists (Z.to_nat z).
    split; [lia|]. apply elem_of_seq. lia.
Qed.

(** X26: generate_synthetic_data returns n_zones * hours records (none for
    n_zones <= 0); whatever the random draws, every record has an availability
    in [0, 1], demand >= 5, drivers >= 3, inventory >= 4, a zone 'zone_NN' with
    1 <= NN <= n_zones and a timestamp start + i hours with 0 <= i < hours,
    where start is the current instant minus hours. *)
Theorem synthetic_data_shape_and_bounds (utcnow n_zones : Z) (hours : nat) (seed : Z) :
  let df := generate_synthetic_data utcnow n_zones hours seed in
  length df = (Z.to_nat n_zones * hours)%nat
  /\ Forall (fun o =>
       unit_interval (availability o)
       /\ (5 <= demand o)%Q /\ (3 <= drivers o)%Q /\ (4 <= inventory o)%Q
       /\ (exists z, 1 <= z <= n_zones /\ zone_id o = zone_name z)
       /\ (exists i, (i < hours)%nat
                     /\ timestamp o = utcnow - 3600 * Z.of_nat hours + 3600 * Z.of_nat i))
     df.
Proof.
  intros df. subst df. unfold generate_synthetic_data.
  destruct (all_records_spec (map Z.of_nat (seq 1 (Z.to_nat n_zones)))
              (date_range (utcnow - 3600 * Z.of_nat hours) hours) (default_rng seed))
    as (Hlen & Hall & _).
  split.
  - rewrite Hlen, length_map, length_seq, length_date_range. reflexivity.
  - eapply Forall_impl; [exact Hall|].
    intros o (z & Hz & (Hzone & Hav & Hd & Hv & Hi) & Hts).
    split; [exact Hav|]. split; [exact Hd|]. split; [exact Hv|]. split; [exact Hi|].
    split.
    + exists z. split; [now apply zone_numbers | exact Hzone].
    + unfold date_range in Hts. apply list_elem_of_fmap in Hts as (i & -> & Hi').
      apply elem_of_seq in Hi'. exists i. split; [lia | reflexivity].
Qed.

End SimulateFacts.

Section SimulateThenForecast.
Import Frame Simulate ForecastAgent Views.
Context `{Rng} `{Trig} `{Regressor} `{Isoformat}.

Lemma viable_forecast (models : gmap string Model) (df : DataFrame) (zone : string)
    (horizon : Z) :
  (31 <= length (zone_rows zone df))%nat ->
  exists result,
    predict (train models df) df zone horizon = inr result
    /\ fr_zone_id result = zone
    /\ length (predictions result) = Z.to_nat horizon.
Proof.
  intros Hn.
  assert (train models df !! zone = Some (fitted df zone)) as Hm.
  { rewrite train_lookup, decide_True; [reflexivity|]. now apply viable_iff. }
  rewrite (predict_with_model _ _ _ _ _ Hm).
  pose proof (length_zone_features zone df) as Hlen.
  destruct (last _) as [row|] eqn:Hlast.
  - eexists. split; [reflexivity|]. cbn. split; [reflexivity | apply length_predict_loop].
  - apply last_None in Hlast. rewrite Hlast in Hlen. cbn in Hlen. lia.
Qed.

(** X27: On synthetic data of at least 31 hours, training and then predicting
    returns a forecast with max(horizon, 0) predictions for every generated
    zone, whatever the random draws and the regressor. *)
Theorem synthetic_history_trains_every_zone (utcnow n_zones : Z) (hours : nat) (seed : Z)
    (models : gmap string Model) (z horizon : Z) :
  (31 <= hours)%nat -> 1 <= z <= n_zones ->
  let df := generate_synthetic_data utcnow n_zones hours seed in
  exists result,
    predict (train models df) df (zone_name z) horizon = inr result
    /\ fr_zone_id result = zone_name z
    /\ length (predictions result) = Z.to_nat horizon.
Proof.
  intros Hh Hz df. apply viable_forecast. subst df. unfold generate_synthetic_data.
  destruct (all_records_spec (map Z.of_nat (seq 1 (Z.to_nat n_zones)))
              (date_range (utcnow - 3600 * Z.of_nat hours) hours) (default_rng seed))
    as (_ & _ & Hrows).
  specialize (Hrows z (proj2 (zone_numbers n_zones z) Hz)).
  rewrite length_date_range in Hrows. lia.
Qed.

End SimulateThenForecast.

Section UnitCheck.
Import Frame DemoExtra Views.

Lemma availabilities_in_unit_sound (df : DataFrame) :
  availabilities_in_unit df = true ->
  Forall (fun o => unit_interval (availability o)) df.
Proof.
  unfold availabilities_in_unit. rewrite forallb_forall, Forall_forall.
  intros Hall o Ho. apply list_elem_of_In in Ho. specialize (Hall o Ho).
  apply andb_true_iff in Hall as [H0 H1].
  split; now apply Qle_bool_iff.
Qed.

End UnitCheck.

Section ForecastExtraWitnesses.
Import Frame ForecastAgent Demo DemoExtra Views.

Lemma predict_needs_history_witness :
  predict (train ∅ df40) (history "zone_01" 1) "zone_01" 3
  = inl (Py.ValueError "Insufficient feature history for zone_01")
  /\ exists result,
       predict (train ∅ df40) df40 "zone_01" 3 = inr result
       /\ length (predictions result) = 3%nat.
Proof.
  assert (train ∅ df40 !! "zone_01" = Some (fitted df40 "zone_01")) as Hm
    by (vm_compute; reflexivity).
  split.
  - apply (proj1 (predict_needs_history _ (history "zone_01" 1) "zone_01" 3 _ Hm)).
    vm_compute. lia.
  - destruct (proj2 (predict_needs_history _ df40 "zone_01" 3 _ Hm))
      as (result & E & _ & Hlen & _); [vm_compute; lia|].
    exists result. split; [exact E | exact Hlen].
Defined.

Lemma forecast_ignores_row_order_witness :
  predict (train ∅ df40) df40 "zone_01" 3
  = predict (train ∅ df40) df40_latest_first "zone_01" 3.
Proof.
  assert (df40 ≡ₚ df40_latest_first) as Hp
    by (unfold df40_latest_first; symmetry; apply reverse_Permutation).
  assert (NoDup (map timestamp (zone_rows "zone_01" df40))) as Hnd
    by (apply (bool_decide_unpack _); vm_compute; exact I).
  exact (proj2 (proj2 (forecast_ignores_row_order (train ∅ df40) df40 df40_latest_first
                         "zone_01" 3 Hp Hnd))).
Defined.

Lemma train_is_idempotent_witness :
  train (train ∅ df40) df40 = train ∅ df40
  /\ train ∅ df40 !! "zone_09" = None
  /\ train ∅ df40 !! "zone_01" = train (train ∅ df_calm) df40 !! "zone_01".
Proof.
  destruct (train_is_idempotent ∅ df40) as (Hsame & Hshort & Hlong).
  split; [exact Hsame|]. split.
  - rewrite (Hshort "zone_09"); [reflexivity | vm_compute; lia].
  - apply Hlong. vm_compute. lia.
Defined.

Lemma engineered_features_bounded_witness :
  unit_interval (availability_lag_1 (current_row demo_state))
  /\ unit_interval (availability_roll_3 (current_row demo_state)).
Proof.
  assert (Forall (fun o => unit_interval (availability o)) df40) as Hall
    by (apply availabilities_in_unit_sound; vm_compute; reflexivity).
  assert (current_row demo_state ∈ _build_features df40) as Hin
    by (apply (list_elem_of_lookup_2 _ 38); vm_compute; reflexivity).
  destruct (engineered_features_bounded df40 _ Hall Hin) as (Hlag & Hroll & _).
  split; [exact Hlag | exact Hroll].
Defined.

Lemma recursion_stays_bounded_witness :
  unit_interval
    (availability_roll_3
       (current_row
          (state_after (fitted df40 "zone_01") 3
             {| current_row := current_row demo_state;
                current_ts := timestamp (obs (current_row demo_state)) |}))).
Proof.
  assert (Forall (fun o => unit_interval (availability o)) df40) as Hall
    by (apply availabilities_in_unit_sound; vm_compute; reflexivity).
  assert (current_row demo_state ∈ _build_features df40) as Hin
    by (apply (list_elem_of_lookup_2 _ 38); vm_compute; reflexivity).
  exact (proj1 (proj2 (recursion_stays_bounded (fitted df40 "zone_01") df40 _ 3
                         Hall Hin))).
Defined.

Lemma features_have_no_lookahead_witness :
  exists r1 r2,
    _build_features df40 !! 2%nat = Some r1
    /\ _build_features (history "zone_01" 10) !! 2%nat = Some r2
    /\ availability_lag_1 r1 = availability_lag_1 r2
    /\ availability_roll_3 r1 = availability_roll_3 r2.
Proof.
  destruct (_build_features df40 !! 2%nat) as [r1|] eqn:H1;
    [|vm_compute in H1; discriminate].
  destruct (_build_features (history "zone_01" 10) !! 2%nat) as [r2|] eqn:H2;
    [|vm_compute in H2; discriminate].
  exists r1, r2. split; [reflexivity|]. split; [reflexivity|].
  apply (features_have_no_lookahead df40 (history "zone_01" 10) 2 r1 r2);
    [vm_compute; reflexivity | exact H1 | exact H2].
Defined.

End ForecastExtraWitnesses.

Section AnomalyExtraWitnesses.
Import Frame Events AnomalyAgent Demo DemoExtra Views.

Lemma detect_needs_twenty_rows_witness :
  Py.raises (detect (7 # 100) df40 "zone_01" 10).
Proof.
  apply (proj2 (proj2 (detect_needs_twenty_rows (7 # 100) df40 "zone_01" 10))). lia.
Defined.

Lemma detect_events_describe_rows_witness :
  exists result,
    detect (7 # 100) df40 "zone_01" 30 = inr result
    /\ ar_zone_id result = "zone_01"
    /\ (length (events result) <= length (window df40 "zone_01" 30))%nat.
Proof.
  destruct (detect (7 # 100) df40 "zone_01" 30) as [e|result] eqn:E;
    [vm_compute in E; discriminate|].
  destruct (detect_events_describe_rows _ _ _ _ result E) as (Hz & Hlen & _).
  exists result. split; [reflexivity|]. split; [exact Hz | exact Hlen].
Defined.

Lemma detect_keeps_ties_in_time_order_witness :
  exists result,
    detect (7 # 100) df40 "zone_01" 30 = inr result
    /\ filter (fun e => score_key e == 0)%Q (events result)
       = filter (fun e => score_key e == 0)%Q
           (map (event_of (fitted_forest (7 # 100) (window df40 "zone_01" 30)))
              (filter (fun r => forest_predict
                                  (fitted_forest (7 # 100) (window df40 "zone_01" 30))
                                  (metrics_of r) = -1)
                 (window df40 "zone_01" 30))).
Proof.
  destruct (detect (7 # 100) df40 "zone_01" 30) as [e|result] eqn:E;
    [vm_compute in E; discriminate|].
  exists result. split; [reflexivity|].
  exact (detect_keeps_ties_in_time_order _ _ _ _ result 0%Q E).
Defined.

End AnomalyExtraWitnesses.

Section ReasoningExtraWitnesses.
Import Events ReasoningAgent Demo DemoExtra Views.

Lemma feedback_entries_by_rating_witness :
  recall (ingest_feedback (ingest_feedback fresh_agent "e1" "late" 2) "e1" "fixed" 5)
    (fb_id "e1" 2)
  = Some (feedback_text "e1" "late" 2).
Proof.
  apply (proj1 (proj2 (feedback_entries_by_rating fresh_agent "e1" "late" "fixed" 2 5))).
  lia.
Defined.

Lemma reason_remembers_for_next_time_witness :
  exists payload a',
    reason fresh_agent sample_event = inr (payload, a')
    /\ _query_context a' (event_key sample_event) 3
       = [memory_text (event_key sample_event) (explanation payload)].
Proof.
  destruct (reason fresh_agent sample_event) as [e|[payload a']] eqn:E;
    [vm_compute in E; discriminate|].
  exists payload, a'. split; [reflexivity|].
  exact (proj1 (proj2 (reason_remembers_for_next_time fresh_agent sample_event
                         payload a' eq_refl E))).
Defined.


Lemma feedback_never_reaches_prompt_witness :
  _query_context (ingest_feedback fresh_agent (event_key sample_event) "late" 2)
    (event_key sample_event) 3
  = _query_context fresh_agent (event_key sample_event) 3.
Proof.
  exact (proj1 (feedback_never_reaches_prompt fresh_agent sample_event "late" 2 eq_refl)).
Defined.

End ReasoningExtraWitnesses.

Section RunnerExtraWitnesses.
Import Frame Events Runner Demo DemoExtra Views.

Lemma run_reasons_about_top_event_witness :
  exists out,
    fst (run df40 "zone_01" 3 30 fresh_state) = inr out
    /\ map step (traces out) = ["forecast"; "anomaly"; "reason"; "action"].
Proof.
  destruct (forecast_outcome fresh_state df40 "zone_01" 3) as [e|fr] eqn:Hfr;
    [vm_compute in Hfr; discriminate|].
  destruct (AnomalyAgent.detect (contamination fresh_state) df40 "zone_01" 30)
    as [e|found] eqn:Hdet; [vm_compute in Hdet; discriminate|].
  destruct (AnomalyAgent.events found) as [|top rest] eqn:Hev.
  { vm_compute in Hdet. apply (inj inr) in Hdet. subst found. discriminate Hev. }
  destruct (run_reasons_about_top_event fresh_state df40 "zone_01" 3 30 fr found
              top rest Hfr Hdet Hev)
    as (out & payload & agent & Hout & _ & _ & _ & _ & _ & Hsteps & _).
  exists out. split; [exact Hout | exact Hsteps].
Defined.

Lemma run_output_shape_witness :
  exists out,
    fst (run df_calm "zone_02" 2 24 fresh_state) = inr out
    /\ zone_id out = "zone_02"
    /\ map step (traces out) = ["forecast"; "anomaly"; "reason"; "action"].
Proof.
  destruct (fst (run df_calm "zone_02" 2 24 fresh_state)) as [e|out] eqn:E;
    [vm_compute in E; discriminate|].
  destruct (run_output_shape fresh_state df_calm "zone_02" 2 24 out E)
    as (Hz & Hsteps & _).
  exists out. split; [reflexivity|]. split; [exact Hz | exact Hsteps].
Defined.

Lemma run_reports_forecast_failure_first_witness :
  fst (run (history "zone_01" 10) "zone_01" 3 30 fresh_state)
  = inl (Py.ValueError "No model trained for zone_01").
Proof.
  assert (forecast_outcome fresh_state (history "zone_01" 10) "zone_01" 3
          = inl (Py.ValueError "No model trained for zone_01")) as Hfr
    by (vm_compute; reflexivity).
  exact (proj1 (run_reports_forecast_failure_first fresh_state (history "zone_01" 10)
                  "zone_01" 3 30 _ Hfr)).
Defined.

End RunnerExtraWitnesses.

Section EvaluationExtraWitnesses.
Import Frame Metrics BusinessMetrics ReplayHarness Demo DemoExtra Views.
Local Open Scope Q_scope.

Lemma estimate_impact_ranges_witness :
  12 <= estimated_mttr_reduction_minutes (estimate_impact 5 10 6 2) <= 50.
Proof.
  apply (estimate_impact_ranges 5 10 6 2); lia.
Defined.

Lemma metrics_are_nonnegative_witness :
  exists m, mape documented_true documented_pred = inr (fin m) /\ 0 <= m.
Proof.
  destruct (mape documented_true documented_pred) as [e|[|m]] eqn:E;
    [vm_compute in E; discriminate | vm_compute in E; discriminate |].
  exists m. split; [reflexivity|].
  exact (proj1 (metrics_are_nonnegative documented_true documented_pred) m E).
Defined.

Lemma metrics_edge_cases_witness :
  mape documented_true [1 # 2; 1 # 2]
  = inl (Py.ValueError "operands could not be broadcast together").
Proof.
  apply (proj1 (proj2 (proj2 (metrics_edge_cases documented_true [1 # 2; 1 # 2]))));
    cbn; lia.
Defined.

Lemma replay_needs_history_witness :
  ReplayHarness.run fresh_harness (history "zone_01" 10) "zone_01" 6 120
  = (inl (Py.ValueError "Insufficient records for replay on zone_01"), fresh_harness).
Proof.
  apply (replay_needs_history fresh_harness (history "zone_01" 10) "zone_01" 6 120).
  vm_compute. reflexivity.
Defined.

Lemma replay_counts_witness :
  exists report,
    fst (ReplayHarness.run fresh_harness df40 "zone_01" 3 30) = inr report
    /\ ReplayHarness.zone_id report = "zone_01"
    /\ (generated_actions report <= 20)%Z.
Proof.
  destruct (replay_succeeds fresh_harness df40 "zone_01" 3 30) as (report & E);
    [vm_compute; discriminate | vm_compute; lia | vm_compute; split; [reflexivity | discriminate] |].
  destruct (replay_counts fresh_harness df40 "zone_01" 3 30 report E)
    as (found & acknowledged & _ & Hz & _ & Hg & _).
  exists report. split; [exact E|]. split; [exact Hz|]. lia.
Defined.

Lemma replay_horizon_beyond_history_witness :
  fst (ReplayHarness.run fresh_harness df40 "zone_01" 50 30)
  = inl (Py.ValueError "operands could not be broadcast together").
Proof.
  apply (replay_horizon_beyond_history fresh_harness df40 "zone_01" 50 30);
    [vm_compute; discriminate | vm_compute; lia | vm_compute; reflexivity].
Defined.

Lemma replay_returns_report_witness :
  exists report,
    fst (ReplayHarness.run fresh_harness df40 "zone_01" 3 30) = inr report
    /\ exists m, forecast_mape report = Metrics.fin m /\ 0 <= m.
Proof.
  destruct (replay_returns_report fresh_harness df40 "zone_01" 3 30)
    as (report & E & _ & _ & Hpos);
    [vm_compute; discriminate | vm_compute; lia
    | vm_compute; split; discriminate |].
  exists report. split; [exact E|]. apply Hpos. lia.
Defined.

End EvaluationExtraWitnesses.

Section SimulateExtraWitnesses.
Import Frame Simulate ForecastAgent Demo DemoExtra Views.

Lemma synthetic_history_trains_every_zone_witness :
  exists result,
    predict (train ∅ (generate_synthetic_data 1700000000 3 31 7))
      (generate_synthetic_data 1700000000 3 31 7) (zone_name 2) 6 = inr result
    /\ length (predictions result) = 6%nat.
Proof.
  destruct (synthetic_history_trains_every_zone 1700000000 3 31 7 ∅ 2 6)
    as (result & E & _ & Hlen); [lia | lia |].
  exists result. split; [exact E | exact Hlen].
Defined.

End SimulateExtraWitnesses.

Section RequestBounds.
Import Frame Events Schemas Views.
Context `{OutlierModel} `{Isoformat}.

Lemma horizon_bounds (horizon : Z) : horizon_ok horizon = true -> 1 <= horizon <= 48.
Proof. unfold horizon_ok. rewrite andb_true_iff, !Z.leb_le. lia. Qed.

Lemma lookback_bounds (lookback : Z) : lookback_ok lookback = true -> 24 <= lookback <= 720.
Proof. unfold lookback_ok. rewrite andb_true_iff, !Z.leb_le. lia. Qed.

Lemma window_within_bounds (df : DataFrame) (zone : string) (lookback : Z) :
  20 <= lookback -> (20 <= length (zone_rows zone df))%nat ->
  (20 <= length (AnomalyAgent.window df zone lookback))%nat.
Proof.
  intros Hl Hn. rewrite length_window. destruct (Z.ltb_spec lookback 0); lia.
Qed.

Lemma window_short (df : DataFrame) (zone : string) (lookback : Z) :
  0 <= lookback -> (length (zone_rows zone df) < 20)%nat ->
  (length (AnomalyAgent.window df zone lookback) < 20)%nat.
Proof.
  intros Hl Hn. rewrite length_window. destruct (Z.ltb_spec lookback 0); lia.
Qed.

Lemma detect_returns (contamination : Q) (df : DataFrame) (zone : string) (lookback : Z) :
  (20 <= length (AnomalyAgent.window df zone lookback))%nat ->
  exists found,
    AnomalyAgent.detect contamination df zone lookback = inr found
    /\ (length (AnomalyAgent.events found)
        <= length (AnomalyAgent.window df zone lookback))%nat.
Proof.
  intros Hn.
  destruct (AnomalyAgent.detect contamination df zone lookback) as [e|found] eqn:E.
  - exfalso. unfold AnomalyAgent.detect in E.
    destruct (Nat.ltb_spec (length (AnomalyAgent.window df zone lookback)) 20);
      [lia | discriminate].
  - exists found. split; [reflexivity|].
    destruct (detect_events _ _ _ _ _ E) as (_ & _ & ->).
    rewrite length_sort_by, length_map. apply length_filter.
Qed.

End RequestBounds.

Section ApiFacts.
Import Frame Events Schemas Routes Runner Views.
Context `{Regressor} `{OutlierModel} `{Isoformat} `{JsonText}
        `{ExplanationService} `{VectorStore} `{Clock}.

Lemma run_returns (s : State) (df : DataFrame) (zone : string) (horizon lookback : Z)
    (fr : ForecastAgent.ForecastResult) (found : AnomalyAgent.AnomalyResult) :
  forecast_outcome s df zone horizon = inr fr ->
  AnomalyAgent.detect (contamination s) df zone lookback = inr found ->
  exists out,
    fst (run df zone horizon lookback s) = inr out
    /\ zone_id out = zone
    /\ f_predictions (forecast out) = ForecastAgent.predictions fr
    /\ an_events (anomalies out) = AnomalyAgent.events found
    /\ map step (traces out) = ["forecast"; "anomaly"; "reason"; "action"].
Proof.
  intros Hfr Hdet. unfold forecast_outcome in Hfr. unfold_run.
  rewrite Hfr. cbn. rewrite Hdet. cbn.
  destruct (AnomalyAgent.events found) as [|top rest] eqn:Hev; cbn.
  - eexists. split; [reflexivity|]. cbn. auto.
  - destruct (reason_returns (reasoner s) top) as (text & Er & _).
    unfold_branch. rewrite Er. unfold_branch.
    eexists. split; [reflexivity|]. cbn -[ActionAgent.plan]. auto.
Qed.

Lemma run_raises_without_window (s : State) (df : DataFrame) (zone : string)
    (horizon lookback : Z) :
  (length (AnomalyAgent.window df zone lookback) < 20)%nat ->
  Py.raises (fst (run df zone horizon lookback s)).
Proof.
  intros Hn.
  assert (AnomalyAgent.detect (contamination s) df zone lookback
          = inl (Py.ValueError
                   ("Insufficient records for anomaly detection in " +:+ zone))) as Hdet.
  { unfold AnomalyAgent.detect.
    destruct (Nat.ltb_spec (length (AnomalyAgent.window df zone lookback)) 20);
      [reflexivity | lia]. }
  unfold Py.raises. unfold_run.
  destruct (ForecastAgent.predict _ df zone horizon) as [e|fr]; cbn;
    rewrite Hdet; cbn; eauto.
Qed.

(** X28: For a pipeline request within the schema's bounds (horizon 1..48,
    lookback 24..720): an empty table gives HTTPException 404 and touches no
    agent; a zone with fewer than 20 rows makes the endpoint raise; a zone with
    at least 31 rows always gets an output, with exactly horizon predictions, at
    most lookback events and the traces forecast, anomaly, reason, action. *)
Theorem pipeline_endpoint_within_bounds (payload : PipelineRequest) (df : DataFrame)
    (s : State) :
  PipelineRequest_ok payload = true ->
  let rows := length (zone_rows (pr_zone payload) df) in
  (df = [] ->
   run_pipeline payload df s
   = (inl (HTTPException 404 "No operational data loaded"), s))
  /\ ((rows < 20)%nat -> Py.raises (fst (run_pipeline payload df s)))
  /\ ((31 <= rows)%nat ->
      exists out,
        fst (run_pipeline payload df s) = inr out
        /\ zone_id out = pr_zone payload
        /\ length (f_predictions (forecast out)) = Z.to_nat (pr_horizon payload)
        /\ (1 <= length (f_predictions (forecast out)) <= 48)%nat
        /\ (length (an_events (anomalies out)) <= Z.to_nat (pr_lookback payload))%nat
        /\ map step (traces out) = ["forecast"; "anomaly"; "reason"; "action"]).
Proof.
  intros Hok rows. unfold PipelineRequest_ok in Hok.
  apply andb_true_iff in Hok as [Hh Hl].
  apply horizon_bounds in Hh. apply lookback_bounds in Hl.
  split; [intros ->; reflexivity|]. split.
  - intros Hshort. destruct df as [|o df']; [cbn; unfold Py.raises; eauto|].
    cbn [run_pipeline]. apply run_raises_without_window.
    apply window_short; [lia | exact Hshort].
  - intros Hlong. subst rows.
    destruct df as [|o df']; [cbn in Hlong; lia|].
    cbn [run_pipeline]. set (df := o :: df') in *.
    destruct (viable_forecast (forecaster s) df (pr_zone payload) (pr_horizon payload)
                Hlong) as (fr & Hfr & _ & Hlen).
    destruct (detect_returns (contamination s) df (pr_zone payload) (pr_lookback payload))
      as (found & Hdet & Hcount); [apply window_within_bounds; lia|].
    destruct (run_returns s df _ _ _ fr found Hfr Hdet)
      as (out & Hout & Hz & Hp & He & Hsteps).
    exists out. split; [exact Hout|]. split; [exact Hz|].
    rewrite Hp, He, Hlen. split; [reflexivity|]. split; [lia|].
    split; [|exact Hsteps].
    rewrite length_window in Hcount.
    destruct (Z.ltb_spec (pr_lookback payload) 0); lia.
Qed.

(** X29: For a replay request within the schema's bounds (horizon 1..48,
    lookback 24..720): an empty table gives HTTPException 404; a zone with fewer
    than max(40, lookback // 2) rows gives 'Insufficient records for replay';
    with that many rows the replay returns a report with a non-negative MAPE
    when horizon <= rows and fails with numpy's broadcasting ValueError when
    horizon > rows; with at least 360 rows every such request returns a report. *)
Theorem replay_endpoint_within_bounds (payload : ReplayRequest) (df : DataFrame)
    (h : ReplayHarness.Harness) :
  ReplayRequest_ok payload = true ->
  let rows := Z.of_nat (length (zone_rows (rr_zone payload) df)) in
  let outcome := fst (evaluate_replay payload df h) in
  (df = [] -> outcome = inl (HTTPException 404 "No operational data loaded"))
  /\ (df <> [] -> rows < Z.max 40 (rr_lookback payload / 2) ->
      outcome
      = inl (Py.ValueError ("Insufficient records for replay on " +:+ rr_zone payload)))
  /\ (Z.max 40 (rr_lookback payload / 2) <= rows -> rows < rr_horizon payload ->
      outcome = inl (Py.ValueError "operands could not be broadcast together"))
  /\ (Z.max 40 (rr_lookback payload / 2) <= rows -> rr_horizon payload <= rows ->
      exists report m,
        outcome = inr report
        /\ ReplayHarness.forecast_mape report = Metrics.fin m /\ (0 <= m)%Q)
  /\ (360 <= rows -> exists report, outcome = inr report).
Proof.
  intros Hok rows outcome. unfold ReplayRequest_ok in Hok.
  apply andb_true_iff in Hok as [Hh Hl].
  apply horizon_bounds in Hh. apply lookback_bounds in Hl.
  assert (Z.max 40 (rr_lookback payload / 2) <= rows ->
          df <> []
          /\ (20 <= length (AnomalyAgent.window df (rr_zone payload) (rr_lookback payload)))%nat)
    as Hready.
  { intros Hn. split.
    - intros ->. subst rows. cbn in Hn. lia.
    - apply window_within_bounds; subst rows; lia. }
  assert (Z.max 40 (rr_lookback payload / 2) <= rows -> rr_horizon payload <= rows ->
          exists report m,
            outcome = inr report
            /\ ReplayHarness.forecast_mape report = Metrics.fin m /\ (0 <= m)%Q)
    as Hgood.
  { intros Hn Hfit. destruct (Hready Hn) as [Hne Hwin]. subst outcome.
    destruct df as [|o df']; [congruence|]. cbn [evaluate_replay].
    set (df := o :: df') in *. fold rows.
    destruct (replay_outcome h df (rr_zone payload) (rr_horizon payload)
                (rr_lookback payload) Hn Hwin)
      as (forecast & found & g & k & agent & Hlen & ->).
    cbn [fst].
    set (y_true := map availability _).
    set (y_pred := map ForecastAgent.predicted_availability _).
    assert (length y_true = length y_pred) as Hsame.
    { subst y_true y_pred. rewrite length_y_true, length_map, Hlen by lia.
      subst rows. lia. }
    assert (y_true <> []) as Hnonempty.
    { intros Hnil. apply (f_equal length) in Hnil. subst y_true.
      rewrite length_y_true in Hnil by lia.
      change (length (@nil Q)) with 0%nat in Hnil. subst rows. lia. }
    destruct (metrics_return y_true y_pred Hsame Hnonempty) as (m & r & Em & Er).
    pose proof (mape_nonneg y_true y_pred m Em) as Hm.
    rewrite Em, Er. cbn [Py.bind Py.ret ReplayHarness.np_round ReplayHarness.np_round_real].
    eexists _, _. split; [reflexivity|]. cbn [ReplayHarness.forecast_mape].
    split; [reflexivity|]. now apply (round_ge_Z _ 0). }
  split; [intros ->; reflexivity|]. split; [|split; [|split]].
  - intros Hne Hshort. subst outcome. destruct df as [|o df']; [congruence|].
    cbn [evaluate_replay]. unfold ReplayHarness.run.
    unfold sort_values_timestamp. rewrite length_sort_by. fold rows.
    destruct (Z.ltb_spec rows (Z.max 40 (rr_lookback payload / 2))); [reflexivity | lia].
  - intros Hn Hbeyond. destruct (Hready Hn) as [Hne Hwin]. subst outcome.
    destruct df as [|o df']; [congruence|]. cbn [evaluate_replay].
    set (df := o :: df') in *. fold rows.
    destruct (replay_outcome h df (rr_zone payload) (rr_horizon payload)
                (rr_lookback payload) Hn Hwin)
      as (forecast & found & g & k & agent & Hlen & ->).
    cbn [fst]. unfold Metrics.mape. rewrite broadcast_mismatch; [reflexivity| | |].
    + rewrite length_y_true, !length_map, Hlen by lia. subst rows. lia.
    + rewrite length_y_true by lia. subst rows. lia.
    + rewrite !length_map, Hlen. subst rows. lia.
  - intros Hn Hfit. now apply Hgood.
  - intros Hmany.
    assert (rr_lookback payload / 2 <= 360) by (apply Z.div_le_upper_bound; lia).
    destruct Hgood as (report & m & E & _); [lia | lia | eauto].
Qed.

End ApiFacts.

Section ApiWitnesses.
Import Frame Events Schemas Routes Runner Views Demo DemoExtra DemoRequests.

Lemma pipeline_endpoint_within_bounds_witness :
  exists out,
    fst (run_pipeline pipeline_request df40 fresh_state) = inr out
    /\ length (f_predictions (forecast out)) = 6%nat.
Proof.
  destruct (pipeline_endpoint_within_bounds pipeline_request df40 fresh_state eq_refl)
    as (_ & _ & Hlong).
  destruct Hlong as (out & Hout & _ & Hlen & _); [vm_compute; lia|].
  exists out. split; [exact Hout | exact Hlen].
Defined.

Lemma replay_endpoint_within_bounds_witness :
  exists report,
    fst (evaluate_replay replay_request df40 fresh_harness) = inr report.
Proof.
  destruct (replay_endpoint_within_bounds replay_request df40 fresh_harness eq_refl)
    as (_ & _ & _ & Hgood & _).
  destruct Hgood as (report & m & E & _);
    [vm_compute; discriminate | vm_compute; discriminate |].
  exists report. exact E.
Defined.

End ApiWitnesses.
